(** * Job submission and status polling of the art application

    A shallow embedding of the generation lifecycle of the repository:
    - [GenerationStore]  : src/stores/generationStore.ts
    - [SendJobRequest]   : src/queries/post/sendJobRequest.ts
    - [UseCreateJob]     : src/hooks/useCreateJob.tsx (row polling)
    - [VideoStatusPoll]  : src/app/home/components/videoStatusPoll.tsx
    - [FormattedPhotos]  : src/app/home/formattedPhotos.ts
    - [VideoStatusView]  : what the status poller renders
    - [PhotoGrid], [PhotoPage] : the grid records and
      src/app/home/photo/[id]/page.tsx (when the poller is mounted)
    - [SendJobRequestV1] : the submitter before video support
    - [CreateJob], [RowPolling] : the job hook (mutation, retry, cancel)
    - [VideoGenerationRoute], [VideoStatusRoute] : the two API routes
    - [StoreCalls]       : sequences of calls on the store

    Effects (toasts, log lines, HTTP requests, navigation, callbacks) are
    recorded in explicit traces; what the network or the database answers
    is an input of the functions. *)

From Stdlib Require Import ZArith NArith List Bool String Ascii Lia.
From Stdlib Require Import DecimalString.
From stdpp Require Import base decidable option list numbers strings gmap.
Import ListNotations.

Local Open Scope string_scope.

(** ** JavaScript values the code relies on *)
Module Js.

(** Truthiness of a string value: every string but the empty one. *)
Definition truthy_str (s : string) : bool :=
  match s with
  | EmptyString => false
  | String _ _ => true
  end.

(** Truthiness of a possibly undefined / null string. *)
Definition truthy_ostr (o : option string) : bool :=
  match o with
  | Some s => truthy_str s
  | None => false
  end.

(** [a || b] on strings where [a] may be undefined. *)
Definition or_str (a : option string) (b : string) : string :=
  match a with
  | Some s => if truthy_str s then s else b
  | None => b
  end.

(** Decimal rendering of a number inside a template literal. *)
Definition nat_to_string (n : nat) : string :=
  NilEmpty.string_of_uint (Nat.to_uint n).

(** A JS string as its sequence of UTF-16 code units. *)
Definition ustring := list N.

(** WhiteSpace and LineTerminator code units, the ones
    [String.prototype.trim] removes. *)
Definition is_space (c : N) : bool :=
  ((9 <=? c) && (c <=? 13) || (c =? 32) || (c =? 160) || (c =? 5760)
   || (8192 <=? c) && (c <=? 8202) || (c =? 8232) || (c =? 8233)
   || (c =? 8239) || (c =? 8287) || (c =? 12288) || (c =? 65279))%N.

Fixpoint trim_start (s : ustring) : ustring :=
  match s with
  | c :: s' => if is_space c then trim_start s' else s
  | [] => []
  end.

Definition trim_end (s : ustring) : ustring :=
  rev (trim_start (rev s)).

Definition trim (s : ustring) : ustring := trim_end (trim_start s).

(** [t] is [s] without a whitespace prefix and a whitespace suffix, and
    neither starts nor ends with whitespace. *)
Definition is_trim_of (s t : ustring) : Prop :=
  (exists pre post,
      s = (pre ++ t ++ post)%list
      /\ forallb is_space pre = true /\ forallb is_space post = true)
  /\ (forall c r, t = c :: r -> is_space c = false)
  /\ (forall c r, t = (r ++ [c])%list -> is_space c = false).

(** The code units of an ASCII literal. *)
Definition of_string (s : string) : ustring :=
  map N_of_ascii (list_ascii_of_string s).

End Js.

(** ** The in-flight store (zustand) *)
Module GenerationStore.

Inductive MediaType := image | video.

Record GenerationState := mkGen {
  isActive : bool;
  mediaType : MediaType
}.

(** The partial state handed to zustand's [set]. *)
Record Partial := mkPartial {
  p_isActive : option bool;
  p_mediaType : option MediaType
}.

(** [set] merges the partial state produced from the current one into
    it: fields the partial state lacks keep their value. *)
Definition set (f : GenerationState -> Partial) (s : GenerationState)
  : GenerationState :=
  let p := f s in
  {| isActive := default (isActive s) (p_isActive p);
     mediaType := default (mediaType s) (p_mediaType p) |}.

Definition initGenerationStore : GenerationState :=
  {| isActive := false; mediaType := image |}.

Definition defaultInitState : GenerationState :=
  {| isActive := false; mediaType := image |}.

(** [startGeneration: (mediaType = 'image') =>
      set(() => ({ isActive: true, mediaType }))];
    [None] is the omitted argument. *)
Definition startGeneration (arg : option MediaType)
  : GenerationState -> GenerationState :=
  let mediaType := default image arg in
  set (fun _ => {| p_isActive := Some true; p_mediaType := Some mediaType |}).

(** [stopGeneration: () => set(() => ({ isActive: false }))] *)
Definition stopGeneration : GenerationState -> GenerationState :=
  set (fun _ => {| p_isActive := Some false; p_mediaType := None |}).

End GenerationStore.

(** ** The job submitter *)
Module SendJobRequest.
Import GenerationStore.

(** The fields of [ExtendedUser] the submitter reads. *)
Record Wallet := mkWallet { privateKey : option string }.

Record ExtendedUser := mkUser {
  id : option string;
  creditBalance : Z;
  wallet : option Wallet
}.

Record Inputs := mkInputs {
  Prompt : Js.ustring;
  Seed : Z;
  n : Z
}.

(** [ImageGenerationRequest | VideoGenerationRequest] *)
Record GenerationRequest := mkRequest {
  inputs : Inputs;
  author : string;
  category : string
}.

(** [response.data] of the generation routes. *)
Record JobData := mkJobData {
  jobId : option string;
  postId : option Z;
  estimated_processing_time : option string
}.

Record ResponseBody := mkBody {
  status : bool;
  data : option JobData
}.

(** [error.response] of an axios error: the HTTP status and
    [data?.message]. *)
Record ErrorResponse := mkErrResp {
  err_status : Z;
  err_data_message : option string
}.

Inductive JsError :=
| AxiosError (code : option string) (response : option ErrorResponse)
             (message : string)
| PlainError (message : string).

(** What the awaited POST settles to. *)
Inductive Reply :=
| Fulfilled (body : option ResponseBody)
| Failed (error : JsError).

Inductive Effect :=
| LogError (msg : string)
| ToastError (msg : string)
| StopGeneration
| HttpPost (endpoint : string) (payload : GenerationRequest)
           (headers : list (string * string))
| ConsoleInfo (msg : string).

Record JobRef := mkJobRef {
  ref_jobId : string;
  ref_postId : option Z
}.

(** How the promise of [sendJobRequest] settles. *)
Inductive Outcome :=
| Returned (result : option JobRef)
| Thrown (error : JsError).

Definition mediaName (m : MediaType) : string :=
  match m with
  | image => "image"
  | video => "video"
  end.

(** The message shown for a failed request (both media paths). *)
Definition errorMessage (m : MediaType) (error : JsError) : string :=
  match error with
  | AxiosError code response message =>
      if bool_decide (code = Some "ECONNABORTED") then
        "Request timeout - please try again"
      else if bool_decide (err_status <$> response = Some 401%Z) then
        "Please log in to generate " ++ mediaName m ++ "s"
      else if bool_decide (err_status <$> response = Some 400%Z) then
        Js.or_str (response ≫= err_data_message) "Invalid request"
      else if bool_decide (err_status <$> response = Some 500%Z) then
        "Server error - please try again"
      else Js.or_str (response ≫= err_data_message) message
  | PlainError _ => "Failed to start " ++ mediaName m ++ " generation"
  end.

(** The effects of a [catch] block / [.catch] callback. *)
Definition onFailure (m : MediaType) (error : JsError) : list Effect :=
  [StopGeneration; ToastError (errorMessage m error);
   LogError "Error sending job request"].

(** The [.then] callback of the image path. *)
Definition onImageFulfilled (body : option ResponseBody) : list Effect :=
  match body with
  | Some b =>
      if status b then
        match data b ≫= estimated_processing_time with
        | Some t =>
            if Js.truthy_str t then [ConsoleInfo ("Processing time: " ++ t)]
            else []
        | None => []
        end
      else []
  | None => []
  end.

(** What the fire-and-forget promise chain of the image path does once
    the request settles. *)
Definition onImageSettled (reply : Reply) : list Effect :=
  match reply with
  | Fulfilled body => onImageFulfilled body
  | Failed error => onFailure image error
  end.

Definition requestHeaders (user : ExtendedUser) : list (string * string) :=
  let headers := [("Content-Type", "application/json")] in
  if (creditBalance user <=? 0)%Z
     && Js.truthy_ostr (wallet user ≫= privateKey)
  then (headers
          ++ [("Authorization",
               ("Bearer " ++ default "" (wallet user ≫= privateKey))%string)])%list
  else headers.

(** [sendJobRequest].  [imageCount] and [mediaType] are [None] when the
    caller omits them; the count is an integer; [seed] is the value drawn
    by [random.int(1e3, 1e8)]; [reply] is what the POST settles to (it is
    awaited on the video path only: on the image path the function
    returns once the request is issued and [onImageSettled] runs
    later). *)
Definition sendJobRequest (prompt : Js.ustring) (user : option ExtendedUser)
    (imageCount : option Z) (mediaType : option MediaType)
    (seed : Z) (reply : Reply) : Outcome * list Effect :=
  let imageCount := default 4%Z imageCount in
  let mediaType := default image mediaType in
  match user with
  | None =>
      (Returned None,
       [LogError "User is undefined, cannot send job request";
        ToastError ("Please log in to generate " ++ mediaName mediaType ++ "s");
        StopGeneration])
  | Some u =>
      if negb (Js.truthy_ostr (id u)) then
        (Returned None,
         [LogError "User ID is undefined, cannot send job request";
          ToastError "User authentication error";
          StopGeneration])
      else if bool_decide (prompt = [])
              || (length (Js.trim prompt) =? 0)%nat then
        (Returned None, [ToastError "Please enter a prompt"; StopGeneration])
      else if (1000 <? length prompt)%nat then
        (Returned None,
         [ToastError "Prompt too long (max 1000 characters)"; StopGeneration])
      else
        let requestPayload :=
          {| inputs :=
               {| Prompt := Js.trim prompt;
                  Seed := seed;
                  n := match mediaType with
                       | video => 1%Z
                       | image => Z.min (Z.max imageCount 1) 10
                       end |};
             author := default "" (id u);
             category := "GENERATION" |} in
        let headers := requestHeaders u in
        let apiEndpoint :=
          match mediaType with
          | video => "/api/videos/generations"
          | image => "/api/images/generations"
          end in
        match mediaType with
        | video =>
            let sent := [HttpPost apiEndpoint requestPayload headers] in
            let thrown error :=
              (Thrown error, (sent ++ onFailure video error)%list) in
            match reply with
            | Fulfilled body =>
                match body with
                | Some b =>
                    match status b, data b ≫= jobId with
                    | true, Some j =>
                        if Js.truthy_str j then
                          (Returned
                             (Some {| ref_jobId := j;
                                      ref_postId := data b ≫= postId |}),
                           sent)
                        else
                          thrown (PlainError
                            "Invalid response from video generation API")
                    | _, _ =>
                        thrown (PlainError
                          "Invalid response from video generation API")
                    end
                | None =>
                    thrown (PlainError
                      "Invalid response from video generation API")
                end
            | Failed error => thrown error
            end
        | image =>
            (Returned None, [HttpPost apiEndpoint requestPayload headers])
        end
  end.

(** The store after the effects of a trace: the [stopGeneration] the
    caller passes in is the store's. *)
Definition runStore (tr : list Effect) (s : GenerationState)
  : GenerationState :=
  fold_left (fun s e =>
               match e with
               | StopGeneration => stopGeneration s
               | _ => s
               end) tr s.

Definition isHttpPost (e : Effect) : bool :=
  match e with
  | HttpPost _ _ _ => true
  | _ => false
  end.

Definition isToastError (e : Effect) : bool :=
  match e with
  | ToastError _ => true
  | _ => false
  end.

(** The calls the submitter turns down: a prompt that is empty or all
    whitespace, or longer than 1000 code units, no user, or a user
    without an id. *)
Definition rejects (prompt : Js.ustring) (user : option ExtendedUser)
  : Prop :=
  forallb Js.is_space prompt = true
  \/ 1000 < length prompt
  \/ user = None
  \/ (exists u, user = Some u /\ Js.truthy_ostr (id u) = false).

(** The submission passes every check; [uid] is the user's id. *)
Definition accepts (prompt : Js.ustring) (u : ExtendedUser) (uid : string)
  : Prop :=
  id u = Some uid
  /\ Js.truthy_str uid = true
  /\ forallb Js.is_space prompt = false
  /\ length prompt <= 1000.

End SendJobRequest.

(** ** Row polling of the job hook (images) *)
Module UseCreateJob.
Import GenerationStore.

Inductive Effect :=
| ConsoleLog (msg : string)
| InvalidateQueries (queryKey : list string)
| RouterPush (path : string).

(** The hook's local state, the store it drives, the [latestPostId]
    variable of the polling effect and what the hook did so far. *)
Record Hook := mkHook {
  isGenerating : bool;
  progress : Z;
  store : GenerationState;
  latestPostId : option Z;
  effects : list Effect
}.

(** What the "latest post of the author" query settles to: a row, no
    row ([data] is null) or a rejected request. *)
Inductive QueryResult :=
| Row (id : Z)
| NoRow
| QueryRejected.

Definition id_to_string (id : Z) : string :=
  NilZero.string_of_int (Z.to_int id).

(** [getLatestPost] *)
Definition getLatestPost (q : QueryResult) (h : Hook) : Hook :=
  match q with
  | Row id =>
      {| isGenerating := isGenerating h; progress := progress h;
         store := store h; latestPostId := Some id;
         effects := (effects h ++ [ConsoleLog "Latest post ID"])%list |}
  | _ => h
  end.

(** The callback of [setInterval(..., 2000)]. *)
Definition pollTick (q : QueryResult) (h : Hook) : Hook :=
  match q with
  | Row id =>
      if bool_decide (Some id ≠ latestPostId h) then
        {| isGenerating := false;
           progress := 100;
           store := stopGeneration (store h);
           latestPostId := Some id;
           effects :=
             (effects h
              ++ [ConsoleLog "New post detected";
                  InvalidateQueries ["posts"];
                  RouterPush ("/home/photo/" ++ id_to_string id)%string])%list |}
      else h
  | NoRow => h
  | QueryRejected =>
      {| isGenerating := isGenerating h; progress := progress h;
         store := store h; latestPostId := latestPostId h;
         effects :=
           (effects h
            ++ [ConsoleLog "Polling check - no new posts yet"])%list |}
  end.

(** The interval exists only while the effect is set up:
    [if (!user || !isGenerating) return]. *)
Definition intervalTick (hasUser : bool) (q : QueryResult) (h : Hook)
  : Hook :=
  if negb hasUser || negb (isGenerating h) then h else pollTick q h.

End UseCreateJob.

(** ** Job-status polling (videos) *)
Module VideoStatusPoll.

Inductive JobState := queued | processing | completed | failed.

Record Video := mkVideo { s3 : string; url : string }.

Record VideoStatus := mkStatus {
  vs_jobId : string;
  vs_status : JobState;
  createdAt : string;
  updatedAt : string;
  video : option Video;
  vs_error : option string
}.

(** The props but the callback, whose calls are recorded. *)
Record Props := mkProps { postId : Z; jobId : string }.

(** The four [useState] cells. *)
Record State := mkState {
  status : option VideoStatus;
  isPolling : bool;
  error : option string;
  retryCount : nat
}.

Definition initialState : State :=
  {| status := None; isPolling := true; error := None; retryCount := 0 |}.

(** The body of a 2xx response: the status document, or what
    [response.json()] rejects with. *)
Inductive Body :=
| Parsed (statusData : VideoStatus)
| Unparsable (message : string).

(** What [fetch] settles to. *)
Inductive Response :=
| FetchRejected (message : string)
| Http (code : Z) (statusText : string) (body : Body).

(** [response.ok] *)
Definition ok (code : Z) : bool := ((200 <=? code) && (code <=? 299))%Z.

(** What the update of the [posts] table settles to. *)
Inductive UpdateReply := UpdateOk | UpdateError | UpdateRejected.

Record VideoDatum := mkDatum {
  vd_hash : string;
  vd_url : string;
  vd_s3 : string
}.

(** The [video_data] column of the [posts] table, by post id. *)
Abbreviation Posts := (gmap Z (list VideoDatum)).

(** The component, the requests in flight (each with the [retryCount]
    its closure captured), the URLs fetched so far, the arguments
    [onVideoReady] was called with, and the table. *)
Record World := mkWorld {
  st : State;
  inflight : list nat;
  fetched : list string;
  readyCalls : list string;
  posts : Posts
}.

Definition initialWorld (db : Posts) : World :=
  {| st := initialState; inflight := []; fetched := [];
     readyCalls := []; posts := db |}.

Definition withState (f : State -> State) (w : World) : World :=
  {| st := f (st w); inflight := inflight w; fetched := fetched w;
     readyCalls := readyCalls w; posts := posts w |}.

Definition setStatus (v : VideoStatus) (s : State) : State :=
  {| status := Some v; isPolling := isPolling s; error := error s;
     retryCount := retryCount s |}.

Definition setIsPolling (b : bool) (s : State) : State :=
  {| status := status s; isPolling := b; error := error s;
     retryCount := retryCount s |}.

Definition setError (e : string) (s : State) : State :=
  {| status := status s; isPolling := isPolling s; error := Some e;
     retryCount := retryCount s |}.

(** [setRetryCount] takes an updater: [(prev) => prev + 1], or the
    constant 0. *)
Definition setRetryCount (f : nat -> nat) (s : State) : State :=
  {| status := status s; isPolling := isPolling s; error := error s;
     retryCount := f (retryCount s) |}.

(** [updatePostWithVideo]: the rows with [id = postId] get the new
    [video_data]; a failed update is only logged. *)
Definition updatePostWithVideo (p : Props) (videoUrl s3Url : string)
    (r : UpdateReply) (w : World) : World :=
  match r with
  | UpdateOk =>
      {| st := st w; inflight := inflight w; fetched := fetched w;
         readyCalls := readyCalls w;
         posts :=
           alter (fun _ => [ {| vd_hash := videoUrl; vd_url := videoUrl;
                                vd_s3 := s3Url |} ])
                 (postId p) (posts w) |}
  | UpdateError | UpdateRejected => w
  end.

Definition onVideoReady (videoUrl : string) (w : World) : World :=
  {| st := st w; inflight := inflight w; fetched := fetched w;
     readyCalls := (readyCalls w ++ [videoUrl])%list; posts := posts w |}.

(** The [catch] block; [rc] is the [retryCount] of the closure. *)
Definition onCatch (rc : nat) (message : string) (w : World) : World :=
  if (10 <=? rc)%nat then
    withState (setIsPolling false) (withState (setError message) w)
  else withState (setRetryCount S) w.

(** [pollVideoStatus] from the point where [fetch] settles; [rc] is the
    [retryCount] of the closure. *)
Definition pollSettled (p : Props) (rc : nat) (r : Response)
    (u : UpdateReply) (w : World) : World :=
  match r with
  | FetchRejected message => onCatch rc message w
  | Http code statusText body =>
      if negb (ok code) then
        if (code =? 404)%Z && (rc <? 10)%nat then
          withState (setRetryCount S) w
        else if (rc <? 5)%nat then
          withState (setRetryCount S) w
        else
          onCatch rc
            ("Status check failed after " ++ Js.nat_to_string rc
             ++ " retries: " ++ statusText) w
      else
        match body with
        | Unparsable message => onCatch rc message w
        | Parsed statusData =>
            let w := withState (setStatus statusData) w in
            let w := withState (setRetryCount (fun _ => 0)) w in
            match vs_status statusData, video statusData with
            | completed, Some v =>
                if Js.truthy_str (url v) then
                  let w := updatePostWithVideo p (url v) (s3 v) u w in
                  let w := onVideoReady (url v) w in
                  withState (setIsPolling false) w
                else w
            | failed, _ =>
                let w :=
                  withState
                    (setError
                       (Js.or_str (vs_error statusData)
                                  "Video generation failed")) w in
                withState (setIsPolling false) w
            | _, _ => w
            end
        end
  end.

(** What happens to the component. *)
Inductive Event :=
| Fire
    (* the effect or its interval calls [pollVideoStatus] *)
| Settle (i : nat) (r : Response) (u : UpdateReply)
    (* the [i]-th request in flight settles *).

(** The effect and its interval exist only while
    [jobId && isPolling]; the closure captures the current
    [retryCount] (the effect is set up again whenever it changes). *)
Definition fire (p : Props) (w : World) : World :=
  if Js.truthy_str (jobId p) && isPolling (st w) then
    {| st := st w;
       inflight := (inflight w ++ [retryCount (st w)])%list;
       fetched := (fetched w ++ [("/api/videos/status/" ++ jobId p)%string])%list;
       readyCalls := readyCalls w;
       posts := posts w |}
  else w.

Definition settle (p : Props) (i : nat) (r : Response) (u : UpdateReply)
    (w : World) : World :=
  match inflight w !! i with
  | Some rc =>
      pollSettled p rc r u
        {| st := st w; inflight := delete i (inflight w);
           fetched := fetched w; readyCalls := readyCalls w;
           posts := posts w |}
  | None => w
  end.

Definition step (p : Props) (w : World) (e : Event) : World :=
  match e with
  | Fire => fire p w
  | Settle i r u => settle p i r u w
  end.

Definition run (p : Props) (es : list Event) (w : World) : World :=
  fold_left (step p) es w.

(** One request at a time: each poll settles before the next one is
    made. *)
Definition sequential (rs : list (Response * UpdateReply)) : list Event :=
  flat_map (fun ru => [Fire; Settle 0 (fst ru) (snd ru)]) rs.

Definition poll (p : Props) (rs : list Response) (w : World) : World :=
  run p (sequential (map (fun r => (r, UpdateOk)) rs)) w.

(** A non-2xx answer. *)
Definition httpError (r : Response) : bool :=
  match r with
  | Http code _ _ => negb (ok code)
  | FetchRejected _ => false
  end.

(** The world once one more status request is out. *)
Definition requested (p : Props) (w : World) : World :=
  {| st := st w; inflight := inflight w;
     fetched := (fetched w ++ [("/api/videos/status/" ++ jobId p)%string])%list;
     readyCalls := readyCalls w; posts := posts w |}.

End VideoStatusPoll.

(** ** Gallery records *)
Module FormattedPhotos.

Record UploadResponse := mkUpload {
  name : string;
  hash : option string;
  size : string;
  fileNames : option (list string)
}.

(** One element of [video_data]; an absent key is [None]. *)
Record VideoObject := mkVideoObject {
  v_hash : option string;
  v_url : option string;
  v_src : option string;
  v_fileNames : option (list string)
}.

(** The [video_data] column: null, one object, or an array of them. *)
Inductive VideoData :=
| VNull
| VObject (o : VideoObject)
| VArray (l : list VideoObject).

Record Post := mkPost {
  id : Z;
  author : string;
  prompt : string;
  category : option string;
  cpu : option Z;
  createdAt : string;
  device : option string;
  isDraft : option bool;
  isPinned : option bool;
  isPrivate : option bool;
  caption : option string;
  seed : option Z;
  media_type : option string;
  ipfsImages : option (list UploadResponse);
  video_data : VideoData
}.

Record Page := mkPage { data : list Post }.

Record SrcSetEntry := mkSrcSet {
  ss_src : string;
  ss_width : Z;
  ss_height : option Z
}.

Record ExtendedPhoto := mkPhoto {
  p_id : string;
  p_src : string;
  p_key : string;
  p_alt : string;
  p_width : option Z;
  p_height : option Z;
  p_srcSet : list SrcSetEntry;
  p_prompt : string;
  p_author : string;
  p_category : option string;
  p_cpu : option Z;
  p_createdAt : string;
  p_device : option string;
  p_isDraft : option bool;
  p_isPinned : option bool;
  p_isPrivate : option bool;
  p_caption : option string;
  p_seed : option Z;
  p_media_type : option string
}.

Definition breakpoints : list Z := [1080; 640; 384; 256; 128; 96; 64; 48]%Z.

Definition baseWidths : list Z := [300; 320; 340; 360; 380; 400]%Z.

(** The aspect ratios of the gallery, in hundredths. *)
Definition aspectRatioSets : list (list Z) :=
  [[45; 50; 55; 60; 65]; [60; 65; 70; 75; 80]; [70; 75; 80; 85; 90];
   [85; 90; 95]; [100; 100]; [110; 115; 120]; [125; 130];
   [45; 70; 85; 110; 60]]%Z.

(** [arr[i % arr.length]]: the remainder has the sign of [i], and a
    negative index reads [undefined]. *)
Definition at_rem {A} (arr : list A) (i : Z) : option A :=
  let r := Z.rem i (Z.of_nat (length arr)) in
  if (r <? 0)%Z then None else arr !! Z.to_nat r.

(** Truthiness of [video_data]: objects and arrays are truthy. *)
Definition truthy_video (v : VideoData) : bool :=
  match v with
  | VNull => false
  | VObject _ | VArray _ => true
  end.

(** [arr?.[0]] *)
Definition first {A} (arr : option (list A)) : option A :=
  arr ≫= head.

Definition id_to_string (i : Z) : string :=
  NilZero.string_of_int (Z.to_int i).

Section Config.
(** [appConfig], the fallback image and [isHighQualityImage] come
    from modules outside this file's sources. *)
Variable isDevelopment : bool.
Variable lighthouseGateway : string.
Variable cloudflareUrl : string.
Variable fallbackImage : string.
Variable isHighQualityImage : string -> bool.

(** The layout arithmetic of the gallery is floating point; the two
    rounded results are kept abstract: the constrained height of a
    post at an index, and the height of a [srcSet] entry for a
    breakpoint, a width and a height.  [None] is [NaN], which the
    arithmetic gives for an [undefined] width or ratio. *)
Variable constrainedHeight : Z -> nat -> option Z.
Variable srcSetHeight : Z -> option Z -> option Z -> option Z.

Definition getImage (cidOrUrl : option string) (fileName : string)
    (author : string) : string :=
  match cidOrUrl with
  | Some c =>
      if Js.truthy_str c then
        let isLighthouseCID := negb (String.prefix "http" c) in
        let imageOptions :=
          if isLighthouseCID && isHighQualityImage fileName
          then "?h=300&w=300" else "" in
        if isDevelopment then
          if isLighthouseCID
          then lighthouseGateway ++ c ++ "/" ++ fileName ++ imageOptions
          else cloudflareUrl ++ "/" ++ author ++ "/" ++ fileName
        else
          if isLighthouseCID
          then lighthouseGateway ++ c ++ "/" ++ fileName ++ imageOptions
          else cloudflareUrl ++ "/" ++ author ++ "/" ++ fileName
      else fallbackImage
  | None => fallbackImage
  end.

(** [videoData?.url || videoData?.src || videoData?.hash || ""] *)
Definition anyUrl (vd : VideoObject) : string :=
  if Js.truthy_ostr (v_url vd) then default "" (v_url vd)
  else if Js.truthy_ostr (v_src vd) then default "" (v_src vd)
  else if Js.truthy_ostr (v_hash vd) then default "" (v_hash vd)
  else "".

Definition getMediaUrl (post : Post) : string :=
  if bool_decide (media_type post = Some "VIDEO")
     && truthy_video (video_data post) then
    let videoData :=
      match video_data post with
      | VArray l => head l
      | VObject o => Some o
      | VNull => None
      end in
    match videoData with
    | Some vd =>
        let direct :=
          match v_hash vd with
          | Some videoUrl =>
              if Js.truthy_str videoUrl
                 && (String.prefix "http://" videoUrl
                     || String.prefix "https://" videoUrl)
              then Some videoUrl
              else
                match v_fileNames vd with
                | Some names =>
                    if Js.truthy_ostr (head names)
                    then Some (getImage (Some videoUrl)
                                 (default "" (head names)) (author post))
                    else None
                | None => None
                end
          | None => None
          end in
        match direct with
        | Some u => u
        | None => anyUrl vd
        end
    | None => ""
    end
  else
    match first (ipfsImages post) with
    | Some image =>
        if negb (Js.truthy_ostr (hash image))
           || negb (Js.truthy_ostr (first (fileNames image)))
        then ""
        else getImage (hash image)
               (default "" (first (fileNames image))) (author post)
    | None => ""
    end.

(** [post.ipfsImages?.[0]?.hash && post.ipfsImages?.[0]?.fileNames?.[0]] *)
Definition hasValidImage (post : Post) : bool :=
  Js.truthy_ostr (first (ipfsImages post) ≫= hash)
  && Js.truthy_ostr (first (first (ipfsImages post) ≫= fileNames)).

(** [post.media_type === 'VIDEO' && post.video_data] *)
Definition hasValidVideo (post : Post) : bool :=
  bool_decide (media_type post = Some "VIDEO")
  && truthy_video (video_data post).

(** The object literal the [map] callback returns, when it gets that
    far: see [formatPost]. *)
Definition galleryPhoto (index : nat) (post : Post) : ExtendedPhoto :=
  let mediaUrl := getMediaUrl post in
  let baseWidth := at_rem baseWidths (id post) in
  let height := constrainedHeight (id post) index in
  {| p_id := id_to_string (id post);
     p_src := mediaUrl;
     p_key := id_to_string (id post);
     p_alt := prompt post;
     p_width := baseWidth;
     p_height := height;
     p_srcSet :=
       map (fun breakpoint =>
              {| ss_src := mediaUrl;
                 ss_width := breakpoint;
                 ss_height := srcSetHeight breakpoint baseWidth height |})
           breakpoints;
     p_prompt := prompt post;
     p_author := author post;
     p_category := category post;
     p_cpu := cpu post;
     p_createdAt := createdAt post;
     p_device := device post;
     p_isDraft := isDraft post;
     p_isPinned := isPinned post;
     p_isPrivate := isPrivate post;
     p_caption := caption post;
     p_seed := seed post;
     p_media_type := media_type post |}.

(** The [map] callback.  [Some None] is [null], for a post without
    media.  [None] is a TypeError: [aspectRatioSets[setIndex]] is
    [undefined] when [(post.id + index) % 8] is negative, and reading
    [ratioSet.length] throws.  Nothing else in the callback throws: the
    other reads at a negative index give [undefined], and the arithmetic
    goes on with [NaN]. *)
Definition formatPost (index : nat) (post : Post)
  : option (option ExtendedPhoto) :=
  if negb (hasValidImage post) && negb (hasValidVideo post) then Some None
  else
    match at_rem aspectRatioSets (id post + Z.of_nat index) with
    | Some ratioSet => Some (Some (galleryPhoto index post))
    | None => None
    end.

(** [pages.flatMap(page => page.data.map(...)).filter(Boolean)]; [None]
    when a callback throws, which nothing catches. *)
Definition formattedPhotosForGallery (pages : list Page)
  : option (list ExtendedPhoto) :=
  omap (fun x => x)
    <$> mapM (fun x => x)
          (pages ≫= (fun page => imap formatPost (data page))).

End Config.

(** A post with a first image that has a hash and a first file name. *)
Definition validImage (post : Post) : Prop :=
  exists img rest h f fs,
    ipfsImages post = Some (img :: rest)
    /\ hash img = Some h /\ h <> ""
    /\ fileNames img = Some (f :: fs) /\ f <> "".

(** A video post with video data. *)
Definition validVideo (post : Post) : Prop :=
  media_type post = Some "VIDEO" /\ video_data post <> VNull.

End FormattedPhotos.

(** ** What the status poller shows, and the answers it can get *)
Module VideoStatusView.
Import VideoStatusPoll.

(** The lines under the heading of the waiting view; the time of the last
    update is shown (through [toLocaleTimeString]) when [updatedAt] is
    not empty. *)
Record Details := mkDetails {
  d_status : JobState;
  d_jobId : string;
  d_updatedAt : option string
}.

(** The three blocks the component can return. *)
Inductive View :=
| ErrorView (message : string)
| WaitingView (heading : string) (details : option Details)
| FallbackView.

(** The [return] part of the component. *)
Definition render (s : State) : View :=
  if Js.truthy_ostr (error s) then ErrorView (default "" (error s))
  else
    let waiting :=
      match status s with
      | None => true
      | Some v =>
          match vs_status v with
          | queued | processing => true
          | completed | failed => false
          end
      end in
    if waiting then
      WaitingView
        (match vs_status <$> status s with
         | Some processing => "Generating Video..."
         | _ => "Video In Queue..."
         end)
        ((fun v =>
            {| d_status := vs_status v;
               d_jobId := vs_jobId v;
               d_updatedAt :=
                 if Js.truthy_str (updatedAt v) then Some (updatedAt v)
                 else None |}) <$> status s)
    else FallbackView.

(** A poll that fails: [fetch] rejects, the answer is not 2xx, or its body
    cannot be parsed. *)
Definition failure (r : Response) : bool :=
  match r with
  | FetchRejected _ => true
  | Http code _ body =>
      negb (ok code)
      || match body with
         | Unparsable _ => true
         | Parsed _ => false
         end
  end.

(** [statusData.status === "completed" && statusData.video?.url] *)
Definition hasVideoUrl (v : VideoStatus) : bool :=
  match vs_status v, video v with
  | completed, Some x => Js.truthy_str (url x)
  | _, _ => false
  end.

(** A 2xx answer after which the poller goes on: a status document that
    is neither failed nor completed with a video URL. *)
Definition nonTerminal (r : Response) : bool :=
  match r with
  | Http code _ (Parsed v) =>
      ok code && negb (hasVideoUrl v)
      && match vs_status v with
         | failed => false
         | _ => true
         end
  | _ => false
  end.

(** The status document of a parsed answer. *)
Definition document (r : Response) : option VideoStatus :=
  match r with
  | Http _ _ (Parsed v) => Some v
  | _ => None
  end.

(** What holds of the poller for a post table that started as [db],
    whatever happened since. *)
Definition wellPolled (p : Props) (db : Posts) (w : World) : Prop :=
  (error (st w) <> None -> isPolling (st w) = false)
  /\ (readyCalls w <> [] -> isPolling (st w) = false)
  /\ Forall (fun u => u <> "") (readyCalls w)
  /\ length (inflight w) + length (readyCalls w) <= length (fetched w)
  /\ Forall (fun u => u = "/api/videos/status/" ++ jobId p) (fetched w)
  /\ (forall other, other <> postId p -> posts w !! other = db !! other)
  /\ (db !! postId p = None -> posts w !! postId p = None).

End VideoStatusView.

(** ** The grid records and the photo page *)
Module PhotoGrid.
Import FormattedPhotos.

Section Config.
Variable isDevelopment : bool.
Variable lighthouseGateway : string.
Variable cloudflareUrl : string.
Variable fallbackImage : string.
Variable isHighQualityImage : string -> bool.

(** The object literal of [formattedPhotosForGrid]; it has no
    [media_type]. *)
Definition gridPhoto (image : UploadResponse) (post : Post)
  : ExtendedPhoto :=
  let assetHash := hash image in
  let fileName := default "" (first (fileNames image)) in
  let imageUrl :=
    getImage isDevelopment lighthouseGateway cloudflareUrl fallbackImage
      isHighQualityImage assetHash fileName (author post) in
  {| p_id := id_to_string (id post);
     p_src := imageUrl;
     p_key := id_to_string (id post);
     p_alt := prompt post;
     p_width := Some 1080%Z;
     p_height := Some 1080%Z;
     p_srcSet :=
       map (fun breakpoint =>
              {| ss_src := imageUrl;
                 ss_width := breakpoint;
                 ss_height := Some breakpoint |})
           breakpoints;
     p_prompt := prompt post;
     p_author := author post;
     p_category := category post;
     p_cpu := cpu post;
     p_createdAt := createdAt post;
     p_device := device post;
     p_isDraft := isDraft post;
     p_isPinned := isPinned post;
     p_isPrivate := isPrivate post;
     p_caption := caption post;
     p_seed := seed post;
     p_media_type := None |}.

(** The [map] callback of [formattedPhotosForGrid]. *)
Definition formatGridPost (post : Post) : option ExtendedPhoto :=
  match first (ipfsImages post) with
  | Some image =>
      if negb (Js.truthy_ostr (hash image))
         || negb (Js.truthy_ostr (first (fileNames image)))
      then None
      else Some (gridPhoto image post)
  | None => None
  end.

(** [pages.flatMap(page => page.data.map(...)).filter(Boolean)] *)
Definition formattedPhotosForGrid (pages : list Page)
  : list ExtendedPhoto :=
  omap (fun x => x) (pages ≫= (fun page => map formatGridPost (data page))).

End Config.

(** All the posts of the pages, in order. *)
Definition allPosts (pages : list Page) : list Post :=
  pages ≫= data.

(** The check of the gallery: a valid image or valid video data. *)
Definition displayable (post : Post) : bool :=
  hasValidImage post || hasValidVideo post.

Definition postKey (post : Post) : string := id_to_string (id post).

(** The post with other images. *)
Definition withImages (imgs : option (list UploadResponse)) (post : Post)
  : Post :=
  {| id := id post; author := author post; prompt := prompt post;
     category := category post; cpu := cpu post;
     createdAt := createdAt post; device := device post;
     isDraft := isDraft post; isPinned := isPinned post;
     isPrivate := isPrivate post; caption := caption post;
     seed := seed post; media_type := media_type post;
     ipfsImages := imgs; video_data := video_data post |}.

End PhotoGrid.

(** ** The photo page: when it mounts the status poller *)
Module PhotoPage.
Import FormattedPhotos.

(** The [video_data] the poller's update writes, as the page reads it
    back: one object with [hash], [url] and [s3]. *)
Definition storedVideoData (d : VideoStatusPoll.VideoDatum) : VideoData :=
  VArray [ {| v_hash := Some (VideoStatusPoll.vd_hash d);
              v_url := Some (VideoStatusPoll.vd_url d);
              v_src := None;
              v_fileNames := None |} ].

Section Config.
Variable isDevelopment : bool.
Variable lighthouseGateway : string.
Variable cloudflareUrl : string.
Variable fallbackImage : string.
Variable isHighQualityImage : string -> bool.

(** The branch of the page's [getMediaUrl(index)] for a video post. *)
Definition videoMediaUrl (post : Post) (index : nat) : string :=
  if truthy_video (video_data post) then
    let videoData :=
      match video_data post with
      | VArray l => l !! index
      | VObject o => Some o
      | VNull => None
      end in
    match videoData with
    | Some vd =>
        let direct :=
          match v_hash vd with
          | Some videoUrl =>
              if Js.truthy_str videoUrl
                 && (String.prefix "http://" videoUrl
                     || String.prefix "https://" videoUrl)
              then Some videoUrl
              else
                match v_fileNames vd with
                | Some names =>
                    if Js.truthy_ostr (head names)
                    then Some (getImage isDevelopment lighthouseGateway
                                 cloudflareUrl fallbackImage
                                 isHighQualityImage (Some videoUrl)
                                 (default "" (head names)) (author post))
                    else None
                | None => None
                end
          | None => None
          end in
        match direct with
        | Some u => u
        | None => anyUrl vd
        end
    | None => ""
    end
  else "".

(** [needsVideoPolling]; [jobId] is the post's job id and [index] the
    selected media index.  The media URL is consulted for video posts
    only. *)
Definition needsVideoPolling (jobId : option string) (post : Post)
    (index : nat) : bool :=
  bool_decide (media_type post = Some "VIDEO")
  && Js.truthy_ostr jobId
  && (negb (truthy_video (video_data post))
      || match video_data post with
         | VArray l => (length l =? 0)%nat
         | _ => false
         end
      || negb (Js.truthy_str (videoMediaUrl post index))).

(** [needsVideoPolling && post?.id && post?.jobId]: the page mounts the
    poller. *)
Definition mountsPoller (jobId : option string) (post : Post)
    (index : nat) : bool :=
  needsVideoPolling jobId post index
  && negb (id post =? 0)%Z
  && Js.truthy_ostr jobId.

End Config.
End PhotoPage.

(** ** The submitter before video support *)
Module SendJobRequestV1.
Import GenerationStore SendJobRequest.

(** The message of the [.catch] callback. *)
Definition errorMessage (error : JsError) : string :=
  match error with
  | AxiosError code response message =>
      if bool_decide (code = Some "ECONNABORTED") then
        "Request timeout - please try again"
      else if bool_decide (err_status <$> response = Some 401%Z) then
        "Please log in to generate images"
      else if bool_decide (err_status <$> response = Some 400%Z) then
        Js.or_str (response ≫= err_data_message) "Invalid request"
      else if bool_decide (err_status <$> response = Some 500%Z) then
        "Server error - please try again"
      else Js.or_str (response ≫= err_data_message) message
  | PlainError _ => "Failed to start image generation"
  end.

(** What the promise chain does once the request settles. *)
Definition onSettled (reply : Reply) : list Effect :=
  match reply with
  | Fulfilled body =>
      match body with
      | Some b =>
          if status b then
            match data b ≫= estimated_processing_time with
            | Some t =>
                if Js.truthy_str t
                then [ConsoleInfo ("Processing time: " ++ t)]
                else []
            | None => []
            end
          else []
      | None => []
      end
  | Failed error =>
      [StopGeneration; ToastError (errorMessage error);
       LogError "Error sending job request"]
  end.

(** The fire-and-forget [sendJobRequest]: it returns nothing. *)
Definition sendJobRequest (prompt : Js.ustring) (user : option ExtendedUser)
    (imageCount : option Z) (seed : Z) : list Effect :=
  let imageCount := default 4%Z imageCount in
  match user with
  | None =>
      [LogError "User is undefined, cannot send job request";
       ToastError "Please log in to generate images";
       StopGeneration]
  | Some u =>
      if negb (Js.truthy_ostr (id u)) then
        [LogError "User ID is undefined, cannot send job request";
         ToastError "User authentication error";
         StopGeneration]
      else if bool_decide (prompt = [])
              || (length (Js.trim prompt) =? 0)%nat then
        [ToastError "Please enter a prompt"; StopGeneration]
      else if (1000 <? length prompt)%nat then
        [ToastError "Prompt too long (max 1000 characters)"; StopGeneration]
      else
        let requestPayload :=
          {| inputs :=
               {| Prompt := Js.trim prompt;
                  Seed := seed;
                  n := Z.min (Z.max imageCount 1) 10 |};
             author := default "" (id u);
             category := "GENERATION" |} in
        [HttpPost "/api/images/generations" requestPayload
                  (requestHeaders u)]
  end.

End SendJobRequestV1.

(** ** The job hook with video support *)
Module CreateJob.
Import GenerationStore SendJobRequest.

(** [s.includes(sub)] *)
Fixpoint includes (s sub : string) : bool :=
  String.prefix sub s
  || match s with
     | EmptyString => false
     | String _ s' => includes s' sub
     end.

(** The hook's local state and the store it drives. *)
Record JobHook := mkJobHook {
  isGenerating : bool;
  progress : Z;
  currentMediaType : MediaType;
  store : GenerationState
}.

(** What the hook does besides changing its state and the store. *)
Inductive Effect :=
| Submitter (e : SendJobRequest.Effect)
| LogHookError (msg : string)
| InvalidateQueries (queryKey : list string).

(** How the mutation function settles. *)
Inductive MutationOutcome :=
| Succeeded (job : option JobRef)
| Rejected (error : JsError).

Definition errorText (error : JsError) : string :=
  match error with
  | AxiosError _ _ message => message
  | PlainError message => message
  end.

(** What the row polling effect decides when it runs: it sets up its
    interval unless
    [!user || !isGenerating || currentMediaType === 'video']. *)
Definition setsInterval (user : option ExtendedUser) (h : JobHook) : bool :=
  negb (negb (bool_decide (user <> None)) || negb (isGenerating h)
        || match currentMediaType h with
           | video => true
           | image => false
           end).

(** The mounted hook: its state, and whether the effect that ran last
    has its interval set up. *)
Record Mounted := mkMounted {
  hook : JobHook;
  polling : bool
}.

(** A render with new state.  The effect runs again, after the cleanup
    of the one before, only when one of its dependencies
    [user, router, stopGeneration, queryClient, isGenerating] has
    changed; the hook is mounted with one user, router, store and query
    client, so that is when [isGenerating] has.  [currentMediaType] is
    not among them. *)
Definition rerender (user : option ExtendedUser) (h : JobHook)
    (m : Mounted) : Mounted :=
  {| hook := h;
     polling :=
       if Bool.eqb (isGenerating (hook m)) (isGenerating h)
       then polling m
       else setsInterval user h |}.

(** The store after the store effects of the submitter. *)
Definition applyTrace (tr : list SendJobRequest.Effect) (h : JobHook)
  : JobHook :=
  {| isGenerating := isGenerating h; progress := progress h;
     currentMediaType := currentMediaType h;
     store := runStore tr (store h) |}.

(** [mutationFn]; [mediaType] is [None] when the caller gives none. *)
Definition mutationFn (prompt : Js.ustring) (user : option ExtendedUser)
    (mediaType : option MediaType) (seed : Z) (reply : Reply) (m : Mounted)
  : MutationOutcome * Mounted * list Effect :=
  let mediaType := default image mediaType in
  if bool_decide (prompt = []) then
    (Rejected (PlainError "Prompt is required"), m, [])
  else
    match user with
    | None => (Rejected (PlainError "User must be logged in"), m, [])
    | Some _ =>
        let m :=
          rerender user
            {| isGenerating := true; progress := 0;
               currentMediaType := mediaType;
               store := startGeneration (Some mediaType) (store (hook m)) |}
            m in
        let '(outcome, tr) :=
          sendJobRequest prompt user None (Some mediaType) seed reply in
        let m := rerender user (applyTrace tr (hook m)) m in
        match outcome with
        | Returned result =>
            let m :=
              rerender user
                {| isGenerating := isGenerating (hook m); progress := 100;
                   currentMediaType := currentMediaType (hook m);
                   store := store (hook m) |}
                m in
            match mediaType, result with
            | video, Some job =>
                (Succeeded (Some job), m, map Submitter tr)
            | _, _ => (Succeeded None, m, map Submitter tr)
            end
        | Thrown error =>
            (Rejected error,
             rerender user
               {| isGenerating := false; progress := progress (hook m);
                  currentMediaType := currentMediaType (hook m);
                  store := stopGeneration (store (hook m)) |}
               m,
             map Submitter tr)
        end
    end.

(** [onError] *)
Definition onError (user : option ExtendedUser) (error : JsError)
    (m : Mounted) : Mounted * list Effect :=
  (rerender user
     {| isGenerating := false; progress := progress (hook m);
        currentMediaType := currentMediaType (hook m);
        store := stopGeneration (store (hook m)) |}
     m,
   [LogHookError "Error creating job"; InvalidateQueries ["posts"]]).

(** [retry] *)
Definition retry (failureCount : nat) (error : JsError) : bool :=
  if includes (errorText error) "Prompt is required"
     || includes (errorText error) "User must be logged in"
  then false
  else (failureCount <? 2)%nat.

(** [mutation.mutate(params)], as [useMutation] runs it with these
    options: [mutationFn]; when it throws, [retry] is asked with the
    number of failures before this one, and the function runs again
    with the same parameters if it says so; otherwise [onError] runs and
    the mutation has failed.  [attempts] holds, for each run, the seed
    drawn and the reply to its request; [None] when there are fewer of
    them than runs. *)
Fixpoint mutate (prompt : Js.ustring) (user : option ExtendedUser)
    (mediaType : option MediaType) (attempts : list (Z * Reply))
    (failureCount : nat) (m : Mounted)
  : option (MutationOutcome * Mounted * list Effect) :=
  match attempts with
  | [] => None
  | (seed, reply) :: attempts =>
      let '(outcome, m, tr) :=
        mutationFn prompt user mediaType seed reply m in
      match outcome with
      | Succeeded _ => Some (outcome, m, tr)
      | Rejected error =>
          if retry failureCount error then
            match
              mutate prompt user mediaType attempts (S failureCount) m
            with
            | Some (outcome, m, tr') => Some (outcome, m, (tr ++ tr')%list)
            | None => None
            end
          else
            let '(m, tr') := onError user error m in
            Some (outcome, m, (tr ++ tr')%list)
      end
  end.

(** [cancelJob] *)
Definition cancelJob (user : option ExtendedUser) (m : Mounted)
  : Mounted :=
  rerender user
    {| isGenerating := false; progress := 0;
       currentMediaType := currentMediaType (hook m);
       store := stopGeneration (store (hook m)) |}
    m.

Definition isPost (e : Effect) : bool :=
  match e with
  | Submitter x => isHttpPost x
  | _ => false
  end.

Definition isInvalidate (e : Effect) : bool :=
  match e with
  | InvalidateQueries _ => true
  | _ => false
  end.

End CreateJob.

(** ** The row polling loop over time *)
Module RowPolling.
Import GenerationStore UseCreateJob.

(** [cancelJob] *)
Definition cancelJob (h : Hook) : Hook :=
  {| isGenerating := false; progress := 0;
     store := stopGeneration (store h);
     latestPostId := latestPostId h;
     effects := effects h |}.

(** One run of the effect over time: the hook, and the number of
    queries of the interval callback that have not settled yet. *)
Record Loop := mkLoop {
  hook : Hook;
  pending : nat
}.

(** The interval fires, or a query of the callback settles. *)
Inductive Event :=
| Tick
| Answer (q : QueryResult).

(** A tick sends a query; the interval exists only while the effect is
    set up ([if (!user || !isGenerating) return], and the cleanup clears
    it once [isGenerating] has changed).  What follows the [await] runs
    when the query settles, whatever the hook's state is by then and
    whether or not the interval still exists. *)
Definition step (hasUser : bool) (l : Loop) (e : Event) : Loop :=
  match e with
  | Tick =>
      if negb hasUser || negb (isGenerating (hook l)) then l
      else {| hook := hook l; pending := S (pending l) |}
  | Answer q =>
      match pending l with
      | 0 => l
      | S n => {| hook := pollTick q (hook l); pending := n |}
      end
  end.

Definition run (hasUser : bool) (es : list Event) (l : Loop) : Loop :=
  fold_left (step hasUser) es l.

(** Every query settles before the next tick. *)
Definition sequential (qs : list QueryResult) : list Event :=
  flat_map (fun q => [Tick; Answer q]) qs.

Definition isPush (e : Effect) : bool :=
  match e with
  | RouterPush _ => true
  | _ => false
  end.

Definition isInvalidate (e : Effect) : bool :=
  match e with
  | InvalidateQueries _ => true
  | _ => false
  end.

End RowPolling.

(** ** The video generation route *)
Module VideoGenerationRoute.

(** The JSON body of the request: the keys the route reads, [None] when
    a key is missing. *)
Record BodyInputs := mkBodyInputs { b_Prompt : option Js.ustring }.

Record RequestBody := mkRequestBody {
  b_inputs : option BodyInputs;
  b_author : option string;
  b_category : option string
}.

(** [req.json()]: the body, or the message it rejects with. *)
Inductive Body :=
| Json (requestBody : RequestBody)
| Unreadable (message : string).

(** [validateRequest]: the validated data, or the message thrown. *)
Record RequestData := mkRequestData {
  d_prompt : Js.ustring;
  d_author : string;
  d_category : string
}.

Definition validateRequest (requestData : RequestBody)
  : string + RequestData :=
  match b_inputs requestData ≫= b_Prompt with
  | Some (c :: rest) =>
      if negb (Js.truthy_ostr (b_author requestData)) then
        inl "Author is required"
      else if negb (Js.truthy_ostr (b_category requestData)) then
        inl "Category is required"
      else
        inr {| d_prompt := c :: rest;
               d_author := default "" (b_author requestData);
               d_category := default "" (b_category requestData) |}
  | _ => inl "Prompt is required"
  end.

(** What the video API answers. *)
Inductive ApiReply :=
| ApiOk (jobId : string)
| ApiNotOk (statusText : string)
| ApiRejected (message : string).

(** What the insert into [posts] returns. *)
Inductive InsertReply :=
| Inserted (postId : Z)
| InsertError (message : string).

(** What the [send_to_queue] call returns; an error is rendered in the
    thrown message as [text]. *)
Inductive QueueReply :=
| Queued
| QueueError (text : string).

(** What the route does outside. *)
Inductive Call :=
| CallVideoApi (prompt : Js.ustring)
| InsertPost (author : string) (prompt : Js.ustring) (category : string)
             (jobId : string)
| SendToQueue (jobId : string) (postId : option Z).

Record ResponseData := mkResponseData {
  r_prompt : Js.ustring;
  r_author : string;
  r_category : string;
  r_jobId : string;
  r_postId : Z;
  r_estimated_processing_time : string
}.

Record ResponseJson := mkResponseJson {
  r_status : bool;
  r_message : string;
  r_details : option string;
  r_data : option ResponseData
}.

Record Response := mkResponse {
  code : Z;
  json : ResponseJson
}.

Definition failureJson (message : string) (details : option string)
  : ResponseJson :=
  {| r_status := false; r_message := message; r_details := details;
     r_data := None |}.

(** The [catch] block, for a thrown [Error] with this message. *)
Definition onCatch (message : string) : Response :=
  if CreateJob.includes message "required"
     || CreateJob.includes message "invalid"
  then {| code := 400; json := failureJson message None |}
  else {| code := 500;
          json := failureJson "Failed to start video generation"
                    (Some message) |}.

(** [POST]; [user] is [getUser()]'s result with its id. *)
Definition POST (supabaseUrl private_SRK : string) (body : Body)
    (user : option (option string)) (api : ApiReply)
    (insert : InsertReply) (queue : QueueReply)
  : Response * list Call :=
  if negb (Js.truthy_str supabaseUrl) || negb (Js.truthy_str private_SRK)
  then
    ({| code := 500;
        json := failureJson "System Error: Missing required configuration"
                  None |}, [])
  else
    match body with
    | Unreadable message => (onCatch message, [])
    | Json requestBody =>
        match validateRequest requestBody with
        | inl message => (onCatch message, [])
        | inr requestData =>
            if negb (Js.truthy_ostr (mjoin user)) then
              ({| code := 401;
                  json := failureJson "User not authenticated" None |}, [])
            else
              let prompt := d_prompt requestData in
              let called := [CallVideoApi prompt] in
              match api with
              | ApiRejected message => (onCatch message, called)
              | ApiNotOk statusText =>
                  (onCatch ("Video generation API failed: " ++ statusText),
                   called)
              | ApiOk jobId =>
                  let data :=
                    match insert with
                    | Inserted postId => Some postId
                    | InsertError _ => None
                    end in
                  let called :=
                    (called
                     ++ [InsertPost (d_author requestData) prompt
                           (d_category requestData) jobId;
                         SendToQueue jobId data])%list in
                  match queue with
                  | QueueError text =>
                      (onCatch ("Job failed with error: " ++ text), called)
                  | Queued =>
                      match insert with
                      | InsertError message =>
                          (onCatch
                             ("Database insertion failed: " ++ message),
                           called)
                      | Inserted postId =>
                          ({| code := 200;
                              json :=
                                {| r_status := true;
                                   r_message := "Video generation started";
                                   r_details := None;
                                   r_data :=
                                     Some
                                       {| r_prompt := prompt;
                                          r_author := d_author requestData;
                                          r_category :=
                                            d_category requestData;
                                          r_jobId := jobId;
                                          r_postId := postId;
                                          r_estimated_processing_time :=
                                            "few minutes" |} |} |},
                           called)
                      end
                  end
              end
        end
    end.

(** The body the client's request carries. *)
Definition bodyOf (payload : SendJobRequest.GenerationRequest)
  : RequestBody :=
  {| b_inputs :=
       Some {| b_Prompt :=
                 Some (SendJobRequest.Prompt
                         (SendJobRequest.inputs payload)) |};
     b_author := Some (SendJobRequest.author payload);
     b_category := Some (SendJobRequest.category payload) |}.

(** The [response.data] the client reads from a response. *)
Definition clientBody (r : ResponseJson) : SendJobRequest.ResponseBody :=
  {| SendJobRequest.status := r_status r;
     SendJobRequest.data :=
       (fun d =>
          {| SendJobRequest.jobId := Some (r_jobId d);
             SendJobRequest.postId := Some (r_postId d);
             SendJobRequest.estimated_processing_time :=
               Some (r_estimated_processing_time d) |}) <$> r_data r |}.

End VideoGenerationRoute.

(** ** The video status route *)
Module VideoStatusRoute.

(** What the external status API answers. *)
Inductive External :=
| ExtOk (document : VideoStatusPoll.Body)
| ExtNotOk (status : Z) (statusText errorText : string)
| ExtRejected (message : string).

(** The JSON the route answers with. *)
Inductive Answer :=
| Document (statusData : VideoStatusPoll.VideoStatus)
| Problem (error : string) (details : option string).

Record Response := mkResponse {
  code : Z;
  answer : Answer
}.

Definition internalError : Response :=
  {| code := 500; answer := Problem "Internal server error" None |}.

(** [NextResponse.json(body, { status })] builds a response with a
    body, which throws for a status outside 200 to 599 and for the
    statuses that have no body (204, 205 and 304). *)
Definition carriesBody (status : Z) : bool :=
  (200 <=? status)%Z && (status <=? 599)%Z
  && negb ((status =? 204)%Z || (status =? 205)%Z || (status =? 304)%Z).

(** [GET]; [user] is [getUser()]'s result with its id, [None] for a
    rejected call; the second component is the URL fetched, if any.
    What is thrown inside the [try], also by building the answer for a
    status of the external API that carries no body, ends in the
    [catch]. *)
Definition GET (user : option (option (option string))) (jobId : string)
    (external : External) : Response * option string :=
  match user with
  | None => (internalError, None)
  | Some u =>
      if negb (Js.truthy_ostr (mjoin u)) then
        ({| code := 401; answer := Problem "User not authenticated" None |},
         None)
      else if negb (Js.truthy_str jobId) then
        ({| code := 400; answer := Problem "Job ID is required" None |},
         None)
      else
        let fetched :=
          Some ("https://openai.ideomind.org/v1/videos/status/" ++ jobId) in
        match external with
        | ExtRejected _ => (internalError, fetched)
        | ExtNotOk status statusText errorText =>
            if carriesBody status then
              ({| code := status;
                  answer :=
                    Problem ("External API error: " ++ statusText)
                      (Some errorText) |},
               fetched)
            else (internalError, fetched)
        | ExtOk (VideoStatusPoll.Unparsable _) => (internalError, fetched)
        | ExtOk (VideoStatusPoll.Parsed statusData) =>
            ({| code := 200; answer := Document statusData |}, fetched)
        end
  end.

(** The response as the poller's [fetch] sees it; the status text is
    the transport's. *)
Definition seenByPoller (statusText : string) (r : Response)
  : VideoStatusPoll.Response :=
  VideoStatusPoll.Http (code r) statusText
    (match answer r with
     | Document statusData => VideoStatusPoll.Parsed statusData
     | Problem error _ => VideoStatusPoll.Unparsable error
     end).

End VideoStatusRoute.

(** ** Sequences of calls on the in-flight store *)
Module StoreCalls.
Import GenerationStore.

Inductive Call :=
| Start (mediaType : option MediaType)
| Stop.

Definition call (s : GenerationState) (c : Call) : GenerationState :=
  match c with
  | Start m => startGeneration m s
  | Stop => stopGeneration s
  end.

Definition calls (cs : list Call) (s : GenerationState) : GenerationState :=
  fold_left call cs s.

(** The media type of the last start among the calls, if any. *)
Definition lastStarted (cs : list Call) : option MediaType :=
  fold_left (fun acc c =>
               match c with
               | Start m => Some (default image m)
               | Stop => acc
               end) cs None.

End StoreCalls.

(** * Properties *)

(** ** Trimming *)
Section Trim.
Import Js.

Lemma forallb_space_rev (s : ustring) :
  forallb is_space (rev s) = forallb is_space s.
Proof.
  induction s as [|c s IH]; simpl; [reflexivity|].
  rewrite forallb_app, IH. simpl. rewrite andb_true_r. apply andb_comm.
Qed.

Lemma trim_start_blank (s : ustring) :
  forallb is_space (trim_start s) = forallb is_space s.
Proof.
  induction s as [|c s IH]; simpl; [reflexivity|].
  destruct (is_space c) eqn:E; simpl; [exact IH|].
  rewrite E. reflexivity.
Qed.

Lemma trim_start_nil (s : ustring) :
  trim_start s = [] <-> forallb is_space s = true.
Proof.
  induction s as [|c s IH]; simpl; [tauto|].
  destruct (is_space c) eqn:E; simpl; [exact IH|].
  split; discriminate.
Qed.

Lemma trim_nil (s : ustring) :
  trim s = [] <-> forallb is_space s = true.
Proof.
  unfold trim, trim_end.
  rewrite <- (trim_start_blank s), <- (forallb_space_rev (trim_start s)).
  rewrite <- trim_start_nil.
  split; intros H.
  - apply (f_equal (@rev N)) in H. rewrite rev_involutive in H. exact H.
  - rewrite H. reflexivity.
Qed.

(** The prompt check [!prompt || prompt.trim().length === 0] holds
    exactly for the empty and the all-whitespace prompts. *)
Lemma prompt_check_blank (prompt : ustring) :
  bool_decide (prompt = []) || (length (trim prompt) =? 0)%nat
  = forallb is_space prompt.
Proof.
  destruct (forallb is_space prompt) eqn:E.
  - apply trim_nil in E. rewrite E. simpl. apply orb_true_r.
  - apply orb_false_iff. split.
    + apply bool_decide_eq_false. intros ->. discriminate.
    + apply Nat.eqb_neq. intros L. apply length_zero_iff_nil in L.
      apply trim_nil in L. congruence.
Qed.

(** What [trim_start] leaves does not start with whitespace. *)
Lemma trim_start_head (s : ustring) (c : N) (t : ustring) :
  trim_start s = c :: t -> is_space c = false.
Proof.
  induction s as [|d s IH]; simpl; [discriminate|].
  destruct (is_space d) eqn:E; [exact IH|].
  intros [= <- <-]. exact E.
Qed.

(** [trim_start] drops a whitespace prefix and nothing else. *)
Lemma trim_start_split (s : ustring) :
  exists pre, s = (pre ++ trim_start s)%list /\ forallb is_space pre = true.
Proof.
  induction s as [|c s [pre [E F]]]; simpl.
  - exists []. split; reflexivity.
  - destruct (is_space c) eqn:Ec.
    + exists (c :: pre). simpl. rewrite Ec, F. split; [congruence|reflexivity].
    + exists []. split; reflexivity.
Qed.

(** The trimmed prompt is the prompt without a whitespace prefix and a
    whitespace suffix. *)
Lemma trim_split (s : ustring) :
  exists pre post,
    s = (pre ++ trim s ++ post)%list
    /\ forallb is_space pre = true /\ forallb is_space post = true.
Proof.
  destruct (trim_start_split s) as [pre [E F]].
  destruct (trim_start_split (rev (trim_start s))) as [q [Eq Fq]].
  exists pre, (rev q). split; [|split].
  - rewrite E at 1. f_equal. unfold trim, trim_end.
    rewrite <- rev_app_distr, <- Eq, rev_involutive. reflexivity.
  - exact F.
  - rewrite forallb_space_rev. exact Fq.
Qed.

(** It neither starts nor ends with whitespace. *)
Lemma trim_ends (s : ustring) :
  (forall c t, trim s = c :: t -> is_space c = false)
  /\ (forall c t, trim s = (t ++ [c])%list -> is_space c = false).
Proof.
  assert (L : forall c t, trim s = (t ++ [c])%list -> is_space c = false).
  { intros c t H. unfold trim, trim_end in H.
    apply (f_equal (@rev N)) in H.
    rewrite rev_involutive, rev_app_distr in H. simpl in H.
    apply trim_start_head in H. exact H. }
  split; [|exact L].
  intros c t H.
  destruct (trim_start_split (rev (trim_start s))) as [q [Eq Fq]].
  assert (Es : trim_start s = (trim s ++ rev q)%list).
  { unfold trim, trim_end. rewrite <- rev_app_distr, <- Eq.
    symmetry. apply rev_involutive. }
  rewrite H in Es. simpl in Es. apply trim_start_head in Es. exact Es.
Qed.

Lemma trim_is_trim_of (s : ustring) : is_trim_of s (trim s).
Proof.
  split; [apply trim_split|apply trim_ends].
Qed.

End Trim.
(** ** The in-flight store *)

(** C10: in every state of the store, [startGeneration] sets [isActive]
    and records its argument as the media type (["image"] when the argument
    is omitted); [stopGeneration] clears [isActive] and keeps the media
    type. *)
Theorem start_stop_generation :
  forall (s : GenerationStore.GenerationState),
    (forall m,
        GenerationStore.startGeneration (Some m) s
        = GenerationStore.mkGen true m)
    /\ GenerationStore.startGeneration None s
       = GenerationStore.mkGen true GenerationStore.image
    /\ GenerationStore.isActive (GenerationStore.stopGeneration s) = false
    /\ GenerationStore.mediaType (GenerationStore.stopGeneration s)
       = GenerationStore.mediaType s.
Proof.
  intros [a m]. repeat split.
Qed.

(** ** The job submitter *)
Section Submitter.
Import GenerationStore SendJobRequest.

Lemma runStore_app (t1 t2 : list Effect) (s : GenerationState) :
  runStore (t1 ++ t2)%list s = runStore t2 (runStore t1 s).
Proof. unfold runStore. apply fold_left_app. Qed.

(** A trace that stops the generation last among its store effects
    leaves the flag cleared. *)
Lemma runStore_stop_last (t : list Effect) (s : GenerationState) :
  isActive (runStore (t ++ [StopGeneration])%list s) = false.
Proof. rewrite runStore_app. reflexivity. Qed.

(** Every call is rejected or accepted. *)
Lemma rejects_or_accepts (prompt : Js.ustring) (user : option ExtendedUser) :
  rejects prompt user
  \/ exists u uid, user = Some u /\ accepts prompt u uid.
Proof.
  unfold rejects, accepts.
  destruct user as [u|]; [|auto].
  destruct (forallb Js.is_space prompt) eqn:Eb; [auto|].
  destruct (le_lt_dec (length prompt) 1000) as [L|L]; [|auto].
  destruct (id u) as [uid|] eqn:Ei.
  - destruct (Js.truthy_str uid) eqn:Et.
    + right. exists u, uid. auto.
    + left. right. right. right. exists u. rewrite Ei. auto.
  - left. right. right. right. exists u. rewrite Ei. auto.
Qed.

(** The two are exclusive. *)
Lemma accepts_not_rejects (prompt : Js.ustring) (u : ExtendedUser)
    (uid : string) :
  accepts prompt u uid -> ~ rejects prompt (Some u).
Proof.
  intros (Hid & Huid & Hb & Hl) [H|[H|[H|[u' [H1 H2]]]]];
    [congruence | lia | discriminate |].
  injection H1 as <-. rewrite Hid in H2. simpl in H2. congruence.
Qed.

(** An accepted call goes past the four checks. *)
Lemma sendJobRequest_accepted prompt u uid imageCount mediaType seed reply :
  accepts prompt u uid ->
  sendJobRequest prompt (Some u) imageCount mediaType seed reply
  = let requestPayload :=
      {| inputs :=
           {| Prompt := Js.trim prompt;
              Seed := seed;
              n := match default image mediaType with
                   | video => 1%Z
                   | image => Z.min (Z.max (default 4%Z imageCount) 1) 10
                   end |};
         author := uid;
         category := "GENERATION" |} in
    match default image mediaType with
    | video =>
        let sent :=
          [HttpPost "/api/videos/generations" requestPayload
                    (requestHeaders u)] in
        let thrown error :=
          (Thrown error, (sent ++ onFailure video error)%list) in
        match reply with
        | Fulfilled (Some b) =>
            if status b && Js.truthy_ostr (data b ≫= jobId) then
              (Returned
                 (Some {| ref_jobId := default "" (data b ≫= jobId);
                          ref_postId := data b ≫= postId |}),
               sent)
            else
              thrown (PlainError "Invalid response from video generation API")
        | Fulfilled None =>
            thrown (PlainError "Invalid response from video generation API")
        | Failed error => thrown error
        end
    | image =>
        (Returned None,
         [HttpPost "/api/images/generations" requestPayload
                   (requestHeaders u)])
    end.
Proof.
  intros (Hid & Huid & Hb & Hl).
  unfold sendJobRequest. cbn zeta.
  rewrite Hid. cbn [Js.truthy_ostr]. rewrite Huid. cbn [negb].
  rewrite prompt_check_blank, Hb.
  replace (1000 <? length prompt)%nat with false
    by (symmetry; apply Nat.ltb_ge; lia).
  cbn [default from_option].
  destruct (default image mediaType); [reflexivity|].
  destruct reply as [[b|]|e]; try reflexivity.
  destruct (status b); [|reflexivity].
  destruct (data b ≫= jobId) as [j|]; [|reflexivity].
  cbn [andb Js.truthy_ostr default from_option].
  destruct (Js.truthy_str j); reflexivity.
Qed.

End Submitter.

(** C3: a prompt that is empty, entirely whitespace or longer than 1000
    code units, or a missing user or user id, makes the submitter return
    without a request: the trace holds no POST, it holds an error toast,
    and [stopGeneration] is called, so that the flag is cleared whatever
    the store was. *)
Theorem rejected_submission_no_request :
  forall prompt user imageCount mediaType seed reply,
    SendJobRequest.rejects prompt user ->
    let r := SendJobRequest.sendJobRequest
               prompt user imageCount mediaType seed reply in
    fst r = SendJobRequest.Returned None
    /\ existsb SendJobRequest.isHttpPost (snd r) = false
    /\ (exists msg, In (SendJobRequest.ToastError msg) (snd r))
    /\ In SendJobRequest.StopGeneration (snd r)
    /\ forall s,
         GenerationStore.isActive (SendJobRequest.runStore (snd r) s) = false.
Proof.
  intros prompt user imageCount mediaType seed reply H.
  unfold SendJobRequest.sendJobRequest.
  destruct user as [u|]; cbn zeta.
  - destruct (Js.truthy_ostr (SendJobRequest.id u)) eqn:Eid; cbn [negb].
    + rewrite prompt_check_blank.
      destruct (forallb Js.is_space prompt) eqn:Eb.
      * cbn. repeat split; eauto.
      * destruct (1000 <? length prompt)%nat eqn:El.
        -- cbn. repeat split; eauto.
        -- exfalso. apply Nat.ltb_ge in El.
           destruct H as [H|[H|[H|[u' [H1 H2]]]]];
             [congruence | lia | discriminate |].
           injection H1 as <-. congruence.
    + cbn. repeat split; eauto.
  - cbn. repeat split; eauto.
Qed.

Lemma rejected_submission_no_request_witness :
  SendJobRequest.rejects (Js.of_string "   ")
          (Some (SendJobRequest.mkUser (Some "user-1") 5 None))
  /\ let r := SendJobRequest.sendJobRequest
                (Js.of_string "   ")
                (Some (SendJobRequest.mkUser (Some "user-1") 5 None))
                None None 4242 (SendJobRequest.Fulfilled None) in
     fst r = SendJobRequest.Returned None
     /\ existsb SendJobRequest.isHttpPost (snd r) = false
     /\ (exists msg, In (SendJobRequest.ToastError msg) (snd r))
     /\ In SendJobRequest.StopGeneration (snd r)
     /\ forall s,
          GenerationStore.isActive (SendJobRequest.runStore (snd r) s) = false.
Proof.
  assert (H : SendJobRequest.rejects (Js.of_string "   ")
                (Some (SendJobRequest.mkUser (Some "user-1") 5 None))).
  { left. vm_compute. reflexivity. }
  split; [exact H|].
  apply (rejected_submission_no_request
           (Js.of_string "   ")
           (Some (SendJobRequest.mkUser (Some "user-1") 5 None))
           None None 4242 (SendJobRequest.Fulfilled None) H).
Defined.

(** C4: an accepted submission issues, first and only once in the call,
    a POST whose payload holds the trimmed prompt (the prompt without the
    whitespace around it), the drawn seed, the user's id as author and the
    category "GENERATION"; its count [n] is 1 for a video whatever count
    was asked for, and otherwise the image count (4 when omitted) clamped
    to 1..10. *)
Theorem accepted_payload :
  forall prompt u uid imageCount mediaType seed reply,
    SendJobRequest.accepts prompt u uid ->
    exists endpoint payload headers rest,
      snd (SendJobRequest.sendJobRequest
             prompt (Some u) imageCount mediaType seed reply)
      = SendJobRequest.HttpPost endpoint payload headers :: rest
      /\ existsb SendJobRequest.isHttpPost rest = false
      /\ Js.is_trim_of prompt
           (SendJobRequest.Prompt (SendJobRequest.inputs payload))
      /\ SendJobRequest.Seed (SendJobRequest.inputs payload) = seed
      /\ SendJobRequest.author payload = uid
      /\ SendJobRequest.category payload = "GENERATION"
      /\ (mediaType = Some GenerationStore.video ->
          SendJobRequest.n (SendJobRequest.inputs payload) = 1%Z)
      /\ (mediaType <> Some GenerationStore.video ->
          let count := default 4%Z imageCount in
          let n := SendJobRequest.n (SendJobRequest.inputs payload) in
          (1 <= n <= 10)%Z
          /\ ((1 <= count <= 10)%Z -> n = count)
          /\ ((count < 1)%Z -> n = 1%Z)
          /\ ((10 < count)%Z -> n = 10%Z)).
Proof.
  intros prompt u uid imageCount mediaType seed reply H.
  rewrite (sendJobRequest_accepted _ _ _ _ _ _ _ H). cbn zeta.
  assert (Clamp : forall count : Z,
             let n := Z.min (Z.max count 1) 10 in
             (1 <= n <= 10)%Z
             /\ ((1 <= count <= 10)%Z -> n = count)
             /\ ((count < 1)%Z -> n = 1%Z)
             /\ ((10 < count)%Z -> n = 10%Z)).
  { intros count n. subst n. lia. }
  destruct mediaType as [[|]|]; cbn [default from_option].
  2: destruct reply as [[b|]|e];
       [destruct (SendJobRequest.status b
                  && Js.truthy_ostr
                       (SendJobRequest.data b ≫= SendJobRequest.jobId))| |].
  all: do 4 eexists; (split; [reflexivity|]); cbn;
    (split; [reflexivity|]); (split; [apply trim_is_trim_of|]);
    (split; [reflexivity|]); (split; [reflexivity|]);
    (split; [reflexivity|]); split;
    try (intros _; reflexivity); try (intros D; discriminate D);
    try (intros D; exfalso; apply D; reflexivity);
    try (intros _; apply Clamp).
Qed.

Lemma accepted_payload_witness :
  SendJobRequest.accepts
    (Js.of_string " a red fox in snow ")
    (SendJobRequest.mkUser (Some "user-1") 5 None) "user-1"
  /\ exists endpoint payload headers rest,
      snd (SendJobRequest.sendJobRequest
             (Js.of_string " a red fox in snow ")
             (Some (SendJobRequest.mkUser (Some "user-1") 5 None))
             (Some 7%Z) (Some GenerationStore.video) 4242
             (SendJobRequest.Fulfilled None))
      = SendJobRequest.HttpPost endpoint payload headers :: rest
      /\ existsb SendJobRequest.isHttpPost rest = false
      /\ Js.is_trim_of (Js.of_string " a red fox in snow ")
           (SendJobRequest.Prompt (SendJobRequest.inputs payload))
      /\ SendJobRequest.Seed (SendJobRequest.inputs payload) = 4242%Z
      /\ SendJobRequest.author payload = "user-1"
      /\ SendJobRequest.category payload = "GENERATION"
      /\ (Some GenerationStore.video = Some GenerationStore.video ->
          SendJobRequest.n (SendJobRequest.inputs payload) = 1%Z)
      /\ (Some GenerationStore.video <> Some GenerationStore.video ->
          let count := default 4%Z (Some 7%Z) in
          let n := SendJobRequest.n (SendJobRequest.inputs payload) in
          (1 <= n <= 10)%Z
          /\ ((1 <= count <= 10)%Z -> n = count)
          /\ ((count < 1)%Z -> n = 1%Z)
          /\ ((10 < count)%Z -> n = 10%Z)).
Proof.
  assert (H : SendJobRequest.accepts
                (Js.of_string " a red fox in snow ")
                (SendJobRequest.mkUser (Some "user-1") 5 None) "user-1").
  { unfold SendJobRequest.accepts. repeat split; try reflexivity.
    cbn. lia. }
  split; [exact H|].
  apply (accepted_payload _ _ _ (Some 7%Z) (Some GenerationStore.video)
           4242%Z (SendJobRequest.Fulfilled None) H).
Defined.

(** The prompt "a red fox in snow" as an image with the default count
    asks for 4 outputs, and as a video for 1 whatever the count. *)
Example red_fox_counts :
  let user := Some (SendJobRequest.mkUser (Some "user-1") 5 None) in
  let fox := Js.of_string "a red fox in snow" in
  (forall reply,
      map (fun e => match e with
                    | SendJobRequest.HttpPost _ p _ =>
                        Some (SendJobRequest.n (SendJobRequest.inputs p))
                    | _ => None
                    end)
          (snd (SendJobRequest.sendJobRequest
                  fox user None (Some GenerationStore.image) 4242 reply))
      = [Some 4%Z])
  /\ hd_error
       (snd (SendJobRequest.sendJobRequest
               fox user (Some 9%Z) (Some GenerationStore.video) 4242
               (SendJobRequest.Fulfilled None)))
     = Some (SendJobRequest.HttpPost "/api/videos/generations"
               (SendJobRequest.mkRequest
                  (SendJobRequest.mkInputs fox 4242 1) "user-1" "GENERATION")
               [("Content-Type", "application/json")]).
Proof. split; [intros reply|]; vm_compute; reflexivity. Qed.

(** C5, as the code has it: when the awaited video request fails, the
    submitter calls [stopGeneration] (the flag is cleared whatever the
    store was), shows one message and rethrows the same error.  The
    message is "Request timeout - please try again" for the code
    ECONNABORTED, and otherwise goes by the HTTP status: the log-in
    message for 401, the response's message or "Invalid request" for 400,
    "Server error - please try again" for exactly 500, and for any other
    status the response's message or, failing that, the error's own. *)
Theorem video_failure_handling :
  forall prompt u uid imageCount seed error,
    SendJobRequest.accepts prompt u uid ->
    let r := SendJobRequest.sendJobRequest
               prompt (Some u) imageCount (Some GenerationStore.video) seed
               (SendJobRequest.Failed error) in
    let shown := SendJobRequest.errorMessage GenerationStore.video error in
    fst r = SendJobRequest.Thrown error
    /\ (forall s,
         GenerationStore.isActive (SendJobRequest.runStore (snd r) s) = false)
    /\ List.filter SendJobRequest.isToastError (snd r)
       = [SendJobRequest.ToastError shown]
    /\ (forall response message,
         error = SendJobRequest.AxiosError
                   (Some "ECONNABORTED") response message ->
         shown = "Request timeout - please try again")
    /\ (forall code status text message,
         error = SendJobRequest.AxiosError code
                   (Some (SendJobRequest.mkErrResp status text)) message ->
         code <> Some "ECONNABORTED" ->
         (status = 401%Z -> shown = "Please log in to generate videos")
         /\ (status = 400%Z -> shown = Js.or_str text "Invalid request")
         /\ (status = 500%Z -> shown = "Server error - please try again")
         /\ (status <> 401%Z -> status <> 400%Z -> status <> 500%Z ->
             shown = Js.or_str text message)).
Proof.
  intros prompt u uid imageCount seed error H.
  rewrite (sendJobRequest_accepted _ _ _ _ _ _ _ H).
  cbn zeta. cbn [default from_option fst snd].
  split; [reflexivity|]. split; [intros s; reflexivity|].
  split; [reflexivity|]. split.
  - intros response message ->. reflexivity.
  - intros code status text message -> Hc.
    unfold SendJobRequest.errorMessage.
    rewrite (bool_decide_eq_false_2 _ Hc). cbn [fmap option_fmap option_map
      SendJobRequest.err_status SendJobRequest.err_data_message mbind
      option_bind].
    repeat split.
    + intros ->. reflexivity.
    + intros ->. reflexivity.
    + intros ->. reflexivity.
    + intros N1 N2 N3.
      rewrite !bool_decide_eq_false_2 by congruence. reflexivity.
Qed.

Lemma video_failure_handling_witness :
  let error :=
    SendJobRequest.AxiosError (Some "ERR_BAD_RESPONSE")
      (Some (SendJobRequest.mkErrResp 500 None))
      "Request failed with status code 500" in
  let r := SendJobRequest.sendJobRequest
             (Js.of_string "a red fox in snow")
             (Some (SendJobRequest.mkUser (Some "user-1") 5 None))
             None (Some GenerationStore.video) 4242
             (SendJobRequest.Failed error) in
  SendJobRequest.accepts
    (Js.of_string "a red fox in snow")
    (SendJobRequest.mkUser (Some "user-1") 5 None) "user-1"
  /\ fst r = SendJobRequest.Thrown error
  /\ (forall s,
       GenerationStore.isActive (SendJobRequest.runStore (snd r) s) = false)
  /\ List.filter SendJobRequest.isToastError (snd r)
     = [SendJobRequest.ToastError "Server error - please try again"].
Proof.
  intros error r.
  assert (H : SendJobRequest.accepts
                (Js.of_string "a red fox in snow")
                (SendJobRequest.mkUser (Some "user-1") 5 None) "user-1").
  { unfold SendJobRequest.accepts. repeat split; try reflexivity.
    cbn. lia. }
  destruct (video_failure_handling _ _ _ None 4242%Z error H)
    as (E & F & G & _ & M).
  destruct (M (Some "ERR_BAD_RESPONSE") 500%Z None
              "Request failed with status code 500" eq_refl)
    as (_ & _ & M500 & _); [discriminate|].
  split; [exact H|]. split; [exact E|]. split; [exact F|].
  fold r in G. rewrite G, (M500 eq_refl). reflexivity.
Defined.

(** C5 as stated fails at status 503: the accepted video submission whose
    request fails with 503 and no message in the response shows the
    error's own message, not the server-error one. *)
Lemma video_503_not_server_error :
  let error :=
    SendJobRequest.AxiosError (Some "ERR_BAD_RESPONSE")
      (Some (SendJobRequest.mkErrResp 503 None))
      "Request failed with status code 503" in
  let r := SendJobRequest.sendJobRequest
             (Js.of_string "a red fox in snow")
             (Some (SendJobRequest.mkUser (Some "user-1") 5 None))
             None (Some GenerationStore.video) 4242
             (SendJobRequest.Failed error) in
  (500 <= 503 <= 599)%Z
  /\ List.filter SendJobRequest.isToastError (snd r)
     = [SendJobRequest.ToastError "Request failed with status code 503"]
  /\ ~ In (SendJobRequest.ToastError "Server error - please try again")
          (snd r).
Proof.
  cbn zeta. split; [lia|]. split; [vm_compute; reflexivity|].
  vm_compute. intros [D|[D|[D|[D|[]]]]]; discriminate D.
Qed.

(** C6: an accepted video submission whose response has a truthy status
    and a job id returns that id (with the post id of the response) right
    after the one POST: nothing else is awaited or done; a response
    without a body, with a falsy status or without a job id is turned
    into the error "Invalid response from video generation API", which
    the call throws. *)
Theorem video_success_returns_job :
  forall prompt u uid imageCount seed body,
    SendJobRequest.accepts prompt u uid ->
    let r := SendJobRequest.sendJobRequest
               prompt (Some u) imageCount (Some GenerationStore.video) seed
               (SendJobRequest.Fulfilled body) in
    (forall b d j,
        body = Some b ->
        SendJobRequest.status b = true ->
        SendJobRequest.data b = Some d ->
        SendJobRequest.jobId d = Some j ->
        j <> "" ->
        fst r = SendJobRequest.Returned
                  (Some (SendJobRequest.mkJobRef j (SendJobRequest.postId d)))
        /\ exists payload headers,
            snd r = [SendJobRequest.HttpPost "/api/videos/generations"
                       payload headers])
    /\ ((body = None
         \/ exists b,
             body = Some b
             /\ (SendJobRequest.status b = false
                 \/ Js.truthy_ostr
                      (SendJobRequest.data b ≫= SendJobRequest.jobId)
                    = false)) ->
        fst r = SendJobRequest.Thrown
                  (SendJobRequest.PlainError
                     "Invalid response from video generation API")).
Proof.
  intros prompt u uid imageCount seed body H.
  rewrite (sendJobRequest_accepted _ _ _ _ _ _ _ H).
  cbn zeta. cbn [default from_option]. split.
  - intros b d j -> Hs Hd Hj Hne. rewrite Hs, Hd. cbn. rewrite Hj. cbn.
    destruct j as [|c j]; [congruence|]. cbn. split; [reflexivity|].
    eauto.
  - intros [->|[b [-> [Hs|Hj]]]]; [reflexivity| |].
    + rewrite Hs. reflexivity.
    + rewrite Hj, andb_false_r. reflexivity.
Qed.

Lemma video_success_returns_job_witness :
  let body :=
    SendJobRequest.mkBody true
      (Some (SendJobRequest.mkJobData (Some "job-42") (Some 17%Z) None)) in
  let r := SendJobRequest.sendJobRequest
             (Js.of_string "a red fox in snow")
             (Some (SendJobRequest.mkUser (Some "user-1") 5 None))
             None (Some GenerationStore.video) 4242
             (SendJobRequest.Fulfilled (Some body)) in
  SendJobRequest.accepts
    (Js.of_string "a red fox in snow")
    (SendJobRequest.mkUser (Some "user-1") 5 None) "user-1"
  /\ "job-42" <> ""
  /\ fst r = SendJobRequest.Returned
               (Some (SendJobRequest.mkJobRef "job-42" (Some 17%Z)))
  /\ exists payload headers,
      snd r = [SendJobRequest.HttpPost "/api/videos/generations"
                 payload headers].
Proof.
  intros body r.
  assert (H : SendJobRequest.accepts
                (Js.of_string "a red fox in snow")
                (SendJobRequest.mkUser (Some "user-1") 5 None) "user-1").
  { unfold SendJobRequest.accepts. repeat split; try reflexivity.
    cbn. lia. }
  assert (N : "job-42" <> "") by discriminate.
  split; [exact H|]. split; [exact N|].
  destruct (video_success_returns_job _ _ _ None 4242%Z (Some body) H)
    as [Ok _].
  exact (Ok body _ "job-42" eq_refl eq_refl eq_refl eq_refl N).
Defined.

(** The other half at a concrete response: a body with a true status and
    no job id makes the call stop the generation, show the default
    message and throw. *)
Example video_response_without_job :
  SendJobRequest.sendJobRequest
    (Js.of_string "a red fox in snow")
    (Some (SendJobRequest.mkUser (Some "user-1") 5 None))
    None (Some GenerationStore.video) 4242
    (SendJobRequest.Fulfilled
       (Some (SendJobRequest.mkBody true
                (Some (SendJobRequest.mkJobData None (Some 17%Z) None)))))
  = (SendJobRequest.Thrown
       (SendJobRequest.PlainError "Invalid response from video generation API"),
     [SendJobRequest.HttpPost "/api/videos/generations"
        (SendJobRequest.mkRequest
           (SendJobRequest.mkInputs (Js.of_string "a red fox in snow") 4242 1)
           "user-1" "GENERATION")
        [("Content-Type", "application/json")];
      SendJobRequest.StopGeneration;
      SendJobRequest.ToastError "Failed to start video generation";
      SendJobRequest.LogError "Error sending job request"]).
Proof. vm_compute. reflexivity. Qed.

(** ** Image submissions and row polling *)

(** C7: an accepted image submission with a successful response leaves
    the store as it was: neither the call nor its success callback calls
    [stopGeneration].  A tick of the row polling loop, which runs only
    for a user and while generating, clears an active flag exactly when
    the query returns a post id different from the last observed one, and
    it then also invalidates the cached post listing and navigates to the
    new record. *)
Theorem image_flag_cleared_by_polling_only :
  forall prompt u uid imageCount seed reply body s,
    SendJobRequest.accepts prompt u uid ->
    let trace :=
      (snd (SendJobRequest.sendJobRequest
              prompt (Some u) imageCount (Some GenerationStore.image) seed
              reply)
       ++ SendJobRequest.onImageSettled (SendJobRequest.Fulfilled body))%list
    in
    ~ In SendJobRequest.StopGeneration trace
    /\ SendJobRequest.runStore trace s = s
    /\ (forall hasUser q h,
          GenerationStore.isActive (UseCreateJob.store h) = true ->
          (GenerationStore.isActive
             (UseCreateJob.store (UseCreateJob.intervalTick hasUser q h))
           = false
           <-> hasUser = true
               /\ UseCreateJob.isGenerating h = true
               /\ exists id, q = UseCreateJob.Row id
                             /\ Some id <> UseCreateJob.latestPostId h))
    /\ (forall id h,
          Some id <> UseCreateJob.latestPostId h ->
          let h' := UseCreateJob.pollTick (UseCreateJob.Row id) h in
          UseCreateJob.store h'
          = GenerationStore.stopGeneration (UseCreateJob.store h)
          /\ UseCreateJob.isGenerating h' = false
          /\ UseCreateJob.latestPostId h' = Some id
          /\ UseCreateJob.effects h'
             = (UseCreateJob.effects h
                ++ [UseCreateJob.ConsoleLog "New post detected";
                    UseCreateJob.InvalidateQueries ["posts"];
                    UseCreateJob.RouterPush
                      ("/home/photo/" ++ UseCreateJob.id_to_string id)%string
                   ])%list).
Proof.
  intros prompt u uid imageCount seed reply body s H.
  rewrite (sendJobRequest_accepted _ _ _ _ _ _ _ H).
  cbn zeta. cbn [default from_option snd app SendJobRequest.onImageSettled].
  assert (Quiet : forall b,
             SendJobRequest.onImageFulfilled b = []
             \/ exists t, SendJobRequest.onImageFulfilled b
                          = [SendJobRequest.ConsoleInfo t]).
  { intros [b|]; cbn; [|auto].
    destruct (SendJobRequest.status b); [|auto].
    destruct (SendJobRequest.data b ≫= _) as [t|]; [|auto].
    destruct (Js.truthy_str t); eauto. }
  split; [|split; [|split]].
  - destruct (Quiet body) as [->|[t ->]]; cbn;
      intuition discriminate.
  - destruct (Quiet body) as [->|[t ->]]; reflexivity.
  - intros hasUser q h Ha.
    unfold UseCreateJob.intervalTick, UseCreateJob.pollTick.
    destruct hasUser; cbn [negb orb];
      [|rewrite Ha; split; [discriminate|intros [D _]; discriminate D]].
    destruct (UseCreateJob.isGenerating h); cbn [negb];
      [|rewrite Ha; split; [discriminate|intros (_ & D & _); discriminate D]].
    destruct q as [id| |]; cbn.
    + case_bool_decide as Hd; cbn.
      * split; [eauto|reflexivity].
      * rewrite Ha. split; [discriminate|].
        intros (_ & _ & id' & [= <-] & Hn). contradiction.
    + rewrite Ha. split; [discriminate|].
      intros (_ & _ & id & D & _). discriminate D.
    + rewrite Ha. split; [discriminate|].
      intros (_ & _ & id & D & _). discriminate D.
  - intros id h Hn. unfold UseCreateJob.pollTick.
    rewrite (bool_decide_eq_true_2 _ Hn). cbn. repeat split.
Qed.

Lemma image_flag_cleared_by_polling_only_witness :
  let active := GenerationStore.mkGen true GenerationStore.image in
  let trace :=
    (snd (SendJobRequest.sendJobRequest
            (Js.of_string "a red fox in snow")
            (Some (SendJobRequest.mkUser (Some "user-1") 5 None))
            None (Some GenerationStore.image) 4242
            (SendJobRequest.Fulfilled None))
     ++ SendJobRequest.onImageSettled
          (SendJobRequest.Fulfilled
             (Some (SendJobRequest.mkBody true
                      (Some (SendJobRequest.mkJobData
                               None None (Some "30 seconds")))))))%list in
  let h := UseCreateJob.mkHook true 0 active (Some 41%Z) [] in
  SendJobRequest.accepts
    (Js.of_string "a red fox in snow")
    (SendJobRequest.mkUser (Some "user-1") 5 None) "user-1"
  /\ Some 42%Z <> UseCreateJob.latestPostId h
  /\ SendJobRequest.runStore trace active = active
  /\ UseCreateJob.pollTick (UseCreateJob.Row 42) h
     = UseCreateJob.mkHook false 100
         (GenerationStore.mkGen false GenerationStore.image) (Some 42%Z)
         [UseCreateJob.ConsoleLog "New post detected";
          UseCreateJob.InvalidateQueries ["posts"];
          UseCreateJob.RouterPush "/home/photo/42"].
Proof.
  intros active trace h.
  assert (H : SendJobRequest.accepts
                (Js.of_string "a red fox in snow")
                (SendJobRequest.mkUser (Some "user-1") 5 None) "user-1").
  { unfold SendJobRequest.accepts. repeat split; try reflexivity.
    cbn. lia. }
  assert (N : Some 42%Z <> UseCreateJob.latestPostId h) by discriminate.
  destruct (image_flag_cleared_by_polling_only
              _ _ _ None 4242%Z (SendJobRequest.Fulfilled None)
              (Some (SendJobRequest.mkBody true
                       (Some (SendJobRequest.mkJobData
                                None None (Some "30 seconds")))))
              active H)
    as (_ & Same & _ & Detect).
  split; [exact H|]. split; [exact N|]. split; [exact Same|].
  destruct (Detect 42%Z h N) as (Es & Eg & El & Ee).
  destruct (UseCreateJob.pollTick (UseCreateJob.Row 42) h)
    as [g pr st l e] eqn:Eh.
  cbn in Es, Eg, El, Ee. subst.
  f_equal. vm_compute in Eh. congruence.
Defined.

(** ** Job-status polling *)

(** Walks through the branches of [pollSettled] for a response [r] and an
    update reply [u]. *)
Ltac settled_cases r u :=
  unfold VideoStatusPoll.pollSettled, VideoStatusPoll.onCatch,
    VideoStatusPoll.updatePostWithVideo;
  destruct r as [?|? ? [?|?]]; destruct u;
  repeat match goal with
         | |- context [if ?b then _ else _] => destruct b
         | |- context [match VideoStatusPoll.vs_status ?x with _ => _ end] =>
             destruct (VideoStatusPoll.vs_status x)
         | |- context [match VideoStatusPoll.video ?x with _ => _ end] =>
             destruct (VideoStatusPoll.video x)
         end; cbn; auto.

Section Poller.
Import VideoStatusPoll.

Variable p : Props.

(** The handler of a settled request never touches the list of requests
    in flight nor issues a request itself. *)
Lemma pollSettled_frame rc r u w :
  inflight (pollSettled p rc r u w) = inflight w
  /\ fetched (pollSettled p rc r u w) = fetched w.
Proof.
  settled_cases r u.
Qed.

(** It never turns polling back on. *)
Lemma pollSettled_stays_stopped rc r u w :
  isPolling (st w) = false ->
  isPolling (st (pollSettled p rc r u w)) = false.
Proof.
  intros H. settled_cases r u.
Qed.

(** One round of the sequential schedule while polling. *)
Lemma sequential_round r u w :
  Js.truthy_str (jobId p) = true ->
  isPolling (st w) = true ->
  inflight w = [] ->
  run p [Fire; Settle 0 r u] w
  = pollSettled p (retryCount (st w)) r u (requested p w).
Proof.
  intros Hj Hp Hi. unfold run. cbn [fold_left step].
  unfold fire. rewrite Hj, Hp. cbn [andb].
  unfold settle. cbn [inflight]. rewrite Hi. cbn.
  unfold requested. rewrite Hi. reflexivity.
Qed.

(** One round of the sequential schedule once polling has stopped. *)
Lemma sequential_round_stopped r u w :
  isPolling (st w) = false ->
  inflight w = [] ->
  run p [Fire; Settle 0 r u] w = w.
Proof.
  intros Hp Hi. unfold run. cbn [fold_left step].
  unfold fire. rewrite Hp, andb_false_r.
  unfold settle. rewrite Hi. reflexivity.
Qed.

Lemma poll_cons r rs w :
  poll p (r :: rs) w = poll p rs (run p [Fire; Settle 0 r UpdateOk] w).
Proof. reflexivity. Qed.

Lemma poll_stopped rs w :
  isPolling (st w) = false -> inflight w = [] -> poll p rs w = w.
Proof.
  intros Hp Hi. induction rs as [|r rs IH]; [reflexivity|].
  rewrite poll_cons, sequential_round_stopped by assumption. exact IH.
Qed.

(** What a non-2xx answer does, by the [retryCount] of the closure:
    below 10 it counts one more retry, from 10 on it stops with an
    error.  The 404 or not of the answer makes no difference. *)
Lemma error_answer rc r u w :
  httpError r = true ->
  (rc < 10 -> pollSettled p rc r u w = withState (setRetryCount S) w)
  /\ (10 <= rc ->
      exists message,
        pollSettled p rc r u w
        = withState (setIsPolling false)
            (withState (setError message) w)).
Proof.
  destruct r as [m|code text body]; [discriminate|].
  cbn [httpError]. intros Hok. unfold pollSettled, onCatch. rewrite Hok.
  split; intros Hrc.
  - destruct (code =? 404)%Z; cbn [andb].
    + destruct (Nat.ltb_spec rc 10); [reflexivity|lia].
    + destruct (Nat.ltb_spec rc 5); [reflexivity|].
      destruct (Nat.leb_spec 10 rc); [lia|reflexivity].
  - replace (rc <? 10)%nat with false
      by (symmetry; apply Nat.ltb_ge; lia).
    replace (rc <? 5)%nat with false
      by (symmetry; apply Nat.ltb_ge; lia).
    replace (10 <=? rc)%nat with true
      by (symmetry; apply Nat.leb_le; lia).
    rewrite andb_false_r. eauto.
Qed.

(** A run of non-2xx answers within the budget only counts. *)
Lemma error_run_within rs : forall w,
  Js.truthy_str (jobId p) = true ->
  forallb httpError rs = true ->
  isPolling (st w) = true ->
  inflight w = [] ->
  retryCount (st w) + length rs <= 10 ->
  let w' := poll p rs w in
  isPolling (st w') = true
  /\ error (st w') = error (st w)
  /\ retryCount (st w') = retryCount (st w) + length rs
  /\ inflight w' = []
  /\ length (fetched w') = length (fetched w) + length rs.
Proof.
  induction rs as [|r rs IH]; intros w Hj Hall Hp Hi Hb; cbn zeta.
  - cbn. repeat split; auto; lia.
  - cbn [forallb] in Hall. apply andb_prop in Hall as [Hr Hall].
    cbn [length] in Hb.
    rewrite poll_cons, sequential_round by assumption.
    destruct (error_answer (retryCount (st w)) r UpdateOk (requested p w) Hr)
      as [Hlt _].
    rewrite Hlt by lia.
    destruct (IH (withState (setRetryCount S) (requested p w)))
      as (A & B & C & D & E); try assumption; cbn; try lia.
    repeat split; try assumption.
    + cbn in C. cbn [length]. lia.
    + cbn in E. rewrite length_app in E. cbn in E. cbn [length]. lia.
Qed.

End Poller.

Lemma poll_app p rs1 rs2 w :
  VideoStatusPoll.poll p (rs1 ++ rs2) w
  = VideoStatusPoll.poll p rs2 (VideoStatusPoll.poll p rs1 w).
Proof.
  unfold VideoStatusPoll.poll, VideoStatusPoll.run,
    VideoStatusPoll.sequential.
  rewrite map_app, flat_map_app. apply fold_left_app.
Qed.

(** The retry budget as the code has it: a run of consecutive non-2xx
    answers, 404 or not, keeps the poller polling while it is at most 10
    long; the 11th stops it with an error, and no request follows. *)
Lemma error_run_budget p db rs :
  Js.truthy_str (VideoStatusPoll.jobId p) = true ->
  forallb VideoStatusPoll.httpError rs = true ->
  let w := VideoStatusPoll.poll p rs (VideoStatusPoll.initialWorld db) in
  (length rs <= 10 ->
   VideoStatusPoll.isPolling (VideoStatusPoll.st w) = true
   /\ VideoStatusPoll.error (VideoStatusPoll.st w) = None
   /\ VideoStatusPoll.retryCount (VideoStatusPoll.st w) = length rs
   /\ length (VideoStatusPoll.fetched w) = length rs)
  /\ (10 < length rs ->
      VideoStatusPoll.isPolling (VideoStatusPoll.st w) = false
      /\ (exists message,
             VideoStatusPoll.error (VideoStatusPoll.st w) = Some message)
      /\ length (VideoStatusPoll.fetched w) = 11).
Proof.
  intros Hj Hall w. split; intros Hlen.
  - destruct (error_run_within p rs (VideoStatusPoll.initialWorld db))
      as (A & B & C & D & E); auto.
  - subst w.
    assert (L1 : length (firstn 10 rs) = 10).
    { rewrite length_firstn. lia. }
    assert (L2 : skipn 10 rs <> []).
    { intros E. apply (f_equal (@length _)) in E.
      rewrite length_skipn in E. cbn in E. lia. }
    rewrite <- (firstn_skipn 10 rs) in Hall |- *.
    rewrite forallb_app in Hall. apply andb_prop in Hall as [H1 H2].
    rewrite poll_app.
    destruct (error_run_within p (firstn 10 rs)
                (VideoStatusPoll.initialWorld db))
      as (A & B & C & D & E); auto; [rewrite L1; cbn; lia|].
    set (w10 := VideoStatusPoll.poll p (firstn 10 rs) _) in *.
    destruct (skipn 10 rs) as [|r rest] eqn:Es; [congruence|].
    cbn [forallb] in H2. apply andb_prop in H2 as [Hr _].
    rewrite poll_cons, sequential_round by assumption.
    destruct (error_answer p (VideoStatusPoll.retryCount
                                (VideoStatusPoll.st w10))
                r VideoStatusPoll.UpdateOk
                (VideoStatusPoll.requested p w10) Hr) as [_ Hge].
    destruct Hge as [message Hm]; [lia|]. rewrite Hm.
    rewrite poll_stopped; cbn; auto.
    repeat split; eauto.
    rewrite length_app. cbn in E. cbn. lia.
Qed.

(** C1, evaluated on the code.  With answers 500 the poller is still
    polling, without an error, after 5, 6 and 10 consecutive answers and
    stops with an error at the 11th; with answers 404 it is still polling
    after 10 and stops at the 11th. *)
Theorem server_errors_outlive_budget :
  let p := VideoStatusPoll.mkProps 17 "job-42" in
  let e500 :=
    VideoStatusPoll.Http 500 "Internal Server Error"
      (VideoStatusPoll.Unparsable "") in
  let e404 :=
    VideoStatusPoll.Http 404 "Not Found" (VideoStatusPoll.Unparsable "") in
  let after r k :=
    VideoStatusPoll.st
      (VideoStatusPoll.poll p (repeat r k) (VideoStatusPoll.initialWorld ∅))
  in
  after e500 5 = VideoStatusPoll.mkState None true None 5
  /\ after e500 6 = VideoStatusPoll.mkState None true None 6
  /\ after e500 10 = VideoStatusPoll.mkState None true None 10
  /\ after e500 11
     = VideoStatusPoll.mkState None false
         (Some "Status check failed after 10 retries: Internal Server Error")
         10
  /\ after e404 10 = VideoStatusPoll.mkState None true None 10
  /\ after e404 11
     = VideoStatusPoll.mkState None false
         (Some "Status check failed after 10 retries: Not Found") 10.
Proof. cbn zeta. repeat split; vm_compute; reflexivity. Qed.

(** C2: on the answers 404, 404, "processing", "completed" with a video
    URL, each request settling before the next, the poller counts two
    retries, resets the count to zero at the first 2xx answer and goes on
    polling, and at the last answer stops without an error: [onVideoReady]
    has been called exactly once, with that URL, and the row of the post
    holds the URL as its video data. *)
Theorem poll_404_404_processing_completed :
  forall p db t1 b1 t2 b2 c3 t3 c4 t4 sp sc v old,
    Js.truthy_str (VideoStatusPoll.jobId p) = true ->
    VideoStatusPoll.ok c3 = true ->
    VideoStatusPoll.ok c4 = true ->
    VideoStatusPoll.vs_status sp = VideoStatusPoll.processing ->
    VideoStatusPoll.vs_status sc = VideoStatusPoll.completed ->
    VideoStatusPoll.video sc = Some v ->
    VideoStatusPoll.url v <> "" ->
    db !! VideoStatusPoll.postId p = Some old ->
    let r1 := VideoStatusPoll.Http 404 t1 b1 in
    let r2 := VideoStatusPoll.Http 404 t2 b2 in
    let r3 := VideoStatusPoll.Http c3 t3 (VideoStatusPoll.Parsed sp) in
    let r4 := VideoStatusPoll.Http c4 t4 (VideoStatusPoll.Parsed sc) in
    let w0 := VideoStatusPoll.initialWorld db in
    let w2 := VideoStatusPoll.poll p [r1; r2] w0 in
    let w3 := VideoStatusPoll.poll p [r1; r2; r3] w0 in
    let w4 := VideoStatusPoll.poll p [r1; r2; r3; r4] w0 in
    VideoStatusPoll.retryCount (VideoStatusPoll.st w2) = 2
    /\ VideoStatusPoll.st w3
       = VideoStatusPoll.mkState (Some sp) true None 0
    /\ VideoStatusPoll.readyCalls w3 = []
    /\ VideoStatusPoll.st w4
       = VideoStatusPoll.mkState (Some sc) false None 0
    /\ VideoStatusPoll.readyCalls w4 = [VideoStatusPoll.url v]
    /\ VideoStatusPoll.posts w4 !! VideoStatusPoll.postId p
       = Some [VideoStatusPoll.mkDatum
                 (VideoStatusPoll.url v) (VideoStatusPoll.url v)
                 (VideoStatusPoll.s3 v)]
    /\ (forall other,
          other <> VideoStatusPoll.postId p ->
          VideoStatusPoll.posts w4 !! other = db !! other)
    /\ length (VideoStatusPoll.fetched w4) = 4
    /\ VideoStatusPoll.inflight w4 = [].
Proof.
  intros p db t1 b1 t2 b2 c3 t3 c4 t4 sp sc v old
    Hj H3 H4 Hsp Hsc Hv Hu Hold r1 r2 r3 r4 w0 w2 w3 w4.
  assert (Ht : Js.truthy_str (VideoStatusPoll.url v) = true).
  { destruct (VideoStatusPoll.url v); [congruence|reflexivity]. }
  assert (E2 : w2 = VideoStatusPoll.mkWorld
                      (VideoStatusPoll.mkState None true None 2) []
                      (VideoStatusPoll.fetched
                         (VideoStatusPoll.requested p
                            (VideoStatusPoll.requested p w0)))
                      [] db).
  { subst w2 r1 r2. rewrite !poll_cons.
    rewrite (sequential_round p _ _ w0) by (assumption || reflexivity).
    rewrite sequential_round by (assumption || reflexivity). reflexivity. }
  assert (E3 : w3 = VideoStatusPoll.mkWorld
                      (VideoStatusPoll.mkState (Some sp) true None 0) []
                      (VideoStatusPoll.fetched
                         (VideoStatusPoll.requested p w2))
                      [] db).
  { subst w3. change [r1; r2; r3] with ([r1; r2] ++ [r3])%list.
    rewrite poll_app. fold w2. rewrite E2, poll_cons.
    rewrite sequential_round by (assumption || reflexivity).
    subst r3. cbn. rewrite H3, Hsp. reflexivity. }
  assert (E4 : w4 = VideoStatusPoll.mkWorld
                      (VideoStatusPoll.mkState (Some sc) false None 0) []
                      (VideoStatusPoll.fetched
                         (VideoStatusPoll.requested p w3))
                      [VideoStatusPoll.url v]
                      (alter (fun _ =>
                                [VideoStatusPoll.mkDatum
                                   (VideoStatusPoll.url v)
                                   (VideoStatusPoll.url v)
                                   (VideoStatusPoll.s3 v)])
                             (VideoStatusPoll.postId p) db)).
  { subst w4. change [r1; r2; r3; r4] with ([r1; r2; r3] ++ [r4])%list.
    rewrite poll_app. fold w3. rewrite E3, poll_cons.
    rewrite sequential_round by (assumption || reflexivity).
    subst r4. cbn. rewrite H4, Hsc, Hv, Ht. reflexivity. }
  rewrite E4, E3, E2. cbn.
  repeat split.
  - rewrite lookup_alter_eq, Hold. reflexivity.
  - intros other Hne. apply lookup_alter_ne. congruence.
Qed.

Lemma poll_404_404_processing_completed_witness :
  let p := VideoStatusPoll.mkProps 17 "job-42" in
  let db : gmap Z (list VideoStatusPoll.VideoDatum) := {[ 17%Z := [] ]} in
  let v := VideoStatusPoll.mkVideo "s3://videos/v.mp4" "https://cdn/v.mp4" in
  let sp :=
    VideoStatusPoll.mkStatus "job-42" VideoStatusPoll.processing
      "09:00" "09:01" None None in
  let sc :=
    VideoStatusPoll.mkStatus "job-42" VideoStatusPoll.completed
      "09:00" "09:02" (Some v) None in
  let e404 :=
    VideoStatusPoll.Http 404 "Not Found" (VideoStatusPoll.Unparsable "") in
  let w4 :=
    VideoStatusPoll.poll p
      [e404; e404;
       VideoStatusPoll.Http 200 "OK" (VideoStatusPoll.Parsed sp);
       VideoStatusPoll.Http 200 "OK" (VideoStatusPoll.Parsed sc)]
      (VideoStatusPoll.initialWorld db) in
  (Js.truthy_str (VideoStatusPoll.jobId p) = true
   /\ VideoStatusPoll.ok 200 = true
   /\ VideoStatusPoll.url v <> ""
   /\ db !! VideoStatusPoll.postId p = Some [])
  /\ VideoStatusPoll.st w4 = VideoStatusPoll.mkState (Some sc) false None 0
  /\ VideoStatusPoll.readyCalls w4 = ["https://cdn/v.mp4"]
  /\ VideoStatusPoll.posts w4 !! 17%Z
     = Some [VideoStatusPoll.mkDatum "https://cdn/v.mp4" "https://cdn/v.mp4"
               "s3://videos/v.mp4"].
Proof.
  intros p db v sp sc e404 w4.
  assert (Hj : Js.truthy_str (VideoStatusPoll.jobId p) = true)
    by reflexivity.
  assert (Hok : VideoStatusPoll.ok 200 = true) by reflexivity.
  assert (Hu : VideoStatusPoll.url v <> "") by discriminate.
  assert (Hdb : db !! VideoStatusPoll.postId p = Some [])
    by apply lookup_singleton_eq.
  split; [repeat split; assumption|].
  destruct (poll_404_404_processing_completed
              p db "Not Found" (VideoStatusPoll.Unparsable "")
              "Not Found" (VideoStatusPoll.Unparsable "")
              200%Z "OK" 200%Z "OK" sp sc v []
              Hj Hok Hok eq_refl eq_refl eq_refl Hu Hdb)
    as (_ & _ & _ & Est & Ecalls & Epost & _).
  split; [exact Est|]. split; [exact Ecalls|exact Epost].
Defined.

(** Once polling has stopped, whatever happens next issues no request and
    does not turn polling back on. *)
Lemma run_stopped_frame p es : forall w,
  VideoStatusPoll.isPolling (VideoStatusPoll.st w) = false ->
  VideoStatusPoll.isPolling
    (VideoStatusPoll.st (VideoStatusPoll.run p es w)) = false
  /\ VideoStatusPoll.fetched (VideoStatusPoll.run p es w)
     = VideoStatusPoll.fetched w.
Proof.
  induction es as [|e es IH]; intros w Hw; [auto|].
  change (VideoStatusPoll.run p (e :: es) w)
    with (VideoStatusPoll.run p es (VideoStatusPoll.step p w e)).
  assert (S : VideoStatusPoll.isPolling
                (VideoStatusPoll.st (VideoStatusPoll.step p w e)) = false
              /\ VideoStatusPoll.fetched (VideoStatusPoll.step p w e)
                 = VideoStatusPoll.fetched w).
  { destruct e as [|i r u]; cbn [VideoStatusPoll.step].
    - unfold VideoStatusPoll.fire. rewrite Hw, andb_false_r. auto.
    - unfold VideoStatusPoll.settle.
      destruct (VideoStatusPoll.inflight w !! i) as [rc|]; [|auto].
      split.
      + apply pollSettled_stays_stopped. exact Hw.
      + etransitivity; [apply pollSettled_frame|reflexivity]. }
  destruct S as [S1 S2]. destruct (IH _ S1) as [I1 I2].
  split; congruence.
Qed.

(** With nothing in flight either, nothing changes at all. *)
Lemma run_stopped_idle p es : forall w,
  VideoStatusPoll.isPolling (VideoStatusPoll.st w) = false ->
  VideoStatusPoll.inflight w = [] ->
  VideoStatusPoll.run p es w = w.
Proof.
  induction es as [|e es IH]; intros w Hw Hi; [reflexivity|].
  change (VideoStatusPoll.run p (e :: es) w)
    with (VideoStatusPoll.run p es (VideoStatusPoll.step p w e)).
  assert (S : VideoStatusPoll.step p w e = w).
  { destruct e as [|i r u]; cbn [VideoStatusPoll.step].
    - unfold VideoStatusPoll.fire. rewrite Hw, andb_false_r. reflexivity.
    - unfold VideoStatusPoll.settle. rewrite Hi. reflexivity. }
  rewrite S. apply IH; assumption.
Qed.

(** C9, as the code has it: each of the three outcomes (completed with a
    URL, failed, errors past the budget) sets [isPolling] to false, and
    that is terminal for the polling loop: whatever happens afterwards, no
    status request is issued and [isPolling] stays false; and when no
    earlier request is still in flight, the poller does not change at
    all. *)
Theorem polling_stopped_is_terminal :
  forall p,
    (forall rc code text sd v u w,
        VideoStatusPoll.ok code = true ->
        VideoStatusPoll.vs_status sd = VideoStatusPoll.completed ->
        VideoStatusPoll.video sd = Some v ->
        VideoStatusPoll.url v <> "" ->
        VideoStatusPoll.isPolling
          (VideoStatusPoll.st
             (VideoStatusPoll.pollSettled p rc
                (VideoStatusPoll.Http code text (VideoStatusPoll.Parsed sd))
                u w)) = false)
    /\ (forall rc code text sd u w,
          VideoStatusPoll.ok code = true ->
          VideoStatusPoll.vs_status sd = VideoStatusPoll.failed ->
          let w' :=
            VideoStatusPoll.pollSettled p rc
              (VideoStatusPoll.Http code text (VideoStatusPoll.Parsed sd))
              u w in
          VideoStatusPoll.isPolling (VideoStatusPoll.st w') = false
          /\ VideoStatusPoll.error (VideoStatusPoll.st w')
             = Some (Js.or_str (VideoStatusPoll.vs_error sd)
                               "Video generation failed"))
    /\ (forall rc r u w,
          VideoStatusPoll.httpError r = true ->
          10 <= rc ->
          let w' := VideoStatusPoll.pollSettled p rc r u w in
          VideoStatusPoll.isPolling (VideoStatusPoll.st w') = false
          /\ exists message,
              VideoStatusPoll.error (VideoStatusPoll.st w') = Some message)
    /\ (forall es w,
          VideoStatusPoll.isPolling (VideoStatusPoll.st w) = false ->
          let w' := VideoStatusPoll.run p es w in
          VideoStatusPoll.isPolling (VideoStatusPoll.st w') = false
          /\ VideoStatusPoll.fetched w' = VideoStatusPoll.fetched w)
    /\ (forall es w,
          VideoStatusPoll.isPolling (VideoStatusPoll.st w) = false ->
          VideoStatusPoll.inflight w = [] ->
          VideoStatusPoll.run p es w = w).
Proof.
  intros p. split; [|split; [|split; [|split]]].
  - intros rc code text sd v u w Hok Hs Hv Hu.
    assert (Ht : Js.truthy_str (VideoStatusPoll.url v) = true).
    { destruct (VideoStatusPoll.url v); [congruence|reflexivity]. }
    unfold VideoStatusPoll.pollSettled. rewrite Hok, Hs, Hv, Ht.
    reflexivity.
  - intros rc code text sd u w Hok Hs.
    unfold VideoStatusPoll.pollSettled. rewrite Hok, Hs.
    cbn. auto.
  - intros rc r u w Hr Hrc.
    destruct (error_answer p rc r u w Hr) as [_ Hge].
    destruct (Hge Hrc) as [message ->]. cbn. eauto.
  - intros es w Hw. apply run_stopped_frame. exact Hw.
  - intros es w Hw Hi. apply run_stopped_idle; assumption.
Qed.

Lemma polling_stopped_is_terminal_witness :
  let p := VideoStatusPoll.mkProps 17 "job-42" in
  let sf :=
    VideoStatusPoll.mkStatus "job-42" VideoStatusPoll.failed
      "09:00" "09:02" None (Some "out of memory") in
  let w :=
    VideoStatusPoll.poll p [VideoStatusPoll.Http 200 "OK"
                              (VideoStatusPoll.Parsed sf)]
      (VideoStatusPoll.initialWorld ∅) in
  let later :=
    [VideoStatusPoll.Fire;
     VideoStatusPoll.Settle 0
       (VideoStatusPoll.Http 200 "OK" (VideoStatusPoll.Parsed sf))
       VideoStatusPoll.UpdateOk;
     VideoStatusPoll.Fire] in
  (VideoStatusPoll.isPolling (VideoStatusPoll.st w) = false
   /\ VideoStatusPoll.inflight w = [])
  /\ VideoStatusPoll.error (VideoStatusPoll.st w) = Some "out of memory"
  /\ VideoStatusPoll.run p later w = w.
Proof.
  intros p sf w later.
  destruct (polling_stopped_is_terminal p) as (_ & Failed & _ & _ & Idle).
  assert (Hw : VideoStatusPoll.isPolling (VideoStatusPoll.st w) = false)
    by reflexivity.
  assert (Hi : VideoStatusPoll.inflight w = []) by reflexivity.
  split; [split; assumption|]. split.
  - exact (proj2 (Failed 0 200%Z "OK" sf VideoStatusPoll.UpdateOk
                    (VideoStatusPoll.requested p
                       (VideoStatusPoll.initialWorld ∅))
                    eq_refl eq_refl)).
  - exact (Idle later w Hw Hi).
Defined.

(** C9 as stated fails when two requests overlap: the interval fires
    again before the first request has settled; the second request is
    answered "failed" and stops the poller; the first one, answered
    "processing", settles afterwards and still changes the state. *)
Lemma late_answer_changes_stopped_poller :
  let p := VideoStatusPoll.mkProps 17 "job-42" in
  let sf :=
    VideoStatusPoll.mkStatus "job-42" VideoStatusPoll.failed
      "09:00" "09:02" None None in
  let sp :=
    VideoStatusPoll.mkStatus "job-42" VideoStatusPoll.processing
      "09:00" "09:01" None None in
  let stopped :=
    VideoStatusPoll.run p
      [VideoStatusPoll.Fire;
       VideoStatusPoll.Fire;
       VideoStatusPoll.Settle 1
         (VideoStatusPoll.Http 200 "OK" (VideoStatusPoll.Parsed sf))
         VideoStatusPoll.UpdateOk]
      (VideoStatusPoll.initialWorld ∅) in
  let after :=
    VideoStatusPoll.run p
      [VideoStatusPoll.Settle 0
         (VideoStatusPoll.Http 200 "OK" (VideoStatusPoll.Parsed sp))
         VideoStatusPoll.UpdateOk]
      stopped in
  VideoStatusPoll.st stopped
  = VideoStatusPoll.mkState (Some sf) false
      (Some "Video generation failed") 0
  /\ VideoStatusPoll.st after
     = VideoStatusPoll.mkState (Some sp) false
         (Some "Video generation failed") 0
  /\ VideoStatusPoll.st after <> VideoStatusPoll.st stopped.
Proof.
  cbn zeta. split; [vm_compute; reflexivity|].
  split; [vm_compute; reflexivity|].
  vm_compute. intros D. discriminate D.
Qed.

(** ** Gallery records *)
Section Gallery.
Import FormattedPhotos.

Variable isDevelopment : bool.
Variables lighthouseGateway cloudflareUrl fallbackImage : string.
Variable isHighQualityImage : string -> bool.
Variable constrainedHeight : Z -> nat -> option Z.
Variable srcSetHeight : Z -> option Z -> option Z -> option Z.

Lemma truthy_str_ne (s : string) : Js.truthy_str s = true <-> s <> "".
Proof. destruct s; cbn; split; congruence. Qed.

(** The image check of the formatter is the valid-image property. *)
Lemma hasValidImage_spec (post : Post) :
  hasValidImage post = true <-> validImage post.
Proof.
  unfold hasValidImage, validImage, first. split.
  - intros H. apply andb_prop in H as [Hh Hf].
    destruct (ipfsImages post) as [[|img rest]|]; try discriminate.
    cbn in Hh, Hf.
    destruct (hash img) as [h|] eqn:Eh; [|discriminate].
    destruct (fileNames img) as [[|f fs]|] eqn:Ef; try discriminate.
    cbn in Hh, Hf. apply truthy_str_ne in Hh, Hf.
    exists img, rest, h, f, fs. auto.
  - intros (img & rest & h & f & fs & -> & Eh & Hh & Ef & Hf). cbn.
    rewrite Eh, Ef. cbn.
    apply truthy_str_ne in Hh, Hf. rewrite Hh, Hf. reflexivity.
Qed.

(** The video check of the formatter is the valid-video property. *)
Lemma hasValidVideo_spec (post : Post) :
  hasValidVideo post = true <-> validVideo post.
Proof.
  unfold hasValidVideo, validVideo. rewrite andb_true_iff.
  rewrite bool_decide_eq_true.
  destruct (video_data post); cbn; intuition congruence.
Qed.

(** The ratio set read for a post exists unless the remainder of
    [post.id + index] by the number of sets is negative. *)
Lemma ratioSet_undefined (i : Z) :
  at_rem aspectRatioSets i = None <-> (Z.rem i 8 < 0)%Z.
Proof.
  unfold at_rem. change (Z.of_nat (length aspectRatioSets)) with 8%Z.
  destruct (Z.ltb_spec (Z.rem i 8) 0) as [H|H]; [tauto|].
  split; [|lia]. intros E. apply lookup_ge_None in E.
  change (length aspectRatioSets) with 8 in E.
  pose proof (Z.rem_bound_abs i 8 ltac:(lia)). lia.
Qed.

Lemma formatPost_Some (index : nat) (post : Post) (photo : ExtendedPhoto) :
  formatPost isDevelopment lighthouseGateway cloudflareUrl fallbackImage
    isHighQualityImage constrainedHeight srcSetHeight index post
  = Some (Some photo)
  <-> (validImage post \/ validVideo post)
      /\ (0 <= Z.rem (id post + Z.of_nat index) 8)%Z
      /\ photo
         = galleryPhoto isDevelopment lighthouseGateway cloudflareUrl
             fallbackImage isHighQualityImage constrainedHeight
             srcSetHeight index post.
Proof.
  unfold formatPost.
  rewrite <- hasValidImage_spec, <- hasValidVideo_spec.
  pose proof (ratioSet_undefined (id post + Z.of_nat index)) as R.
  destruct (at_rem aspectRatioSets (id post + Z.of_nat index)).
  - assert (0 <= Z.rem (id post + Z.of_nat index) 8)%Z
      by (destruct (Z.ltb_spec (Z.rem (id post + Z.of_nat index) 8) 0);
          [apply R in H; discriminate H | assumption]).
    destruct (hasValidImage post), (hasValidVideo post); cbn;
      intuition congruence.
  - assert (Z.rem (id post + Z.of_nat index) 8 < 0)%Z by (apply R; reflexivity).
    destruct (hasValidImage post), (hasValidVideo post); cbn;
      intuition (try congruence; try lia).
Qed.

(** The callback throws for the posts with media whose ratio set is
    missing, and for no other. *)
Lemma formatPost_None (index : nat) (post : Post) :
  formatPost isDevelopment lighthouseGateway cloudflareUrl fallbackImage
    isHighQualityImage constrainedHeight srcSetHeight index post
  = None
  <-> (validImage post \/ validVideo post)
      /\ (Z.rem (id post + Z.of_nat index) 8 < 0)%Z.
Proof.
  unfold formatPost.
  rewrite <- hasValidImage_spec, <- hasValidVideo_spec.
  pose proof (ratioSet_undefined (id post + Z.of_nat index)) as R.
  destruct (at_rem aspectRatioSets (id post + Z.of_nat index)).
  - assert (~ (Z.rem (id post + Z.of_nat index) 8 < 0)%Z)
      by (intros H; apply R in H; discriminate H).
    destruct (hasValidImage post), (hasValidVideo post); cbn;
      intuition congruence.
  - assert (Z.rem (id post + Z.of_nat index) 8 < 0)%Z by (apply R; reflexivity).
    destruct (hasValidImage post), (hasValidVideo post); cbn;
      intuition congruence.
Qed.

Lemma Forall2_Some_fmap {A} (l : list (option A)) (k : list A) :
  Forall2 (fun x y => x = Some y) l k -> l = Some <$> k.
Proof. induction 1; cbn; congruence. Qed.

(** What the gallery returns, read off the results of the callback. *)
Lemma gallery_Some (pages : list Page) (photos : list ExtendedPhoto) :
  formattedPhotosForGallery isDevelopment lighthouseGateway cloudflareUrl
    fallbackImage isHighQualityImage constrainedHeight srcSetHeight pages
  = Some photos
  -> exists results,
      pages ≫= (fun page =>
                  imap (formatPost isDevelopment lighthouseGateway
                          cloudflareUrl fallbackImage isHighQualityImage
                          constrainedHeight srcSetHeight) (data page))
      = Some <$> results
      /\ photos = omap (fun x => x) results.
Proof.
  unfold formattedPhotosForGallery. intros E.
  apply fmap_Some in E as (results & E & ->).
  apply mapM_Some_1, Forall2_Some_fmap in E. eauto.
Qed.

(** C8: every record of the result of [formattedPhotosForGallery] is
    the record built from a post of the pages that has a valid image (a
    first image with a hash and a first file name) or valid video data
    (media type "VIDEO" and video data that is not null), and every such
    post of the pages has its record in the result; a post with neither
    yields [null], which the filter drops; and every post that yields a
    record has [ipfsImages] or [video_data] not null.  There is no
    result when the function throws, which it does exactly when the
    pages hold a post with media for which [(post.id + index) % 8] is
    negative. *)
Theorem gallery_photos_from_displayable_posts :
  forall pages : list Page,
    (forall photos,
        formattedPhotosForGallery isDevelopment lighthouseGateway
          cloudflareUrl fallbackImage isHighQualityImage
          constrainedHeight srcSetHeight pages
        = Some photos ->
        forall photo,
          photo ∈ photos
          <-> exists page index post,
              page ∈ pages
              /\ data page !! index = Some post
              /\ (validImage post \/ validVideo post)
              /\ photo
                 = galleryPhoto isDevelopment lighthouseGateway
                     cloudflareUrl fallbackImage isHighQualityImage
                     constrainedHeight srcSetHeight index post)
    /\ (formattedPhotosForGallery isDevelopment lighthouseGateway
          cloudflareUrl fallbackImage isHighQualityImage
          constrainedHeight srcSetHeight pages
        = None
        <-> exists page index post,
            page ∈ pages
            /\ data page !! index = Some post
            /\ (validImage post \/ validVideo post)
            /\ (Z.rem (id post + Z.of_nat index) 8 < 0)%Z)
    /\ (forall index post,
          ~ validImage post -> ~ validVideo post ->
          formatPost isDevelopment lighthouseGateway cloudflareUrl
            fallbackImage isHighQualityImage constrainedHeight
            srcSetHeight index post
          = Some None)
    /\ (forall post,
          validImage post \/ validVideo post ->
          ipfsImages post <> None \/ video_data post <> VNull).
Proof.
  intros pages. split; [|split; [|split]].
  - intros photos E photo.
    apply gallery_Some in E as (results & E & ->).
    rewrite list_elem_of_omap. split.
    + intros (o & Ho & ->).
      assert (Hin : Some (Some photo)
                    ∈ (Some <$> results : list (option (option _))))
        by (apply list_elem_of_fmap; eauto).
      rewrite <- E in Hin.
      apply list_elem_of_bind in Hin as (page & Hin & Hpage).
      apply elem_of_lookup_imap in Hin as (index & post & Hin & Hpost).
      symmetry in Hin. apply formatPost_Some in Hin as (Hv & _ & ->).
      exists page, index, post. auto.
    + intros (page & index & post & Hpage & Hpost & Hv & ->).
      assert (Hin : formatPost isDevelopment lighthouseGateway
                      cloudflareUrl fallbackImage isHighQualityImage
                      constrainedHeight srcSetHeight index post
                    ∈ (Some <$> results : list (option (option _)))).
      { rewrite <- E. apply list_elem_of_bind. exists page.
        split; [|exact Hpage].
        apply elem_of_lookup_imap. exists index, post. auto. }
      apply list_elem_of_fmap in Hin as (o & Ho & Hin).
      exists o. split; [exact Hin|].
      destruct (Z.ltb_spec (Z.rem (id post + Z.of_nat index) 8) 0) as [N|N].
      * assert (T : formatPost isDevelopment lighthouseGateway
                      cloudflareUrl fallbackImage isHighQualityImage
                      constrainedHeight srcSetHeight index post = None)
          by (apply formatPost_None; auto).
        congruence.
      * assert (T : formatPost isDevelopment lighthouseGateway
                      cloudflareUrl fallbackImage isHighQualityImage
                      constrainedHeight srcSetHeight index post
                    = Some (Some (galleryPhoto isDevelopment
                                    lighthouseGateway cloudflareUrl
                                    fallbackImage isHighQualityImage
                                    constrainedHeight srcSetHeight
                                    index post)))
          by (apply formatPost_Some; auto).
        congruence.
  - unfold formattedPhotosForGallery. rewrite fmap_None, mapM_None.
    rewrite Exists_exists. split.
    + intros (o & Hin & ->).
      apply list_elem_of_bind in Hin as (page & Hin & Hpage).
      apply elem_of_lookup_imap in Hin as (index & post & Hin & Hpost).
      symmetry in Hin. apply formatPost_None in Hin as [Hv N].
      exists page, index, post. auto.
    + intros (page & index & post & Hpage & Hpost & Hv & N).
      exists None. split; [|reflexivity].
      apply list_elem_of_bind. exists page. split; [|exact Hpage].
      apply elem_of_lookup_imap. exists index, post.
      split; [|exact Hpost].
      symmetry. apply formatPost_None. auto.
  - intros index post Hi Hv. unfold formatPost.
    rewrite <- hasValidImage_spec in Hi.
    rewrite <- hasValidVideo_spec in Hv.
    destruct (hasValidImage post), (hasValidVideo post);
      cbn; congruence.
  - intros post [(img & rest & h & f & fs & E & _)|[_ E]].
    + left. congruence.
    + right. exact E.
Qed.

End Gallery.

Lemma gallery_photos_from_displayable_posts_witness :
  let picture :=
    FormattedPhotos.mkPost 1 "user-1" "a red fox in snow" None None
      "2025-01-01" None None None None None None (Some "IMAGE")
      (Some [FormattedPhotos.mkUpload "fox" (Some "Qm123") "1024"
               (Some ["fox.png"])])
      FormattedPhotos.VNull in
  let pending :=
    FormattedPhotos.mkPost 3 "user-1" "a red fox in snow" None None
      "2025-01-01" None None None None None None (Some "VIDEO") None
      FormattedPhotos.VNull in
  let gallery :=
    FormattedPhotos.formattedPhotosForGallery
      false "https://gateway/ipfs/" "https://cdn" "/fallback.png"
      (fun _ => false) (fun _ _ => Some 450%Z) (fun b _ _ => Some b) in
  let record :=
    FormattedPhotos.galleryPhoto
      false "https://gateway/ipfs/" "https://cdn" "/fallback.png"
      (fun _ => false) (fun _ _ => Some 450%Z) (fun b _ _ => Some b) in
  gallery [FormattedPhotos.mkPage [pending; picture]]
  = Some [record 1 picture]
  /\ (~ FormattedPhotos.validImage pending
      /\ ~ FormattedPhotos.validVideo pending)
  /\ (forall photo,
        photo ∈ [record 1 picture]
        <-> exists page index post,
            page ∈ [FormattedPhotos.mkPage [pending; picture]]
            /\ FormattedPhotos.data page !! index = Some post
            /\ (FormattedPhotos.validImage post
                \/ FormattedPhotos.validVideo post)
            /\ photo = record index post)
  /\ FormattedPhotos.formatPost false "https://gateway/ipfs/" "https://cdn"
       "/fallback.png" (fun _ => false) (fun _ _ => Some 450%Z)
       (fun b _ _ => Some b) 0 pending
     = Some None.
Proof.
  intros picture pending gallery record.
  assert (G : gallery [FormattedPhotos.mkPage [pending; picture]]
              = Some [record 1 picture]) by (vm_compute; reflexivity).
  assert (Hi : ~ FormattedPhotos.validImage pending).
  { intros (img & rest & h & f & fs & E & _). discriminate E. }
  assert (Hv : ~ FormattedPhotos.validVideo pending).
  { intros [_ E]. apply E. reflexivity. }
  destruct (gallery_photos_from_displayable_posts
              false "https://gateway/ipfs/" "https://cdn" "/fallback.png"
              (fun _ => false) (fun _ _ => Some 450%Z)
              (fun b _ _ => Some b)
              [FormattedPhotos.mkPage [pending; picture]])
    as (Records & _ & Excluded & _).
  split; [exact G|].
  split; [split; assumption|].
  split; [exact (Records _ G)|].
  exact (Excluded 0 pending Hi Hv).
Defined.

(** A page with an image post, a video post still without data and a
    finished video post on a second page: the gallery holds the first
    and the last, in order. *)
Example gallery_of_three_posts :
  let picture :=
    FormattedPhotos.mkPost 1 "user-1" "a red fox in snow" None None
      "2025-01-01" None None None None None None (Some "IMAGE")
      (Some [FormattedPhotos.mkUpload "fox" (Some "Qm123") "1024"
               (Some ["fox.png"])])
      FormattedPhotos.VNull in
  let film :=
    FormattedPhotos.mkPost 2 "user-1" "a red fox running" None None
      "2025-01-02" None None None None None None (Some "VIDEO") None
      (FormattedPhotos.VArray
         [FormattedPhotos.mkVideoObject (Some "https://cdn/v.mp4")
            (Some "https://cdn/v.mp4") None None]) in
  let pending :=
    FormattedPhotos.mkPost 3 "user-1" "a red fox asleep" None None
      "2025-01-03" None None None None None None (Some "VIDEO") None
      FormattedPhotos.VNull in
  option_map
    (map (fun photo =>
            (FormattedPhotos.p_id photo, FormattedPhotos.p_src photo,
             FormattedPhotos.p_width photo)))
    (FormattedPhotos.formattedPhotosForGallery
       false "https://gateway/ipfs/" "https://cdn" "/fallback.png"
       (fun _ => false) (fun _ _ => Some 450%Z) (fun b _ _ => Some b)
       [FormattedPhotos.mkPage [picture; pending];
        FormattedPhotos.mkPage [film]])
  = Some [("1", "https://gateway/ipfs/Qm123/fox.png", Some 320%Z);
          ("2", "https://cdn/v.mp4", Some 340%Z)].
Proof. vm_compute. reflexivity. Qed.

(** A post with media and a negative id: the ratio set read at
    [-3 % 8] is [undefined], and the gallery throws. *)
Example gallery_throws_on_negative_index :
  let picture :=
    FormattedPhotos.mkPost (-3) "user-1" "a red fox in snow" None None
      "2025-01-01" None None None None None None (Some "IMAGE")
      (Some [FormattedPhotos.mkUpload "fox" (Some "Qm123") "1024"
               (Some ["fox.png"])])
      FormattedPhotos.VNull in
  FormattedPhotos.formattedPhotosForGallery
    false "https://gateway/ipfs/" "https://cdn" "/fallback.png"
    (fun _ => false) (fun _ _ => None) (fun b _ _ => None)
    [FormattedPhotos.mkPage [picture]]
  = None.
Proof. vm_compute. reflexivity. Qed.

(** ** More on job-status polling *)
Section PollerMore.
Import VideoStatusPoll VideoStatusView.

Variable p : Props.

(** What a failed poll does, by the [retryCount] of the closure: below
    10 it counts one more retry, from 10 on it stops with an error. *)
Lemma failure_answer rc r u w :
  failure r = true ->
  (rc < 10 -> pollSettled p rc r u w = withState (setRetryCount S) w)
  /\ (10 <= rc ->
      exists message,
        pollSettled p rc r u w
        = withState (setIsPolling false) (withState (setError message) w)).
Proof.
  destruct r as [m|code text body]; cbn [failure].
  - intros _. unfold pollSettled, onCatch. split; intros Hrc.
    + destruct (Nat.leb_spec 10 rc); [lia|reflexivity].
    + destruct (Nat.leb_spec 10 rc); [eauto|lia].
  - destruct (ok code) eqn:Hok; cbn [negb orb].
    + destruct body as [v|m]; [discriminate|]. intros _.
      unfold pollSettled, onCatch. rewrite Hok. cbn [negb].
      split; intros Hrc.
      * destruct (Nat.leb_spec 10 rc); [lia|reflexivity].
      * destruct (Nat.leb_spec 10 rc); [eauto|lia].
    + intros _. apply error_answer. cbn. rewrite Hok. reflexivity.
Qed.

(** A run of failed polls within the budget only counts. *)
Lemma failure_run_within rs : forall w,
  Js.truthy_str (jobId p) = true ->
  forallb failure rs = true ->
  isPolling (st w) = true ->
  inflight w = [] ->
  retryCount (st w) + length rs <= 10 ->
  let w' := poll p rs w in
  isPolling (st w') = true
  /\ error (st w') = error (st w)
  /\ status (st w') = status (st w)
  /\ retryCount (st w') = retryCount (st w) + length rs
  /\ inflight w' = []
  /\ readyCalls w' = readyCalls w
  /\ posts w' = posts w
  /\ length (fetched w') = length (fetched w) + length rs.
Proof.
  induction rs as [|r rs IH]; intros w Hj Hall Hp Hi Hb; cbn zeta.
  - cbn. repeat split; auto; lia.
  - cbn [forallb] in Hall. apply andb_prop in Hall as [Hr Hall].
    cbn [length] in Hb.
    rewrite poll_cons, sequential_round by assumption.
    destruct (failure_answer (retryCount (st w)) r UpdateOk
                (requested p w) Hr) as [Hlt _].
    rewrite Hlt by lia.
    destruct (IH (withState (setRetryCount S) (requested p w)))
      as (A & B & C & D & E & F & G & H); try assumption; cbn; try lia.
    repeat split; try assumption.
    + cbn in D. cbn [length]. lia.
    + cbn in H. rewrite length_app in H. cbn in H. cbn [length]. lia.
Qed.

(** What a 2xx answer with a status that is not final does: it stores
    the document and resets the retry count, nothing else. *)
Lemma nonTerminal_answer rc r u w :
  nonTerminal r = true ->
  exists v,
    document r = Some v
    /\ pollSettled p rc r u w
       = withState (setRetryCount (fun _ => 0)) (withState (setStatus v) w).
Proof.
  destruct r as [m|code text [v|m]]; cbn [nonTerminal]; try discriminate.
  intros H. apply andb_prop in H as [H Hs]. apply andb_prop in H as [Hok Hv].
  exists v. split; [reflexivity|].
  unfold pollSettled. rewrite Hok. cbn [negb].
  unfold hasVideoUrl in Hv.
  destruct (vs_status v); try discriminate; try reflexivity.
  destruct (video v) as [x|]; [|reflexivity].
  destruct (Js.truthy_str (url x)); [discriminate|reflexivity].
Qed.

(** A run of such answers leaves the poller polling. *)
Lemma nonTerminal_run rs : forall w,
  Js.truthy_str (jobId p) = true ->
  forallb nonTerminal rs = true ->
  isPolling (st w) = true ->
  inflight w = [] ->
  let w' := poll p rs w in
  isPolling (st w') = true
  /\ error (st w') = error (st w)
  /\ (rs <> [] -> retryCount (st w') = 0)
  /\ inflight w' = []
  /\ readyCalls w' = readyCalls w
  /\ posts w' = posts w
  /\ length (fetched w') = length (fetched w) + length rs.
Proof.
  induction rs as [|r rs IH]; intros w Hj Hall Hp Hi; cbn zeta.
  - cbn. repeat split; auto; try congruence; lia.
  - cbn [forallb] in Hall. apply andb_prop in Hall as [Hr Hall].
    rewrite poll_cons, sequential_round by assumption.
    destruct (nonTerminal_answer (retryCount (st w)) r UpdateOk
                (requested p w) Hr) as (v & _ & ->).
    set (w1 := withState _ (withState (setStatus v) (requested p w))).
    destruct (IH w1) as (A & B & C & D & E & F & G); try assumption;
      try reflexivity.
    repeat split; try assumption.
    + intros _. destruct rs as [|r' rs']; [reflexivity|].
      apply C. discriminate.
    + cbn in G. rewrite length_app in G. cbn in G. cbn [length]. lia.
Qed.

End PollerMore.

(** X1: whatever the kind of failure (a rejected [fetch], a non-2xx
    answer, a 2xx answer whose body cannot be parsed), a run of consecutive
    failed polls keeps the poller polling, without an error, while it is at
    most 10 long; the 11th failure stops it with an error, and no request
    follows: 11 requests were made however long the run. *)
Theorem failure_run_budget :
  forall p db rs,
    Js.truthy_str (VideoStatusPoll.jobId p) = true ->
    forallb VideoStatusView.failure rs = true ->
    let w := VideoStatusPoll.poll p rs (VideoStatusPoll.initialWorld db) in
    (length rs <= 10 ->
     VideoStatusPoll.isPolling (VideoStatusPoll.st w) = true
     /\ VideoStatusPoll.error (VideoStatusPoll.st w) = None
     /\ VideoStatusPoll.retryCount (VideoStatusPoll.st w) = length rs
     /\ length (VideoStatusPoll.fetched w) = length rs)
    /\ (10 < length rs ->
        VideoStatusPoll.isPolling (VideoStatusPoll.st w) = false
        /\ (exists message,
               VideoStatusPoll.error (VideoStatusPoll.st w) = Some message)
        /\ VideoStatusPoll.retryCount (VideoStatusPoll.st w) = 10
        /\ length (VideoStatusPoll.fetched w) = 11)
    /\ VideoStatusPoll.readyCalls w = []
    /\ VideoStatusPoll.posts w = db.
Proof.
  intros p db rs Hj Hall w.
  assert (Within : forall qs,
             forallb VideoStatusView.failure qs = true ->
             length qs <= 10 ->
             let w' := VideoStatusPoll.poll p qs
                         (VideoStatusPoll.initialWorld db) in
             VideoStatusPoll.isPolling (VideoStatusPoll.st w') = true
             /\ VideoStatusPoll.error (VideoStatusPoll.st w') = None
             /\ VideoStatusPoll.retryCount (VideoStatusPoll.st w')
                = length qs
             /\ VideoStatusPoll.inflight w' = []
             /\ VideoStatusPoll.readyCalls w' = []
             /\ VideoStatusPoll.posts w' = db
             /\ length (VideoStatusPoll.fetched w') = length qs).
  { intros qs Hq Hl.
    destruct (failure_run_within p qs (VideoStatusPoll.initialWorld db))
      as (A & B & C & D & E & F & G & H); auto.
    repeat split; assumption. }
  destruct (le_lt_dec (length rs) 10) as [Hlen|Hlen].
  - destruct (Within rs Hall Hlen) as (A & B & C & D & E & F & G).
    split; [intros _; auto|]. split; [intros Hgt; lia|]. auto.
  - assert (L1 : length (firstn 10 rs) = 10).
    { rewrite length_firstn. lia. }
    assert (L2 : skipn 10 rs <> []).
    { intros E. apply (f_equal (@length _)) in E.
      rewrite length_skipn in E. cbn in E. lia. }
    subst w. rewrite <- (firstn_skipn 10 rs) in Hall |- *.
    rewrite forallb_app in Hall. apply andb_prop in Hall as [H1 H2].
    rewrite poll_app.
    destruct (Within (firstn 10 rs) H1) as (A & B & C & D & E & F & G);
      [lia|].
    set (w10 := VideoStatusPoll.poll p (firstn 10 rs) _) in *.
    destruct (skipn 10 rs) as [|r rest] eqn:Es; [congruence|].
    cbn [forallb] in H2. apply andb_prop in H2 as [Hr _].
    rewrite poll_cons, sequential_round by assumption.
    destruct (failure_answer p (VideoStatusPoll.retryCount
                                  (VideoStatusPoll.st w10))
                r VideoStatusPoll.UpdateOk
                (VideoStatusPoll.requested p w10) Hr) as [_ Hge].
    destruct Hge as [message Hm]; [lia|]. rewrite Hm.
    rewrite poll_stopped; cbn; auto.
    rewrite length_app, !length_app, L1. cbn [length].
    split; [intros; lia|]. split; [|auto].
    intros _. rewrite L1 in G. repeat split; eauto; lia.
Qed.

Lemma failure_run_budget_witness :
  let p := VideoStatusPoll.mkProps 17 "job-42" in
  let rs :=
    [VideoStatusPoll.FetchRejected "Failed to fetch";
     VideoStatusPoll.Http 502 "Bad Gateway" (VideoStatusPoll.Unparsable "");
     VideoStatusPoll.Http 200 "OK"
       (VideoStatusPoll.Unparsable "Unexpected end of JSON input")] in
  let w := VideoStatusPoll.poll p rs (VideoStatusPoll.initialWorld ∅) in
  (Js.truthy_str (VideoStatusPoll.jobId p) = true
   /\ forallb VideoStatusView.failure rs = true
   /\ length rs <= 10)
  /\ VideoStatusPoll.isPolling (VideoStatusPoll.st w) = true
  /\ VideoStatusPoll.error (VideoStatusPoll.st w) = None
  /\ VideoStatusPoll.retryCount (VideoStatusPoll.st w) = 3
  /\ length (VideoStatusPoll.fetched w) = 3.
Proof.
  intros p rs w.
  assert (Hj : Js.truthy_str (VideoStatusPoll.jobId p) = true)
    by reflexivity.
  assert (Hf : forallb VideoStatusView.failure rs = true) by reflexivity.
  assert (Hl : length rs <= 10) by (cbn; lia).
  split; [auto|].
  destruct (failure_run_budget p ∅ rs Hj Hf) as (Within & _ & _).
  exact (Within Hl).
Defined.

(** X2: the budget counts consecutive failures only.  After up to 10
    failed polls, one 2xx answer with a status that is not final stores
    its document and gives the whole budget back: up to 10 more failed
    polls still leave the poller polling, with as many retries counted as
    failures came after that answer. *)
Theorem success_restores_budget :
  forall p db fs1 r fs2,
    Js.truthy_str (VideoStatusPoll.jobId p) = true ->
    forallb VideoStatusView.failure fs1 = true ->
    length fs1 <= 10 ->
    VideoStatusView.nonTerminal r = true ->
    forallb VideoStatusView.failure fs2 = true ->
    length fs2 <= 10 ->
    let w := VideoStatusPoll.poll p (fs1 ++ r :: fs2)
               (VideoStatusPoll.initialWorld db) in
    VideoStatusPoll.isPolling (VideoStatusPoll.st w) = true
    /\ VideoStatusPoll.error (VideoStatusPoll.st w) = None
    /\ VideoStatusPoll.status (VideoStatusPoll.st w)
       = VideoStatusView.document r
    /\ VideoStatusPoll.retryCount (VideoStatusPoll.st w) = length fs2
    /\ length (VideoStatusPoll.fetched w) = length fs1 + 1 + length fs2.
Proof.
  intros p db fs1 r fs2 Hj H1 L1 Hr H2 L2 w. subst w.
  rewrite poll_app.
  destruct (failure_run_within p fs1 (VideoStatusPoll.initialWorld db))
    as (A & B & C & D & E & F & G & H); auto.
  set (w1 := VideoStatusPoll.poll p fs1 _) in *.
  rewrite poll_cons, sequential_round by assumption.
  destruct (nonTerminal_answer p
              (VideoStatusPoll.retryCount (VideoStatusPoll.st w1)) r
              VideoStatusPoll.UpdateOk (VideoStatusPoll.requested p w1) Hr)
    as (v & Hdoc & ->).
  set (w2 := VideoStatusPoll.withState _ _).
  destruct (failure_run_within p fs2 w2)
    as (A2 & B2 & C2 & D2 & E2 & F2 & G2 & H2'); auto.
  rewrite A2, B2, C2, D2, H2', Hdoc. cbn.
  rewrite B, length_app, H. cbn. repeat split; lia.
Qed.

Lemma success_restores_budget_witness :
  let p := VideoStatusPoll.mkProps 17 "job-42" in
  let e404 :=
    VideoStatusPoll.Http 404 "Not Found" (VideoStatusPoll.Unparsable "") in
  let sq :=
    VideoStatusPoll.mkStatus "job-42" VideoStatusPoll.queued
      "09:00" "09:00" None None in
  let r := VideoStatusPoll.Http 200 "OK" (VideoStatusPoll.Parsed sq) in
  let w := VideoStatusPoll.poll p (repeat e404 10 ++ r :: repeat e404 10)
             (VideoStatusPoll.initialWorld ∅) in
  (forallb VideoStatusView.failure (repeat e404 10) = true
   /\ VideoStatusView.nonTerminal r = true)
  /\ VideoStatusPoll.isPolling (VideoStatusPoll.st w) = true
  /\ VideoStatusPoll.error (VideoStatusPoll.st w) = None
  /\ VideoStatusPoll.retryCount (VideoStatusPoll.st w) = 10
  /\ length (VideoStatusPoll.fetched w) = 21.
Proof.
  intros p e404 sq r w.
  assert (Hf : forallb VideoStatusView.failure (repeat e404 10) = true)
    by reflexivity.
  assert (Hr : VideoStatusView.nonTerminal r = true) by reflexivity.
  assert (Hl : length (repeat e404 10) <= 10) by (cbn; lia).
  split; [auto|].
  destruct (success_restores_budget p ∅ (repeat e404 10) r (repeat e404 10)
              eq_refl Hf Hl Hr Hf Hl) as (A & B & _ & D & E).
  repeat split; assumption.
Defined.

(** X3: a 2xx answer that is queued, processing, or completed without a
    video URL is never final, and nothing bounds how many of them the
    poller takes: after any run of such answers it is still polling, has
    made one request per answer, has not called [onVideoReady] and has
    not touched the table. *)
Theorem non_final_answers_never_stop :
  forall p db rs,
    Js.truthy_str (VideoStatusPoll.jobId p) = true ->
    forallb VideoStatusView.nonTerminal rs = true ->
    let w := VideoStatusPoll.poll p rs (VideoStatusPoll.initialWorld db) in
    VideoStatusPoll.isPolling (VideoStatusPoll.st w) = true
    /\ VideoStatusPoll.error (VideoStatusPoll.st w) = None
    /\ VideoStatusPoll.retryCount (VideoStatusPoll.st w) = 0
    /\ VideoStatusPoll.readyCalls w = []
    /\ VideoStatusPoll.posts w = db
    /\ length (VideoStatusPoll.fetched w) = length rs.
Proof.
  intros p db rs Hj Hall w.
  destruct (nonTerminal_run p rs (VideoStatusPoll.initialWorld db))
    as (A & B & C & D & E & F & G); auto.
  repeat split; auto.
  destruct rs as [|r rs']; [reflexivity|]. apply C. discriminate.
Qed.

Lemma non_final_answers_never_stop_witness :
  let p := VideoStatusPoll.mkProps 17 "job-42" in
  let done_without_url :=
    VideoStatusPoll.mkStatus "job-42" VideoStatusPoll.completed
      "09:00" "09:05" (Some (VideoStatusPoll.mkVideo "s3://v" "")) None in
  let rs :=
    repeat (VideoStatusPoll.Http 200 "OK"
              (VideoStatusPoll.Parsed done_without_url)) 50 in
  let w := VideoStatusPoll.poll p rs (VideoStatusPoll.initialWorld ∅) in
  forallb VideoStatusView.nonTerminal rs = true
  /\ VideoStatusPoll.isPolling (VideoStatusPoll.st w) = true
  /\ VideoStatusPoll.readyCalls w = []
  /\ length (VideoStatusPoll.fetched w) = 50.
Proof.
  intros p done_without_url rs w.
  assert (Hn : forallb VideoStatusView.nonTerminal rs = true)
    by reflexivity.
  split; [exact Hn|].
  destruct (non_final_answers_never_stop p ∅ rs eq_refl Hn)
    as (A & _ & _ & D & _ & F).
  repeat split; assumption.
Defined.

(** X4: when the video is ready the callback does not depend on the
    table.  If the update of the post fails (an error result or a rejected
    request), or no row has the post's id, the handler leaves the table as
    it was and still calls [onVideoReady] with the URL and stops
    polling. *)
Theorem failed_update_still_reports :
  forall p rc code text v x u w,
    VideoStatusPoll.ok code = true ->
    VideoStatusPoll.vs_status v = VideoStatusPoll.completed ->
    VideoStatusPoll.video v = Some x ->
    VideoStatusPoll.url x <> "" ->
    u <> VideoStatusPoll.UpdateOk
    \/ VideoStatusPoll.posts w !! VideoStatusPoll.postId p = None ->
    let w' :=
      VideoStatusPoll.pollSettled p rc
        (VideoStatusPoll.Http code text (VideoStatusPoll.Parsed v)) u w in
    VideoStatusPoll.posts w' = VideoStatusPoll.posts w
    /\ VideoStatusPoll.readyCalls w'
       = (VideoStatusPoll.readyCalls w ++ [VideoStatusPoll.url x])%list
    /\ VideoStatusPoll.isPolling (VideoStatusPoll.st w') = false
    /\ VideoStatusPoll.error (VideoStatusPoll.st w')
       = VideoStatusPoll.error (VideoStatusPoll.st w).
Proof.
  intros p rc code text v x u w Hok Hs Hv Hu Hcase.
  assert (Ht : Js.truthy_str (VideoStatusPoll.url x) = true).
  { destruct (VideoStatusPoll.url x); [congruence|reflexivity]. }
  cbn zeta. unfold VideoStatusPoll.pollSettled.
  rewrite Hok, Hs, Hv, Ht. cbn [negb].
  destruct u; cbn; repeat split.
  destruct Hcase as [Hne|Hnone]; [congruence|].
  apply map_eq. intros k.
  destruct (decide (k = VideoStatusPoll.postId p)) as [->|Hk].
  - rewrite lookup_alter_eq, Hnone. reflexivity.
  - apply lookup_alter_ne. congruence.
Qed.

Lemma failed_update_still_reports_witness :
  let p := VideoStatusPoll.mkProps 17 "job-42" in
  let x := VideoStatusPoll.mkVideo "s3://videos/v.mp4" "https://cdn/v.mp4" in
  let v :=
    VideoStatusPoll.mkStatus "job-42" VideoStatusPoll.completed
      "09:00" "09:02" (Some x) None in
  let db : gmap Z (list VideoStatusPoll.VideoDatum) := {[ 17%Z := [] ]} in
  let w' :=
    VideoStatusPoll.pollSettled p 0
      (VideoStatusPoll.Http 200 "OK" (VideoStatusPoll.Parsed v))
      VideoStatusPoll.UpdateError (VideoStatusPoll.initialWorld db) in
  (VideoStatusPoll.url x <> ""
   /\ VideoStatusPoll.UpdateError <> VideoStatusPoll.UpdateOk)
  /\ VideoStatusPoll.posts w' = db
  /\ VideoStatusPoll.readyCalls w' = ["https://cdn/v.mp4"]
  /\ VideoStatusPoll.isPolling (VideoStatusPoll.st w') = false.
Proof.
  intros p x v db w'.
  assert (Hu : VideoStatusPoll.url x <> "") by discriminate.
  assert (Hne : VideoStatusPoll.UpdateError <> VideoStatusPoll.UpdateOk)
    by discriminate.
  split; [auto|].
  destruct (failed_update_still_reports p 0 200%Z "OK" v x
              VideoStatusPoll.UpdateError (VideoStatusPoll.initialWorld db)
              eq_refl eq_refl eq_refl Hu (or_introl Hne))
    as (A & B & C & _).
  repeat split; assumption.
Defined.

(** One event keeps what holds of the poller. *)
Lemma step_wellPolled p db w e :
  VideoStatusView.wellPolled p db w ->
  VideoStatusView.wellPolled p db (VideoStatusPoll.step p w e).
Proof.
  intros (I1 & I2 & I3 & I4 & I5 & I6 & I7).
  destruct e as [|i r u]; cbn [VideoStatusPoll.step].
  - unfold VideoStatusPoll.fire.
    destruct (Js.truthy_str (VideoStatusPoll.jobId p)
              && VideoStatusPoll.isPolling (VideoStatusPoll.st w));
      [|repeat split; assumption].
    repeat split; cbn; try assumption.
    + rewrite !length_app. cbn. lia.
    + apply Forall_app. split; [assumption|]. repeat constructor.
  - unfold VideoStatusPoll.settle.
    destruct (VideoStatusPoll.inflight w !! i) as [rc|] eqn:Ei;
      [|repeat split; assumption].
    assert (Hd : length (delete i (VideoStatusPoll.inflight w))
                 + 1 = length (VideoStatusPoll.inflight w)).
    { rewrite length_delete by eauto.
      apply lookup_lt_Some in Ei. lia. }
    set (w1 := VideoStatusPoll.mkWorld _ _ _ _ _).
    assert (Count : VideoStatusView.wellPolled p db
                      (VideoStatusPoll.withState
                         (VideoStatusPoll.setRetryCount S) w1)).
    { repeat split; cbn; try assumption. lia. }
    assert (Stop : forall m,
               VideoStatusView.wellPolled p db
                 (VideoStatusPoll.withState
                    (VideoStatusPoll.setIsPolling false)
                    (VideoStatusPoll.withState
                       (VideoStatusPoll.setError m) w1))).
    { intros m. repeat split; cbn; try assumption. lia. }
    assert (Catch : forall m,
               VideoStatusView.wellPolled p db
                 (VideoStatusPoll.onCatch rc m w1)).
    { intros m. unfold VideoStatusPoll.onCatch.
      destruct (10 <=? rc)%nat; auto. }
    unfold VideoStatusPoll.pollSettled.
    destruct r as [m|code text [v|m]]; [apply Catch| |].
    + destruct (VideoStatusPoll.ok code) eqn:Hok; cbn [negb].
      * destruct (VideoStatusPoll.vs_status v) eqn:Hs.
        -- repeat split; cbn; try assumption. lia.
        -- repeat split; cbn; try assumption. lia.
        -- destruct (VideoStatusPoll.video v) as [x|] eqn:Hv;
             [|repeat split; cbn; try assumption; lia].
           destruct (Js.truthy_str (VideoStatusPoll.url x)) eqn:Ht;
             [|repeat split; cbn; try assumption; lia].
           assert (Hu : VideoStatusPoll.url x <> "").
           { intros E. rewrite E in Ht. discriminate Ht. }
           destruct u; repeat split; cbn; try assumption;
             try (rewrite length_app; cbn; lia);
             try (apply Forall_app; split; [assumption|];
                  repeat constructor; assumption).
           ++ intros other Hne. rewrite lookup_alter_ne by congruence.
              apply I6. exact Hne.
           ++ intros Hnone. rewrite lookup_alter_eq, (I7 Hnone).
              reflexivity.
        -- repeat split; cbn; try assumption. lia.
      * destruct ((code =? 404)%Z && (rc <? 10)%nat); [exact Count|].
        destruct (rc <? 5)%nat; [exact Count|apply Catch].
    + destruct (VideoStatusPoll.ok code); cbn [negb]; [apply Catch|].
      destruct ((code =? 404)%Z && (rc <? 10)%nat); [exact Count|].
      destruct (rc <? 5)%nat; [exact Count|apply Catch].
Qed.

(** X5: whatever happens to the component, in whatever order requests
    are made and settle, these hold: an error is only ever shown once
    polling has stopped, and so is a call of [onVideoReady]; the callback
    only gets non-empty URLs; requests in flight and callbacks together
    never outnumber the requests made; every request goes to the status
    URL of the job; rows of other posts are never touched, and no row is
    created for the post. *)
Theorem poller_invariant :
  forall p db es,
    VideoStatusView.wellPolled p db
      (VideoStatusPoll.run p es (VideoStatusPoll.initialWorld db)).
Proof.
  intros p db es.
  assert (Init : VideoStatusView.wellPolled p db
                   (VideoStatusPoll.initialWorld db)).
  { repeat split; cbn; auto; congruence. }
  revert Init. generalize (VideoStatusPoll.initialWorld db).
  induction es as [|e es IH]; intros w Hw; [exact Hw|].
  change (VideoStatusPoll.run p (e :: es) w)
    with (VideoStatusPoll.run p es (VideoStatusPoll.step p w e)).
  apply IH, step_wellPolled, Hw.
Qed.

(** X6: without a job id the component never polls: whatever events
    come, no request is made and the state stays the initial one (the
    waiting view without details). *)
Theorem no_job_id_no_polling :
  forall p db es,
    VideoStatusPoll.jobId p = "" ->
    VideoStatusPoll.run p es (VideoStatusPoll.initialWorld db)
    = VideoStatusPoll.initialWorld db
    /\ VideoStatusView.render
         (VideoStatusPoll.st
            (VideoStatusPoll.run p es (VideoStatusPoll.initialWorld db)))
       = VideoStatusView.WaitingView "Video In Queue..." None.
Proof.
  intros p db es Hj.
  assert (Idle : forall w,
             VideoStatusPoll.inflight w = [] ->
             VideoStatusPoll.run p es w = w).
  { induction es as [|e es IH]; intros w Hi; [reflexivity|].
    change (VideoStatusPoll.run p (e :: es) w)
      with (VideoStatusPoll.run p es (VideoStatusPoll.step p w e)).
    assert (S : VideoStatusPoll.step p w e = w).
    { destruct e as [|i r u]; cbn [VideoStatusPoll.step].
      - unfold VideoStatusPoll.fire. rewrite Hj. reflexivity.
      - unfold VideoStatusPoll.settle. rewrite Hi. reflexivity. }
    rewrite S. apply IH. exact Hi. }
  rewrite Idle by reflexivity. split; reflexivity.
Qed.

Lemma no_job_id_no_polling_witness :
  let p := VideoStatusPoll.mkProps 17 "" in
  let es :=
    [VideoStatusPoll.Fire;
     VideoStatusPoll.Settle 0
       (VideoStatusPoll.Http 200 "OK" (VideoStatusPoll.Unparsable ""))
       VideoStatusPoll.UpdateOk;
     VideoStatusPoll.Fire] in
  VideoStatusPoll.jobId p = ""
  /\ VideoStatusPoll.run p es (VideoStatusPoll.initialWorld ∅)
     = VideoStatusPoll.initialWorld ∅.
Proof.
  intros p es. split; [reflexivity|].
  exact (proj1 (no_job_id_no_polling p ∅ es eq_refl)).
Defined.

(** X7: what the component shows after a final answer.  After "failed"
    it shows the error view with the error of the document, or "Video
    generation failed" when the document has none: never an empty
    message.  After "completed" with a URL, when no error was set before,
    it shows neither the error view nor the waiting view but the block
    kept as a fallback at the end of the component. *)
Theorem view_after_final_answer :
  forall p rc code text v u w,
    VideoStatusPoll.ok code = true ->
    let w' :=
      VideoStatusPoll.pollSettled p rc
        (VideoStatusPoll.Http code text (VideoStatusPoll.Parsed v)) u w in
    (VideoStatusPoll.vs_status v = VideoStatusPoll.failed ->
     exists message,
       VideoStatusView.render (VideoStatusPoll.st w')
       = VideoStatusView.ErrorView message
       /\ message <> ""
       /\ message = Js.or_str (VideoStatusPoll.vs_error v)
                      "Video generation failed")
    /\ (VideoStatusView.hasVideoUrl v = true ->
        Js.truthy_ostr (VideoStatusPoll.error (VideoStatusPoll.st w))
        = false ->
        VideoStatusView.render (VideoStatusPoll.st w')
        = VideoStatusView.FallbackView).
Proof.
  intros p rc code text v u w Hok. cbn zeta.
  unfold VideoStatusPoll.pollSettled. rewrite Hok. cbn [negb]. split.
  - intros Hs. rewrite Hs. cbn.
    exists (Js.or_str (VideoStatusPoll.vs_error v) "Video generation failed").
    assert (Hne : Js.truthy_str
                    (Js.or_str (VideoStatusPoll.vs_error v)
                       "Video generation failed") = true).
    { unfold Js.or_str.
      destruct (VideoStatusPoll.vs_error v) as [e|]; [|reflexivity].
      destruct (Js.truthy_str e) eqn:E; [exact E|reflexivity]. }
    unfold VideoStatusView.render. cbn. rewrite Hne.
    repeat split. intros E. rewrite E in Hne. discriminate Hne.
  - unfold VideoStatusView.hasVideoUrl. intros Hv He.
    destruct (VideoStatusPoll.vs_status v) eqn:Hs; try discriminate.
    destruct (VideoStatusPoll.video v) as [x|]; [|discriminate].
    rewrite Hv. unfold VideoStatusView.render.
    destruct u; cbn; rewrite He, Hs; reflexivity.
Qed.

Lemma view_after_final_answer_witness :
  let p := VideoStatusPoll.mkProps 17 "job-42" in
  let x := VideoStatusPoll.mkVideo "s3://videos/v.mp4" "https://cdn/v.mp4" in
  let v :=
    VideoStatusPoll.mkStatus "job-42" VideoStatusPoll.completed
      "09:00" "09:02" (Some x) None in
  let w := VideoStatusPoll.requested p (VideoStatusPoll.initialWorld ∅) in
  (VideoStatusPoll.ok 200 = true
   /\ VideoStatusView.hasVideoUrl v = true
   /\ Js.truthy_ostr (VideoStatusPoll.error (VideoStatusPoll.st w)) = false)
  /\ VideoStatusView.render
       (VideoStatusPoll.st
          (VideoStatusPoll.pollSettled p 0
             (VideoStatusPoll.Http 200 "OK" (VideoStatusPoll.Parsed v))
             VideoStatusPoll.UpdateOk w))
     = VideoStatusView.FallbackView.
Proof.
  intros p x v w. split; [repeat split|].
  destruct (view_after_final_answer p 0 200%Z "OK" v
              VideoStatusPoll.UpdateOk w eq_refl) as [_ Done].
  exact (Done eq_refl eq_refl).
Defined.

(** ** Media URLs, the grid and the photo page *)
Section Media.
Import FormattedPhotos PhotoGrid PhotoPage.

Variable isDevelopment : bool.
Variables lighthouseGateway cloudflareUrl fallbackImage : string.
Variable isHighQualityImage : string -> bool.
Variable constrainedHeight : Z -> nat -> option Z.
Variable srcSetHeight : Z -> option Z -> option Z -> option Z.

Abbreviation getImage' :=
  (getImage isDevelopment lighthouseGateway cloudflareUrl fallbackImage
     isHighQualityImage).
Abbreviation getMediaUrl' :=
  (getMediaUrl isDevelopment lighthouseGateway cloudflareUrl fallbackImage
     isHighQualityImage).
Abbreviation formatPost' :=
  (formatPost isDevelopment lighthouseGateway cloudflareUrl fallbackImage
     isHighQualityImage constrainedHeight srcSetHeight).
Abbreviation gallery' :=
  (formattedPhotosForGallery isDevelopment lighthouseGateway cloudflareUrl
     fallbackImage isHighQualityImage constrainedHeight srcSetHeight).
Abbreviation grid' :=
  (formattedPhotosForGrid isDevelopment lighthouseGateway cloudflareUrl
     fallbackImage isHighQualityImage).
Abbreviation formatGridPost' :=
  (formatGridPost isDevelopment lighthouseGateway cloudflareUrl
     fallbackImage isHighQualityImage).

Lemma validVideo_check (post : Post) :
  hasValidVideo post = true <-> validVideo post.
Proof. exact (hasValidVideo_spec "" (fun _ => true) post). Qed.

Lemma append_nonempty (a b : string) : b <> "" -> (a ++ b)%string <> "".
Proof.
  intros Hb. induction a as [|c a IH]; cbn; [exact Hb|discriminate].
Qed.

(** For a hash that is not empty the image URL is not empty. *)
Lemma getImage_nonempty (c fileName author : string) :
  c <> "" -> getImage' (Some c) fileName author <> "".
Proof.
  intros Hc. unfold getImage.
  rewrite (proj2 (truthy_str_ne c) Hc).
  assert (G : forall opts,
             (lighthouseGateway ++ c ++ "/" ++ fileName ++ opts)%string
             <> "").
  { intros opts. apply append_nonempty, append_nonempty. discriminate. }
  assert (C : (cloudflareUrl ++ "/" ++ author ++ "/" ++ fileName)%string
              <> "").
  { apply append_nonempty. discriminate. }
  destruct isDevelopment, (negb (String.prefix "http" c)); auto.
Qed.

(** The video data written by the poller reads back as its URL. *)
Lemma stored_video_url (vd : VideoObject) (videoUrl : string)
    (author : string) :
  videoUrl <> "" ->
  v_hash vd = Some videoUrl ->
  v_url vd = Some videoUrl ->
  v_fileNames vd = None ->
  match
    (if Js.truthy_str videoUrl
        && (String.prefix "http://" videoUrl
            || String.prefix "https://" videoUrl)
     then Some videoUrl
     else None)
  with
  | Some u => u
  | None => anyUrl vd
  end = videoUrl.
Proof.
  intros Hu Hh Hl Hf.
  destruct (Js.truthy_str videoUrl && _); [reflexivity|].
  unfold anyUrl. rewrite Hl. cbn.
  rewrite (proj2 (truthy_str_ne videoUrl) Hu). reflexivity.
Qed.

(** X8: the page mounts the poller for a video post with a job id and
    no video data yet, whatever media index is selected; once the post
    carries what the poller's update writes for a non-empty URL (hash and
    url both that URL), the page reads that URL back as the media URL of
    index 0 and does not mount the poller any more. *)
Theorem stored_video_ends_polling :
  forall (jobId : option string) (post : Post) (videoUrl s3Url : string),
    media_type post = Some "VIDEO" ->
    Js.truthy_ostr jobId = true ->
    id post <> 0%Z ->
    videoUrl <> "" ->
    (video_data post = VNull ->
     forall index,
       mountsPoller isDevelopment lighthouseGateway cloudflareUrl
         fallbackImage isHighQualityImage jobId post index = true)
    /\ (video_data post
        = storedVideoData
            (VideoStatusPoll.mkDatum videoUrl videoUrl s3Url) ->
        videoMediaUrl isDevelopment lighthouseGateway cloudflareUrl
          fallbackImage isHighQualityImage post 0 = videoUrl
        /\ mountsPoller isDevelopment lighthouseGateway cloudflareUrl
             fallbackImage isHighQualityImage jobId post 0 = false).
Proof.
  intros jobId post videoUrl s3Url Hm Hj Hid Hu. split.
  - intros Hv index. unfold mountsPoller, needsVideoPolling.
    rewrite Hv, Hj, (bool_decide_eq_true_2 _ Hm). cbn.
    destruct (Z.eqb_spec (id post) 0); [contradiction|reflexivity].
  - intros Hv.
    assert (E : videoMediaUrl isDevelopment lighthouseGateway cloudflareUrl
                  fallbackImage isHighQualityImage post 0 = videoUrl).
    { unfold videoMediaUrl. rewrite Hv. cbn.
      apply (stored_video_url _ videoUrl (author post) Hu);
        reflexivity. }
    split; [exact E|].
    unfold mountsPoller, needsVideoPolling. rewrite E, Hv. cbn.
    rewrite (proj2 (truthy_str_ne videoUrl) Hu). cbn.
    rewrite !andb_false_r. reflexivity.
Qed.

(** X9: the gallery shows a finished video under its URL.  A video post
    carrying what the poller's update writes for a non-empty URL has that
    URL as its media URL and passes the check of the gallery, whatever
    the images of the post and the configuration: where the callback
    returns, it returns a record with that URL as [src]; it returns
    unless [(post.id + index) % 8] is negative, and then it throws. *)
Theorem stored_video_gallery_src :
  forall (post : Post) (index : nat) (videoUrl s3Url : string),
    media_type post = Some "VIDEO" ->
    videoUrl <> "" ->
    video_data post
    = storedVideoData (VideoStatusPoll.mkDatum videoUrl videoUrl s3Url) ->
    getMediaUrl' post = videoUrl
    /\ ((0 <= Z.rem (id post + Z.of_nat index) 8)%Z ->
        exists photo,
          formatPost' index post = Some (Some photo)
          /\ p_src photo = videoUrl
          /\ p_media_type photo = Some "VIDEO")
    /\ ((Z.rem (id post + Z.of_nat index) 8 < 0)%Z ->
        formatPost' index post = None).
Proof.
  intros post index videoUrl s3Url Hm Hu Hv.
  assert (E : getMediaUrl' post = videoUrl).
  { unfold getMediaUrl. rewrite Hv, (bool_decide_eq_true_2 _ Hm). cbn.
    apply (stored_video_url _ videoUrl (author post) Hu); reflexivity. }
  assert (V : validImage post \/ validVideo post).
  { right. split; [exact Hm|]. rewrite Hv. discriminate. }
  split; [exact E|]. split.
  - intros Hr.
    exists (galleryPhoto isDevelopment lighthouseGateway cloudflareUrl
              fallbackImage isHighQualityImage constrainedHeight
              srcSetHeight index post).
    split; [|split; [exact E|exact Hm]].
    apply formatPost_Some. auto.
  - intros Hr. apply formatPost_None. auto.
Qed.

(** X10: the image URL does not depend on the environment flag; without
    a hash, or with an empty one, it is the fallback image; with a hash
    it is never empty; and for a hash that is itself an http(s) URL the
    hash is not part of the result, which is built from the author and
    the file name only. *)
Theorem image_url_cases :
  forall (cid : option string) (fileName author : string),
    getImage true lighthouseGateway cloudflareUrl fallbackImage
      isHighQualityImage cid fileName author
    = getImage false lighthouseGateway cloudflareUrl fallbackImage
        isHighQualityImage cid fileName author
    /\ (Js.truthy_ostr cid = false ->
        getImage' cid fileName author = fallbackImage)
    /\ (Js.truthy_ostr cid = true ->
        getImage' cid fileName author <> "")
    /\ (forall c,
          cid = Some c -> String.prefix "http" c = true ->
          getImage' cid fileName author
          = (cloudflareUrl ++ "/" ++ author ++ "/" ++ fileName)%string).
Proof.
  intros cid fileName author. split; [|split; [|split]].
  - unfold getImage. destruct cid as [c|]; [|reflexivity].
    destruct (Js.truthy_str c); reflexivity.
  - unfold getImage. destruct cid as [c|]; [|reflexivity].
    cbn. intros ->. reflexivity.
  - destruct cid as [c|]; [|discriminate]. cbn. intros Ht.
    apply getImage_nonempty. apply truthy_str_ne. exact Ht.
  - intros c -> Hp. unfold getImage.
    destruct c as [|a c]; [discriminate|]. cbn [Js.truthy_str].
    rewrite Hp. cbn. destruct isDevelopment; reflexivity.
Qed.

(** X11: a video post with video data never falls back to its images:
    its media URL is the same whatever images it carries.  And a media
    URL that is not empty always comes from a post that passes the check
    of the gallery, while a post with a valid image and no valid video
    data always has a non-empty one. *)
Theorem media_url_source :
  forall (post : Post),
    (validVideo post ->
     forall imgs, getMediaUrl' (withImages imgs post) = getMediaUrl' post)
    /\ (getMediaUrl' post <> "" -> validImage post \/ validVideo post)
    /\ (validImage post -> ~ validVideo post -> getMediaUrl' post <> "").
Proof.
  intros post. split; [|split].
  - intros Hv imgs. rewrite <- validVideo_check in Hv.
    unfold hasValidVideo in Hv. unfold getMediaUrl.
    cbn [withImages media_type video_data author]. rewrite Hv.
    reflexivity.
  - intros Hne.
    destruct (hasValidVideo post) eqn:Hv;
      [right; apply validVideo_check; exact Hv|].
    left. apply hasValidImage_spec.
    unfold getMediaUrl in Hne. unfold hasValidVideo in Hv.
    rewrite Hv in Hne. unfold hasValidImage.
    destruct (first (ipfsImages post)) as [image|]; [|congruence].
    cbn [mbind option_bind].
    destruct (Js.truthy_ostr (hash image)); [|cbn in Hne; congruence].
    destruct (Js.truthy_ostr (first (fileNames image)));
      [reflexivity|cbn in Hne; congruence].
  - intros Hi Hv. rewrite <- validVideo_check in Hv.
    apply not_true_is_false in Hv. unfold hasValidVideo in Hv.
    unfold getMediaUrl. rewrite Hv.
    destruct Hi as (img & rest & h & f & fs & Ei & Eh & Hh & Ef & Hf).
    unfold first. rewrite Ei. cbn -[getImage]. rewrite Eh, Ef.
    cbn -[getImage].
    rewrite (proj2 (truthy_str_ne h) Hh), (proj2 (truthy_str_ne f) Hf).
    cbn -[getImage]. apply getImage_nonempty. exact Hh.
Qed.

(** The ids of the records of a page, for any map callback that keeps
    the posts passing [keep] and gives them the post's id. *)
Lemma page_ids (keep : Post -> bool) (posts : list Post) :
  forall f : nat -> Post -> option ExtendedPhoto,
    (forall i post,
        match f i post with
        | Some photo => keep post = true /\ p_id photo = postKey post
        | None => keep post = false
        end) ->
    map p_id (omap (fun x => x) (imap f posts))
    = map postKey (List.filter keep posts).
Proof.
  induction posts as [|post posts IH]; intros f Hf; [reflexivity|].
  cbn [imap omap List.filter].
  pose proof (Hf 0 post) as H0.
  destruct (f 0 post) as [photo|].
  - destruct H0 as [Hk Hid]. rewrite Hk. cbn. rewrite Hid. f_equal.
    apply IH. intros i q. apply Hf.
  - rewrite H0. apply IH. intros i q. apply Hf.
Qed.

Lemma records_ids (keep : Post -> bool) (pages : list Page)
    (f : Page -> list (option ExtendedPhoto)) :
  (forall page,
      map p_id (omap (fun x => x) (f page))
      = map postKey (List.filter keep (data page))) ->
  map p_id (omap (fun x => x) (pages ≫= f))
  = map postKey (List.filter keep (allPosts pages)).
Proof.
  intros Hf. unfold allPosts.
  induction pages as [|page pages IH]; [reflexivity|].
  cbn [mbind list_bind]. rewrite omap_app, map_app, List.filter_app.
  rewrite map_app, Hf, IH. reflexivity.
Qed.

(** The same for a callback that may throw, on a page where it did
    not. *)
Lemma page_ids_returned (keep : Post -> bool) (posts : list Post) :
  forall (f : nat -> Post -> option (option ExtendedPhoto))
         (results : list (option ExtendedPhoto)),
    (forall i post,
        match f i post with
        | Some (Some photo) => keep post = true /\ p_id photo = postKey post
        | Some None => keep post = false
        | None => True
        end) ->
    imap f posts = Some <$> results ->
    map p_id (omap (fun x => x) results)
    = map postKey (List.filter keep posts).
Proof.
  induction posts as [|post posts IH]; intros f results Hf E.
  - destruct results; [reflexivity|discriminate E].
  - destruct results as [|r results]; [discriminate E|].
    cbn [imap fmap list_fmap] in E. injection E as E0 E.
    pose proof (Hf 0 post) as H0. rewrite E0 in H0.
    destruct r as [photo|]; cbn [omap list_omap List.filter].
    + destruct H0 as [Hk Hid]. rewrite Hk. cbn [map]. rewrite Hid. f_equal.
      apply (IH (f ∘ S)); [|exact E]. intros i q. apply Hf.
    + rewrite H0. apply (IH (f ∘ S)); [|exact E]. intros i q. apply Hf.
Qed.

Lemma records_ids_returned (keep : Post -> bool) (pages : list Page)
    (f : Page -> list (option (option ExtendedPhoto))) :
  (forall page results,
      f page = Some <$> results ->
      map p_id (omap (fun x => x) results)
      = map postKey (List.filter keep (data page))) ->
  forall results,
    pages ≫= f = Some <$> results ->
    map p_id (omap (fun x => x) results)
    = map postKey (List.filter keep (allPosts pages)).
Proof.
  intros Hf. unfold allPosts.
  induction pages as [|page pages IH]; intros results E.
  - destruct results; [reflexivity|discriminate E].
  - cbn [mbind list_bind] in E |- *. symmetry in E.
    apply fmap_app_inv in E as (r1 & r2 & E1 & E2 & ->).
    rewrite omap_app, map_app, List.filter_app, map_app.
    rewrite (Hf page r1), (IH r2); auto.
Qed.

(** X12: both record lists keep the posts in their order and take each
    post at most once: the ids of the grid are the ids of the posts with
    a valid image, in order, and the ids of a gallery that is returned
    are the ids of the posts that pass the gallery's check, in order. So
    the grid never shows a post such a gallery lacks.  The gallery is
    returned when no post has a negative id. *)
Theorem records_keep_order :
  forall pages : list Page,
    map p_id (grid' pages)
    = map postKey (List.filter hasValidImage (allPosts pages))
    /\ length (grid' pages) <= length (allPosts pages)
    /\ (forall photos,
          gallery' pages = Some photos ->
          map p_id photos
          = map postKey (List.filter displayable (allPosts pages))
          /\ map p_id (grid' pages) `sublist_of` map p_id photos
          /\ length (grid' pages) <= length photos
             <= length (allPosts pages))
    /\ ((forall post, post ∈ allPosts pages -> (0 <= id post)%Z) ->
        is_Some (gallery' pages)).
Proof.
  intros pages.
  assert (R : map p_id (grid' pages)
              = map postKey (List.filter hasValidImage (allPosts pages))).
  { apply records_ids. intros page.
    rewrite <- (page_ids hasValidImage (data page)
                  (fun _ => formatGridPost')).
    - f_equal. f_equal. generalize (data page). intros l.
      change (map formatGridPost' l) with (formatGridPost' <$> l).
      rewrite <- imap_const. reflexivity.
    - intros _ post. unfold formatGridPost, hasValidImage.
      destruct (first (ipfsImages post)) as [image|]; [|reflexivity].
      cbn [mbind option_bind].
      destruct (Js.truthy_ostr (hash image)),
               (Js.truthy_ostr (first (fileNames image))); cbn; auto. }
  assert (S : List.filter hasValidImage (allPosts pages)
              `sublist_of` List.filter displayable (allPosts pages)).
  { clear R. induction (allPosts pages) as [|post l IH]; [constructor|].
    cbn [List.filter]. unfold displayable at 1.
    destruct (hasValidImage post); cbn.
    - apply sublist_skip. exact IH.
    - destruct (hasValidVideo post); [apply sublist_cons|]; exact IH. }
  assert (Lr : length (grid' pages)
               = length (List.filter hasValidImage (allPosts pages))).
  { rewrite <- (length_map p_id), R, length_map. reflexivity. }
  split; [exact R|]. split; [|split].
  - rewrite Lr. apply List.filter_length_le.
  - intros photos E.
    apply gallery_Some in E as (results & E & ->).
    assert (G : map p_id (omap (fun x => x) results)
                = map postKey (List.filter displayable (allPosts pages))).
    { revert results E. apply records_ids_returned.
      intros page results E. revert E. apply page_ids_returned.
      intros i post. unfold formatPost, displayable.
      destruct (hasValidImage post), (hasValidVideo post); cbn; auto;
        destruct (at_rem aspectRatioSets (id post + Z.of_nat i)); auto. }
    assert (Lg : length (omap (fun x => x) results)
                 = length (List.filter displayable (allPosts pages))).
    { rewrite <- (length_map p_id), G, length_map. reflexivity. }
    split; [exact G|]. split.
    + rewrite G, R. apply (fmap_sublist postKey). exact S.
    + rewrite Lg, Lr. split.
      * apply sublist_length. exact S.
      * apply List.filter_length_le.
  - intros Hid. unfold formattedPhotosForGallery.
    apply fmap_is_Some, mapM_is_Some, Forall_forall.
    intros o Hin.
    apply list_elem_of_bind in Hin as (page & Hin & Hpage).
    apply elem_of_lookup_imap in Hin as (index & post & -> & Hpost).
    assert (Hp : post ∈ allPosts pages).
    { unfold allPosts. apply list_elem_of_bind. exists page.
      split; [|exact Hpage]. apply list_elem_of_lookup. eauto. }
    apply Hid in Hp. cbn.
    destruct (formatPost' index post) eqn:F; [eauto|].
    apply formatPost_None in F as [_ F].
    pose proof (Z.rem_nonneg (id post + Z.of_nat index) 8
                  ltac:(lia) ltac:(lia)).
    lia.
Qed.

(** X13: the records of the grid are exactly the records built from the
    posts with a valid image; a video post without images never appears
    in the grid although the gallery shows it. *)
Theorem grid_photos_from_image_posts :
  forall pages : list Page,
    (forall photo,
        photo ∈ grid' pages
        <-> exists page post image,
            page ∈ pages /\ post ∈ data page
            /\ validImage post
            /\ first (ipfsImages post) = Some image
            /\ photo
               = gridPhoto isDevelopment lighthouseGateway cloudflareUrl
                   fallbackImage isHighQualityImage image post)
    /\ (forall post, ipfsImages post = None -> formatGridPost' post = None).
Proof.
  intros pages.
  assert (F : forall post photo,
             formatGridPost' post = Some photo
             <-> exists image,
                 validImage post
                 /\ first (ipfsImages post) = Some image
                 /\ photo
                    = gridPhoto isDevelopment lighthouseGateway
                        cloudflareUrl fallbackImage isHighQualityImage
                        image post).
  { intros post photo.
    assert (V : forall image,
               first (ipfsImages post) = Some image ->
               hasValidImage post
               = Js.truthy_ostr (hash image)
                 && Js.truthy_ostr (first (fileNames image))).
    { intros image Ei. unfold hasValidImage. rewrite Ei. reflexivity. }
    unfold formatGridPost.
    destruct (first (ipfsImages post)) as [image|] eqn:Ei.
    - specialize (V image eq_refl).
      destruct (Js.truthy_ostr (hash image)),
               (Js.truthy_ostr (first (fileNames image)));
        cbn in V |- *; split;
        try discriminate;
        try (intros [= <-]; exists image;
             split; [apply hasValidImage_spec; exact V|auto]);
        try (intros (i & _ & [= <-] & ->); reflexivity);
        try (intros (i & Hv & _); apply hasValidImage_spec in Hv;
             congruence).
    - split; [discriminate|]. intros (i & _ & D & _). discriminate D. }
  split.
  - intros photo. unfold formattedPhotosForGrid.
    rewrite list_elem_of_omap. split.
    + intros (o & Ho & ->).
      apply list_elem_of_bind in Ho as (page & Ho & Hpage).
      apply list_elem_of_fmap in Ho as (post & Ho & Hpost).
      symmetry in Ho. apply F in Ho as (image & Hv & Hi & ->).
      exists page, post, image. auto.
    + intros (page & post & image & Hpage & Hpost & Hv & Hi & ->).
      exists (Some (gridPhoto isDevelopment lighthouseGateway cloudflareUrl
                      fallbackImage isHighQualityImage image post)).
      split; [|reflexivity].
      apply list_elem_of_bind. exists page. split; [|exact Hpage].
      apply list_elem_of_fmap. exists post. split; [|exact Hpost].
      symmetry. apply F. exists image. auto.
  - intros post Hn. unfold formatGridPost, first. rewrite Hn. reflexivity.
Qed.

End Media.

Lemma image_url_cases_witness :
  Js.truthy_ostr (Some "https://r2.example/u/fox.png") = true
  /\ String.prefix "http" "https://r2.example/u/fox.png" = true
  /\ FormattedPhotos.getImage false "https://gateway/ipfs/" "https://cdn" "/fallback.png"
       (fun _ => true) (Some "https://r2.example/u/fox.png") "fox.png"
       "user-1"
     = "https://cdn/user-1/fox.png".
Proof.
  split; [reflexivity|]. split; [reflexivity|].
  exact (proj2 (proj2 (proj2
           (image_url_cases false "https://gateway/ipfs/" "https://cdn"
              "/fallback.png" (fun _ => true)
              (Some "https://r2.example/u/fox.png") "fox.png" "user-1")))
           "https://r2.example/u/fox.png" eq_refl eq_refl).
Defined.

Lemma stored_video_ends_polling_witness :
  let film :=
    FormattedPhotos.mkPost 2 "user-1" "a red fox running" None None
      "2025-01-02" None None None None None None (Some "VIDEO") None
      (PhotoPage.storedVideoData
         (VideoStatusPoll.mkDatum "https://cdn/v.mp4" "https://cdn/v.mp4"
            "s3://videos/v.mp4")) in
  (FormattedPhotos.media_type film = Some "VIDEO"
   /\ Js.truthy_ostr (Some "job-42") = true
   /\ FormattedPhotos.id film <> 0%Z
   /\ "https://cdn/v.mp4" <> "")
  /\ PhotoPage.videoMediaUrl false "https://gateway/ipfs/" "https://cdn"
       "/fallback.png" (fun _ => false) film 0
     = "https://cdn/v.mp4"
  /\ PhotoPage.mountsPoller false "https://gateway/ipfs/" "https://cdn"
       "/fallback.png" (fun _ => false) (Some "job-42") film 0
     = false.
Proof.
  intros film.
  assert (Hid : FormattedPhotos.id film <> 0%Z) by discriminate.
  assert (Hu : "https://cdn/v.mp4" <> "") by discriminate.
  split; [repeat split; assumption|].
  exact (proj2 (stored_video_ends_polling false "https://gateway/ipfs/"
                  "https://cdn" "/fallback.png" (fun _ => false)
                  (Some "job-42") film "https://cdn/v.mp4"
                  "s3://videos/v.mp4" eq_refl eq_refl Hid Hu) eq_refl).
Defined.

Lemma stored_video_gallery_src_witness :
  let film :=
    FormattedPhotos.mkPost 2 "user-1" "a red fox running" None None
      "2025-01-02" None None None None None None (Some "VIDEO") None
      (PhotoPage.storedVideoData
         (VideoStatusPoll.mkDatum "clips/v.mp4" "clips/v.mp4"
            "s3://videos/v.mp4")) in
  ("clips/v.mp4" <> ""
   /\ (0 <= Z.rem (FormattedPhotos.id film + Z.of_nat 0) 8)%Z)
  /\ FormattedPhotos.getMediaUrl false "https://gateway/ipfs/" "https://cdn"
       "/fallback.png" (fun _ => false) film
     = "clips/v.mp4"
  /\ exists photo,
      FormattedPhotos.formatPost false "https://gateway/ipfs/" "https://cdn"
        "/fallback.png" (fun _ => false) (fun _ _ => Some 450%Z)
        (fun b _ _ => Some b) 0 film
      = Some (Some photo)
      /\ FormattedPhotos.p_src photo = "clips/v.mp4"
      /\ FormattedPhotos.p_media_type photo = Some "VIDEO".
Proof.
  intros film.
  assert (Hu : "clips/v.mp4" <> "") by discriminate.
  assert (Hr : (0 <= Z.rem (FormattedPhotos.id film + Z.of_nat 0) 8)%Z)
    by (vm_compute; discriminate).
  split; [split; assumption|].
  destruct (stored_video_gallery_src false "https://gateway/ipfs/"
              "https://cdn" "/fallback.png" (fun _ => false)
              (fun _ _ => Some 450%Z) (fun b _ _ => Some b)
              film 0 "clips/v.mp4" "s3://videos/v.mp4"
              eq_refl Hu eq_refl) as (Url & Record & _).
  split; [exact Url|exact (Record Hr)].
Defined.

Lemma records_keep_order_witness :
  let picture :=
    FormattedPhotos.mkPost 1 "user-1" "a red fox in snow" None None
      "2025-01-01" None None None None None None (Some "IMAGE")
      (Some [FormattedPhotos.mkUpload "fox" (Some "Qm123") "1024"
               (Some ["fox.png"])])
      FormattedPhotos.VNull in
  let film :=
    FormattedPhotos.mkPost 2 "user-1" "a red fox running" None None
      "2025-01-02" None None None None None None (Some "VIDEO") None
      (FormattedPhotos.VArray
         [FormattedPhotos.mkVideoObject None (Some "https://cdn/v.mp4")
            None None]) in
  let pages := [FormattedPhotos.mkPage [film; picture]] in
  let record :=
    FormattedPhotos.galleryPhoto
      false "https://gateway/ipfs/" "https://cdn" "/fallback.png"
      (fun _ => false) (fun _ _ => Some 450%Z) (fun b _ _ => Some b) in
  FormattedPhotos.formattedPhotosForGallery
    false "https://gateway/ipfs/" "https://cdn" "/fallback.png"
    (fun _ => false) (fun _ _ => Some 450%Z) (fun b _ _ => Some b) pages
  = Some [record 0 film; record 1 picture]
  /\ map FormattedPhotos.p_id [record 0 film; record 1 picture]
     = map PhotoGrid.postKey
         (List.filter PhotoGrid.displayable (PhotoGrid.allPosts pages))
  /\ map FormattedPhotos.p_id
       (PhotoGrid.formattedPhotosForGrid false "https://gateway/ipfs/"
          "https://cdn" "/fallback.png" (fun _ => false) pages)
     `sublist_of` map FormattedPhotos.p_id [record 0 film; record 1 picture].
Proof.
  intros picture film pages record.
  assert (G : FormattedPhotos.formattedPhotosForGallery
                false "https://gateway/ipfs/" "https://cdn" "/fallback.png"
                (fun _ => false) (fun _ _ => Some 450%Z)
                (fun b _ _ => Some b) pages
              = Some [record 0 film; record 1 picture])
    by (vm_compute; reflexivity).
  split; [exact G|].
  destruct (records_keep_order false "https://gateway/ipfs/" "https://cdn"
              "/fallback.png" (fun _ => false) (fun _ _ => Some 450%Z)
              (fun b _ _ => Some b) pages) as (_ & _ & Returned & _).
  destruct (Returned _ G) as (Ids & Sub & _).
  split; [exact Ids|exact Sub].
Defined.

Lemma media_url_source_witness :
  let film :=
    FormattedPhotos.mkPost 2 "user-1" "a red fox running" None None
      "2025-01-02" None None None None None None (Some "VIDEO") None
      (FormattedPhotos.VArray
         [FormattedPhotos.mkVideoObject None (Some "https://cdn/v.mp4")
            None None]) in
  let cover :=
    Some [FormattedPhotos.mkUpload "fox" (Some "Qm123") "1024"
            (Some ["fox.png"])] in
  FormattedPhotos.validVideo film
  /\ FormattedPhotos.getMediaUrl false "https://gateway/ipfs/" "https://cdn"
       "/fallback.png" (fun _ => false) (PhotoGrid.withImages cover film)
     = FormattedPhotos.getMediaUrl false "https://gateway/ipfs/"
         "https://cdn" "/fallback.png" (fun _ => false) film.
Proof.
  intros film cover.
  assert (Hv : FormattedPhotos.validVideo film).
  { split; [reflexivity|discriminate]. }
  split; [exact Hv|].
  exact (proj1 (media_url_source false "https://gateway/ipfs/" "https://cdn"
                  "/fallback.png" (fun _ => false) film) Hv cover).
Defined.

Lemma grid_photos_from_image_posts_witness :
  let film :=
    FormattedPhotos.mkPost 2 "user-1" "a red fox running" None None
      "2025-01-02" None None None None None None (Some "VIDEO") None
      (FormattedPhotos.VArray
         [FormattedPhotos.mkVideoObject None (Some "https://cdn/v.mp4")
            None None]) in
  FormattedPhotos.ipfsImages film = None
  /\ PhotoGrid.formatGridPost false "https://gateway/ipfs/" "https://cdn"
       "/fallback.png" (fun _ => false) film
     = None.
Proof.
  intros film. split; [reflexivity|].
  exact (proj2 (grid_photos_from_image_posts false "https://gateway/ipfs/"
                  "https://cdn" "/fallback.png" (fun _ => false) [])
           film eq_refl).
Defined.

(** ** More on the job submitter *)
Section SubmitterMore.
Import GenerationStore SendJobRequest.

(** A rejected call returns nothing and its trace is one of the four
    rejections: a toast, the stop, and for a missing user a log line. *)
Lemma sendJobRequest_rejected prompt user imageCount mediaType seed reply :
  rejects prompt user ->
  exists msg logs,
    sendJobRequest prompt user imageCount mediaType seed reply
    = (Returned None, (logs ++ [ToastError msg; StopGeneration])%list)
    /\ existsb isHttpPost logs = false
    /\ In msg ["Please log in to generate "
                 ++ mediaName (default image mediaType) ++ "s";
               "User authentication error";
               "Please enter a prompt";
               "Prompt too long (max 1000 characters)"].
Proof.
  intros H. unfold sendJobRequest. cbn zeta.
  destruct user as [u|].
  - destruct (Js.truthy_ostr (id u)) eqn:Eid; cbn [negb].
    + rewrite prompt_check_blank.
      destruct (forallb Js.is_space prompt) eqn:Eb.
      * exists "Please enter a prompt", []. cbn. repeat split; auto 10.
      * destruct (1000 <? length prompt)%nat eqn:El.
        -- exists "Prompt too long (max 1000 characters)", []. cbn. repeat split; auto 10.
        -- exfalso. apply Nat.ltb_ge in El.
           destruct H as [H|[H|[H|[u' [H1 H2]]]]];
             [congruence | lia | discriminate |].
           injection H1 as <-. congruence.
    + exists "User authentication error",
        [LogError "User ID is undefined, cannot send job request"].
      cbn. repeat split; auto 10.
  - exists ("Please log in to generate "
            ++ mediaName (default image mediaType) ++ "s"),
      [LogError "User is undefined, cannot send job request"].
    cbn. repeat split; auto 10.
Qed.

End SubmitterMore.

(** X14: a call of the submitter makes a request exactly when the call
    passes the four checks, and never more than one: the submitter itself
    never retries. *)
Theorem request_iff_accepted :
  forall prompt user imageCount mediaType seed reply,
    let tr := snd (SendJobRequest.sendJobRequest
                     prompt user imageCount mediaType seed reply) in
    length (List.filter SendJobRequest.isHttpPost tr) <= 1
    /\ (existsb SendJobRequest.isHttpPost tr = true
        <-> exists u uid,
            user = Some u /\ SendJobRequest.accepts prompt u uid).
Proof.
  intros prompt user imageCount mediaType seed reply tr.
  destruct (rejects_or_accepts prompt user) as [R|(u & uid & -> & A)].
  - destruct (sendJobRequest_rejected prompt user imageCount mediaType
                seed reply R) as (msg & logs & E & Hl & _).
    subst tr. rewrite E. cbn [snd].
    assert (F : List.filter SendJobRequest.isHttpPost logs = []).
    { clear E. induction logs as [|e logs IH]; [reflexivity|].
      cbn in Hl |- *. apply orb_false_iff in Hl as [He Hl].
      rewrite He. auto. }
    rewrite List.filter_app, F, existsb_app, Hl. cbn.
    split; [lia|]. split; [discriminate|].
    intros (u & uid & -> & A).
    exfalso. exact (accepts_not_rejects _ _ _ A R).
  - subst tr. rewrite (sendJobRequest_accepted _ _ _ _ _ _ _ A).
    cbn zeta.
    assert (Yes : (exists u0 uid0,
                      Some u = Some u0
                      /\ SendJobRequest.accepts prompt u0 uid0)) by eauto.
    destruct (default GenerationStore.image mediaType).
    + cbn. split; [lia|]. split; auto.
    + destruct reply as [[b|]|e];
        [destruct (SendJobRequest.status b
                   && Js.truthy_ostr
                        (SendJobRequest.data b ≫= SendJobRequest.jobId))
        | |];
        cbn; (split; [lia|]); split; auto.
Qed.

(** X15: the submitter throws on the video path only, and whenever it
    throws it has stopped the generation; it returns a job reference on
    the video path only, after a single request, and the job id of a
    reference is never empty. *)
Theorem submitter_outcomes :
  forall prompt user imageCount mediaType seed reply,
    let r := SendJobRequest.sendJobRequest
               prompt user imageCount mediaType seed reply in
    (mediaType <> Some GenerationStore.video ->
     fst r = SendJobRequest.Returned None)
    /\ (forall error,
          fst r = SendJobRequest.Thrown error ->
          mediaType = Some GenerationStore.video
          /\ In SendJobRequest.StopGeneration (snd r)
          /\ forall s,
              GenerationStore.isActive
                (SendJobRequest.runStore (snd r) s) = false)
    /\ (forall job,
          fst r = SendJobRequest.Returned (Some job) ->
          mediaType = Some GenerationStore.video
          /\ SendJobRequest.ref_jobId job <> ""
          /\ length (snd r) = 1
          /\ existsb SendJobRequest.isHttpPost (snd r) = true).
Proof.
  intros prompt user imageCount mediaType seed reply r.
  destruct (rejects_or_accepts prompt user) as [R|(u & uid & -> & A)].
  - destruct (sendJobRequest_rejected prompt user imageCount mediaType
                seed reply R) as (msg & logs & E & _).
    subst r. rewrite E. cbn [fst snd].
    split; [reflexivity|]. split; intros x D; discriminate D.
  - subst r. rewrite (sendJobRequest_accepted _ _ _ _ _ _ _ A).
    cbn zeta.
    destruct mediaType as [[|]|]; cbn [default from_option].
    1, 3: split; [reflexivity|]; split; intros x D; discriminate D.
    split; [intros D; congruence|].
    destruct reply as [[b|]|e].
    + destruct (SendJobRequest.status b) eqn:Hs; cbn [andb].
      * destruct (SendJobRequest.data b ≫= SendJobRequest.jobId)
          as [j|] eqn:Hj; cbn [Js.truthy_ostr].
        -- destruct (Js.truthy_str j) eqn:Ht; cbn [fst snd].
           ++ split; [intros x D; discriminate D|].
              intros job [= <-]. cbn. repeat split.
              apply truthy_str_ne. exact Ht.
           ++ split; [|intros x D; discriminate D].
              intros x _. cbn. repeat split; auto.
        -- cbn [fst snd]. split; [|intros x D; discriminate D].
           intros x _. cbn. repeat split; auto.
      * cbn [fst snd]. split; [|intros x D; discriminate D].
        intros x _. cbn. repeat split; auto.
    + cbn [fst snd]. split; [|intros x D; discriminate D].
      intros x _. cbn. repeat split; auto.
    + cbn [fst snd]. split; [|intros x D; discriminate D].
      intros x _. cbn. repeat split; auto.
Qed.

Lemma submitter_outcomes_witness :
  let r := SendJobRequest.sendJobRequest
             (Js.of_string "a red fox in snow")
             (Some (SendJobRequest.mkUser (Some "user-1") 5 None))
             None (Some GenerationStore.video) 4242
             (SendJobRequest.Fulfilled None) in
  fst r = SendJobRequest.Thrown
            (SendJobRequest.PlainError
               "Invalid response from video generation API")
  /\ In SendJobRequest.StopGeneration (snd r).
Proof.
  intros r.
  assert (E : fst r = SendJobRequest.Thrown
                        (SendJobRequest.PlainError
                           "Invalid response from video generation API"))
    by reflexivity.
  split; [exact E|].
  destruct (submitter_outcomes
              (Js.of_string "a red fox in snow")
              (Some (SendJobRequest.mkUser (Some "user-1") 5 None))
              None (Some GenerationStore.video) 4242%Z
              (SendJobRequest.Fulfilled None)) as (_ & T & _).
  exact (proj1 (proj2 (T _ E))).
Defined.

(** Every request of a trace comes from an accepted call and carries the
    headers built from the user. *)
Lemma post_in_trace prompt user imageCount mediaType seed reply
    endpoint payload headers :
  In (SendJobRequest.HttpPost endpoint payload headers)
     (snd (SendJobRequest.sendJobRequest
             prompt user imageCount mediaType seed reply)) ->
  exists u uid,
    user = Some u
    /\ SendJobRequest.accepts prompt u uid
    /\ headers = SendJobRequest.requestHeaders u
    /\ SendJobRequest.author payload = uid.
Proof.
  intros Hin.
  destruct (rejects_or_accepts prompt user) as [R|(u & uid & -> & A)].
  - exfalso.
    destruct (sendJobRequest_rejected prompt user imageCount mediaType
                seed reply R) as (msg & logs & E & Hl & _).
    rewrite E in Hin. cbn [snd] in Hin.
    apply in_app_or in Hin as [Hin|Hin].
    + assert (X : existsb SendJobRequest.isHttpPost logs = true).
      { apply existsb_exists. eexists. split; [exact Hin|reflexivity]. }
      congruence.
    + cbn in Hin. intuition discriminate.
  - exists u, uid. split; [reflexivity|]. split; [exact A|].
    rewrite (sendJobRequest_accepted _ _ _ _ _ _ _ A) in Hin.
    cbn zeta in Hin.
    destruct (default GenerationStore.image mediaType).
    + cbn in Hin. destruct Hin as [[= <- <- <-]|[]]. auto.
    + destruct reply as [[b|]|e];
        [destruct (SendJobRequest.status b
                   && Js.truthy_ostr
                        (SendJobRequest.data b ≫= SendJobRequest.jobId))
        | |];
        cbn in Hin;
        repeat match goal with
               | H : _ \/ _ |- _ => destruct H
               | H : False |- _ => destruct H
               | H : SendJobRequest.HttpPost _ _ _
                     = SendJobRequest.HttpPost _ _ _ |- _ =>
                   injection H as <- <- <-
               | H : _ = SendJobRequest.HttpPost _ _ _ |- _ =>
                   discriminate H
               end; auto.
Qed.

(** X16: when the request of an accepted image submission fails, the
    call itself has already returned normally; the callback stops the
    generation, so the flag ends cleared whatever the store was, and
    shows one message; the request is not sent again. *)
Theorem image_failure_clears_flag :
  forall prompt u uid imageCount seed reply error s,
    SendJobRequest.accepts prompt u uid ->
    let r := SendJobRequest.sendJobRequest
               prompt (Some u) imageCount (Some GenerationStore.image) seed
               reply in
    let trace :=
      (snd r ++ SendJobRequest.onImageSettled
                  (SendJobRequest.Failed error))%list in
    fst r = SendJobRequest.Returned None
    /\ GenerationStore.isActive (SendJobRequest.runStore trace s) = false
    /\ GenerationStore.mediaType (SendJobRequest.runStore trace s)
       = GenerationStore.mediaType s
    /\ List.filter SendJobRequest.isToastError trace
       = [SendJobRequest.ToastError
            (SendJobRequest.errorMessage GenerationStore.image error)]
    /\ length (List.filter SendJobRequest.isHttpPost trace) = 1.
Proof.
  intros prompt u uid imageCount seed reply error s A.
  rewrite (sendJobRequest_accepted _ _ _ _ _ _ _ A).
  cbn. repeat split.
Qed.

Lemma image_failure_clears_flag_witness :
  let error :=
    SendJobRequest.AxiosError (Some "ECONNABORTED") None
      "timeout of 10000ms exceeded" in
  let r := SendJobRequest.sendJobRequest
             (Js.of_string "a red fox in snow")
             (Some (SendJobRequest.mkUser (Some "user-1") 5 None))
             None (Some GenerationStore.image) 4242
             (SendJobRequest.Failed error) in
  let trace :=
    (snd r ++ SendJobRequest.onImageSettled
                (SendJobRequest.Failed error))%list in
  SendJobRequest.accepts
    (Js.of_string "a red fox in snow")
    (SendJobRequest.mkUser (Some "user-1") 5 None) "user-1"
  /\ GenerationStore.isActive
       (SendJobRequest.runStore trace
          (GenerationStore.mkGen true GenerationStore.image)) = false
  /\ List.filter SendJobRequest.isToastError trace
     = [SendJobRequest.ToastError "Request timeout - please try again"].
Proof.
  intros error r trace.
  assert (H : SendJobRequest.accepts
                (Js.of_string "a red fox in snow")
                (SendJobRequest.mkUser (Some "user-1") 5 None) "user-1").
  { unfold SendJobRequest.accepts. repeat split; try reflexivity.
    cbn. lia. }
  split; [exact H|].
  destruct (image_failure_clears_flag _ _ _ None 4242%Z
              (SendJobRequest.Failed error) error
              (GenerationStore.mkGen true GenerationStore.image) H)
    as (_ & B & _ & D & _).
  split; [exact B|exact D].
Defined.

(** X17: every request of the submitter starts its headers with the
    JSON content type, and it carries an Authorization header exactly
    when the user's credit balance is not positive and the wallet has a
    non-empty private key; the header is then "Bearer " followed by that
    key.  A user with credits never sends the key. *)
Theorem authorization_header_rule :
  forall prompt u imageCount mediaType seed reply endpoint payload headers,
    In (SendJobRequest.HttpPost endpoint payload headers)
       (snd (SendJobRequest.sendJobRequest
               prompt (Some u) imageCount mediaType seed reply)) ->
    head headers = Some ("Content-Type", "application/json")
    /\ (forall value,
          In ("Authorization", value) headers
          <-> (SendJobRequest.creditBalance u <= 0)%Z
              /\ exists key,
                  SendJobRequest.wallet u ≫= SendJobRequest.privateKey
                  = Some key
                  /\ key <> ""
                  /\ value = ("Bearer " ++ key)%string).
Proof.
  intros prompt u imageCount mediaType seed reply endpoint payload headers
    Hin.
  apply post_in_trace in Hin as (u' & uid & [= <-] & _ & -> & _).
  unfold SendJobRequest.requestHeaders.
  destruct (Z.leb_spec (SendJobRequest.creditBalance u) 0) as [Hc|Hc];
    cbn [andb].
  - destruct (SendJobRequest.wallet u ≫= SendJobRequest.privateKey)
      as [key|]; cbn [Js.truthy_ostr].
    + destruct (Js.truthy_str key) eqn:Ht.
      * split; [reflexivity|]. intros value. cbn. split.
        -- intros [D|[[= <-]|[]]]; [discriminate D|].
           split; [exact Hc|]. exists key. repeat split.
           apply truthy_str_ne. exact Ht.
        -- intros (_ & k & [= <-] & _ & ->). auto.
      * split; [reflexivity|]. intros value. cbn. split.
        -- intros [D|[]]. discriminate D.
        -- intros (_ & k & [= <-] & Hk & _).
           apply truthy_str_ne in Hk. congruence.
    + split; [reflexivity|]. intros value. cbn. split.
      * intros [D|[]]. discriminate D.
      * intros (_ & k & D & _). discriminate D.
  - split; [reflexivity|]. intros value. cbn. split.
    + intros [D|[]]. discriminate D.
    + intros (Hle & _). lia.
Qed.

Lemma authorization_header_rule_witness :
  let u :=
    SendJobRequest.mkUser (Some "user-1") 5
      (Some (SendJobRequest.mkWallet (Some "0xabc"))) in
  let payload :=
    SendJobRequest.mkRequest
      (SendJobRequest.mkInputs (Js.of_string "a red fox in snow") 4242 4)
      "user-1" "GENERATION" in
  let headers := [("Content-Type", "application/json")] in
  In (SendJobRequest.HttpPost "/api/images/generations" payload headers)
     (snd (SendJobRequest.sendJobRequest
             (Js.of_string "a red fox in snow") (Some u) None None 4242
             (SendJobRequest.Fulfilled None)))
  /\ ~ In ("Authorization", "Bearer 0xabc"%string) headers.
Proof.
  intros u payload headers.
  assert (Hin : In (SendJobRequest.HttpPost "/api/images/generations"
                      payload headers)
                   (snd (SendJobRequest.sendJobRequest
                           (Js.of_string "a red fox in snow") (Some u)
                           None None 4242
                           (SendJobRequest.Fulfilled None)))).
  { left. reflexivity. }
  split; [exact Hin|].
  destruct (authorization_header_rule _ _ _ _ _ _ _ _ _ Hin) as [_ Rule].
  intros Hauth. apply Rule in Hauth as [Hle _]. cbn in Hle. lia.
Defined.

(** X18: video support left the image path as it was.  With the media
    type omitted or "image", the submitter returns nothing and has the
    effects of the submitter before video support, for every input, and
    so has its callback when the request settles. *)
Theorem image_path_unchanged :
  forall prompt user imageCount seed reply,
    (forall mediaType,
        mediaType <> Some GenerationStore.video ->
        SendJobRequest.sendJobRequest
          prompt user imageCount mediaType seed reply
        = (SendJobRequest.Returned None,
           SendJobRequestV1.sendJobRequest prompt user imageCount seed))
    /\ SendJobRequest.onImageSettled reply
       = SendJobRequestV1.onSettled reply.
Proof.
  intros prompt user imageCount seed reply. split.
  - intros mediaType Hm.
    assert (E : default GenerationStore.image mediaType
                = GenerationStore.image).
    { destruct mediaType as [[|]|]; [reflexivity|congruence|reflexivity]. }
    unfold SendJobRequest.sendJobRequest, SendJobRequestV1.sendJobRequest.
    cbn zeta. rewrite E.
    destruct user as [u|]; [|reflexivity].
    destruct (Js.truthy_ostr (SendJobRequest.id u)); [|reflexivity].
    cbn [negb].
    destruct (bool_decide (prompt = [])
              || (length (Js.trim prompt) =? 0)%nat); [reflexivity|].
    destruct (1000 <? length prompt)%nat; reflexivity.
  - destruct reply as [body|[code response message|message]];
      [reflexivity| |reflexivity].
    unfold SendJobRequest.onImageSettled, SendJobRequest.onFailure,
      SendJobRequestV1.onSettled. reflexivity.
Qed.

Lemma image_path_unchanged_witness :
  None <> Some GenerationStore.video
  /\ SendJobRequest.sendJobRequest
       (Js.of_string "a red fox in snow")
       (Some (SendJobRequest.mkUser (Some "user-1") 5 None))
       (Some 25%Z) None 4242 (SendJobRequest.Fulfilled None)
     = (SendJobRequest.Returned None,
        SendJobRequestV1.sendJobRequest
          (Js.of_string "a red fox in snow")
          (Some (SendJobRequest.mkUser (Some "user-1") 5 None))
          (Some 25%Z) 4242).
Proof.
  assert (N : @None GenerationStore.MediaType
              <> Some GenerationStore.video) by discriminate.
  split; [exact N|].
  exact (proj1 (image_path_unchanged
                  (Js.of_string "a red fox in snow")
                  (Some (SendJobRequest.mkUser (Some "user-1") 5 None))
                  (Some 25%Z) 4242%Z (SendJobRequest.Fulfilled None))
           None N).
Defined.

(** ** The job hook *)
Section Hook.
Import GenerationStore SendJobRequest CreateJob.

(** The effect sets up no interval for a hook that is not generating,
    and for one that is it goes by the user and the media type. *)
Lemma setsInterval_idle user h :
  isGenerating h = false -> setsInterval user h = false.
Proof.
  intros Hg. unfold setsInterval. rewrite Hg.
  destruct (bool_decide (user <> None)); reflexivity.
Qed.

Lemma setsInterval_busy u h :
  isGenerating h = true ->
  setsInterval (Some u) h
  = match currentMediaType h with
    | video => false
    | image => true
    end.
Proof.
  intros Hg. unfold setsInterval. rewrite Hg.
  rewrite bool_decide_eq_true_2 by discriminate.
  destruct (currentMediaType h); reflexivity.
Qed.

(** The mutation function when the submitter returns. *)
Lemma mutationFn_returned prompt u mediaType seed reply m result tr :
  prompt <> [] ->
  sendJobRequest prompt (Some u) None (Some (default image mediaType))
    seed reply
  = (Returned result, tr) ->
  mutationFn prompt (Some u) mediaType seed reply m
  = (match default image mediaType, result with
     | video, Some job => Succeeded (Some job)
     | _, _ => Succeeded None
     end,
     {| hook :=
          {| isGenerating := true; progress := 100;
             currentMediaType := default image mediaType;
             store :=
               runStore tr
                 (startGeneration (Some (default image mediaType))
                    (store (hook m))) |};
        polling :=
          if isGenerating (hook m) then polling m
          else match default image mediaType with
               | video => false
               | image => true
               end |},
     map Submitter tr).
Proof.
  intros Hp E. unfold mutationFn. cbn zeta.
  rewrite (bool_decide_eq_false_2 _ Hp), E.
  unfold rerender, applyTrace. cbn -[setsInterval].
  rewrite setsInterval_busy by reflexivity. cbn.
  destruct (default image mediaType), result, (isGenerating (hook m));
    reflexivity.
Qed.

(** The mutation function when the submitter throws. *)
Lemma mutationFn_thrown prompt u mediaType seed reply m error tr :
  prompt <> [] ->
  sendJobRequest prompt (Some u) None (Some (default image mediaType))
    seed reply
  = (Thrown error, tr) ->
  mutationFn prompt (Some u) mediaType seed reply m
  = (Rejected error,
     {| hook :=
          {| isGenerating := false; progress := 0;
             currentMediaType := default image mediaType;
             store :=
               stopGeneration
                 (runStore tr
                    (startGeneration (Some (default image mediaType))
                       (store (hook m)))) |};
        polling := false |},
     map Submitter tr).
Proof.
  intros Hp E. unfold mutationFn. cbn zeta.
  rewrite (bool_decide_eq_false_2 _ Hp), E.
  unfold rerender, applyTrace. cbn -[setsInterval].
  rewrite setsInterval_idle by reflexivity.
  reflexivity.
Qed.

(** [onError] on a hook that is not generating changes the store
    only. *)
Lemma onError_idle user error h p :
  isGenerating h = false ->
  onError user error (mkMounted h p)
  = (mkMounted
       {| isGenerating := false; progress := progress h;
          currentMediaType := currentMediaType h;
          store := stopGeneration (store h) |} p,
     [LogHookError "Error creating job"; InvalidateQueries ["posts"]]).
Proof. intros Hg. unfold onError, rerender. cbn. rewrite Hg. reflexivity. Qed.

Lemma isPost_submitter (tr : list SendJobRequest.Effect) :
  List.filter isPost (map Submitter tr)
  = map Submitter (List.filter isHttpPost tr).
Proof.
  induction tr as [|e tr IH]; [reflexivity|]. cbn.
  destruct (isHttpPost e); cbn; congruence.
Qed.

Lemma isInvalidate_submitter (tr : list SendJobRequest.Effect) :
  List.filter isInvalidate (map Submitter tr) = [].
Proof. induction tr as [|e tr IH]; [reflexivity|exact IH]. Qed.

(** An accepted video request that fails: one request, and the failure
    handling of the submitter. *)
Lemma video_request_thrown prompt u uid seed error :
  accepts prompt u uid ->
  exists tr,
    sendJobRequest prompt (Some u) None (Some video) seed (Failed error)
    = (Thrown error, tr)
    /\ length (List.filter isHttpPost tr) = 1
    /\ forall s, runStore tr s = stopGeneration s.
Proof.
  intros A. rewrite (sendJobRequest_accepted _ _ _ _ _ _ _ A). cbn.
  eexists. split; [reflexivity|]. split.
  - unfold onFailure. cbn.
    repeat match goal with
           | |- context [match ?x with _ => _ end] => destruct x; cbn
           end; reflexivity.
  - intros s. unfold onFailure. cbn.
    repeat match goal with
           | |- context [match ?x with _ => _ end] => destruct x; cbn
           end; reflexivity.
Qed.

End Hook.

(** X19: the hook turns down an empty prompt and a missing user before
    anything is sent.  The mutation function fails with a validation
    error and changes nothing, the retry rule never asks for another run
    of such an error, and [onError] then clears the hook's flag, stops
    the generation in the store and invalidates the post listing.  So
    such a submission made while another generation is running ends it:
    the flags are cleared and its row polling, if any, is torn down. *)
Theorem mutation_guard :
  forall prompt user mediaType seed reply attempts m,
    prompt = [] \/ user = None ->
    exists error,
      CreateJob.mutationFn prompt user mediaType seed reply m
      = (CreateJob.Rejected error, m, [])
      /\ (forall failureCount, CreateJob.retry failureCount error = false)
      /\ CreateJob.mutate prompt user mediaType ((seed, reply) :: attempts)
           0 m
         = Some (CreateJob.Rejected error,
                 CreateJob.mkMounted
                   (CreateJob.mkJobHook false
                      (CreateJob.progress (CreateJob.hook m))
                      (CreateJob.currentMediaType (CreateJob.hook m))
                      (GenerationStore.stopGeneration
                         (CreateJob.store (CreateJob.hook m))))
                   (if CreateJob.isGenerating (CreateJob.hook m)
                    then false else CreateJob.polling m),
                 [CreateJob.LogHookError "Error creating job";
                  CreateJob.InvalidateQueries ["posts"]]).
Proof.
  intros prompt user mediaType seed reply attempts m H.
  assert (G : exists error,
             CreateJob.mutationFn prompt user mediaType seed reply m
             = (CreateJob.Rejected error, m, [])
             /\ (forall failureCount,
                    CreateJob.retry failureCount error = false)).
  { unfold CreateJob.mutationFn. cbn zeta.
    destruct (decide (prompt = [])) as [Hp|Hp].
    - rewrite (bool_decide_eq_true_2 _ Hp).
      exists (SendJobRequest.PlainError "Prompt is required").
      split; [reflexivity|]. intros n. reflexivity.
    - rewrite (bool_decide_eq_false_2 _ Hp).
      destruct H as [H| ->]; [contradiction|].
      exists (SendJobRequest.PlainError "User must be logged in").
      split; [reflexivity|]. intros n. reflexivity. }
  destruct G as (error & E & R). exists error.
  split; [exact E|]. split; [exact R|].
  cbn [CreateJob.mutate]. rewrite E, R.
  unfold CreateJob.onError, CreateJob.rerender. cbn.
  destruct (CreateJob.isGenerating (CreateJob.hook m)) eqn:Hg; cbn;
    [|reflexivity].
  rewrite setsInterval_idle by reflexivity. reflexivity.
Qed.

Lemma mutation_guard_witness :
  let m :=
    CreateJob.mkMounted
      (CreateJob.mkJobHook true 100 GenerationStore.image
         (GenerationStore.mkGen true GenerationStore.image)) true in
  let u := SendJobRequest.mkUser (Some "user-1") 5 None in
  (@nil N = [] \/ Some u = None)
  /\ exists error,
      CreateJob.mutate [] (Some u) (Some GenerationStore.video)
        [(4242%Z, SendJobRequest.Fulfilled None)] 0 m
      = Some (CreateJob.Rejected error,
              CreateJob.mkMounted
                (CreateJob.mkJobHook false 100 GenerationStore.image
                   (GenerationStore.mkGen false GenerationStore.image))
                false,
              [CreateJob.LogHookError "Error creating job";
               CreateJob.InvalidateQueries ["posts"]]).
Proof.
  intros m u.
  assert (H : @nil N = [] \/ Some u = None) by (left; reflexivity).
  split; [exact H|].
  destruct (mutation_guard [] (Some u) (Some GenerationStore.video) 4242%Z
              (SendJobRequest.Fulfilled None) [] m H)
    as (error & _ & _ & Run).
  exists error. exact Run.
Defined.

(** X20: what the submitter turns down, the hook reports as a success.
    For a prompt that is not empty but all whitespace or too long, or a
    user without an id, the mutation succeeds at its first run, without
    a job, although no request was made, and [onError] does not run: the
    store's flag is cleared, but the hook still counts as generating,
    with progress 100.  When the hook was not generating before, the row
    polling loop is then set up for an image and not for a video; when
    it was, the effect does not run again and the loop is as before. *)
Theorem mutation_rejected_by_submitter :
  forall prompt u mediaType seed reply attempts m,
    prompt <> [] ->
    SendJobRequest.rejects prompt (Some u) ->
    exists h' trace,
      CreateJob.mutate prompt (Some u) mediaType ((seed, reply) :: attempts)
        0 m
      = Some (CreateJob.Succeeded None,
              CreateJob.mkMounted h'
                (if CreateJob.isGenerating (CreateJob.hook m)
                 then CreateJob.polling m
                 else match mediaType with
                      | Some GenerationStore.video => false
                      | _ => true
                      end),
              trace)
      /\ existsb CreateJob.isPost trace = false
      /\ GenerationStore.isActive (CreateJob.store h') = false
      /\ CreateJob.isGenerating h' = true
      /\ CreateJob.progress h' = 100%Z.
Proof.
  intros prompt u mediaType seed reply attempts m Hp R.
  destruct (sendJobRequest_rejected prompt (Some u) None
              (Some (default GenerationStore.image mediaType)) seed reply R)
    as (msg & logs & E & Hl & _).
  assert (Hm : existsb CreateJob.isPost
                 (map CreateJob.Submitter
                    (logs ++ [SendJobRequest.ToastError msg;
                              SendJobRequest.StopGeneration])%list)
               = false).
  { rewrite map_app, existsb_app. cbn. rewrite orb_false_r.
    clear -Hl. induction logs as [|e logs IH]; [reflexivity|].
    cbn in Hl |- *. apply orb_false_iff in Hl as [He Hl].
    rewrite He. auto. }
  assert (Hs : forall s,
             GenerationStore.isActive
               (SendJobRequest.runStore
                  (logs ++ [SendJobRequest.ToastError msg;
                            SendJobRequest.StopGeneration])%list s)
             = false).
  { intros s. rewrite runStore_app. reflexivity. }
  cbn [CreateJob.mutate].
  rewrite (mutationFn_returned _ _ _ _ _ m _ _ Hp E).
  assert (P : match default GenerationStore.image mediaType with
              | GenerationStore.video => false
              | GenerationStore.image => true
              end
              = match mediaType with
                | Some GenerationStore.video => false
                | _ => true
                end).
  { destruct mediaType as [[|]|]; reflexivity. }
  rewrite P.
  destruct (default GenerationStore.image mediaType);
    eexists; eexists; (split; [reflexivity|]);
    (split; [exact Hm|]); (split; [apply Hs|]); split; reflexivity.
Qed.

Lemma mutation_rejected_by_submitter_witness :
  let u := SendJobRequest.mkUser (Some "user-1") 5 None in
  let m :=
    CreateJob.mkMounted
      (CreateJob.mkJobHook false 0 GenerationStore.image
         (GenerationStore.mkGen false GenerationStore.image)) false in
  (Js.of_string "   " <> []
   /\ SendJobRequest.rejects (Js.of_string "   ") (Some u))
  /\ exists h' trace,
      CreateJob.mutate (Js.of_string "   ") (Some u) None
        [(4242%Z, SendJobRequest.Fulfilled None)] 0 m
      = Some (CreateJob.Succeeded None, CreateJob.mkMounted h' true, trace)
      /\ existsb CreateJob.isPost trace = false
      /\ GenerationStore.isActive (CreateJob.store h') = false
      /\ CreateJob.isGenerating h' = true
      /\ CreateJob.progress h' = 100%Z.
Proof.
  intros u m.
  assert (Hp : Js.of_string "   " <> []) by discriminate.
  assert (R : SendJobRequest.rejects (Js.of_string "   ") (Some u)).
  { left. reflexivity. }
  split; [split; assumption|].
  exact (mutation_rejected_by_submitter (Js.of_string "   ") u None 4242%Z
           (SendJobRequest.Fulfilled None) [] m Hp R).
Defined.

(** X21: an accepted submission through the hook.  For an image the
    mutation succeeds at its first run, as soon as the request is out:
    the store is active for "image" and the hook is generating with
    progress 100.  For a video answered with a job, the mutation returns
    the job at its first run and the store is active for "video".  In
    both cases one request was made; when the hook was not generating
    before, the row polling loop is then set up for the image and not
    for the video, and when it was, the loop is as before.  For a video
    whose request fails, the retry rule decides: an error it does not
    retry fails the mutation after one request; when it retries the
    first two and the third run fails too, three requests were made and
    the mutation fails with the last error.  In both cases the hook is
    then not generating, the flag is cleared, no row polling is set up
    and the post listing was invalidated once. *)
Theorem mutation_accepted :
  forall prompt u uid m,
    SendJobRequest.accepts prompt u uid ->
    (forall mediaType seed reply attempts,
        mediaType <> Some GenerationStore.video ->
        exists trace,
          CreateJob.mutate prompt (Some u) mediaType
            ((seed, reply) :: attempts) 0 m
          = Some (CreateJob.Succeeded None,
                  CreateJob.mkMounted
                    (CreateJob.mkJobHook true 100 GenerationStore.image
                       (GenerationStore.mkGen true GenerationStore.image))
                    (if CreateJob.isGenerating (CreateJob.hook m)
                     then CreateJob.polling m else true),
                  trace)
          /\ length (List.filter CreateJob.isPost trace) = 1)
    /\ (forall seed b d j attempts,
          SendJobRequest.status b = true ->
          SendJobRequest.data b = Some d ->
          SendJobRequest.jobId d = Some j ->
          j <> "" ->
          exists trace,
            CreateJob.mutate prompt (Some u) (Some GenerationStore.video)
              ((seed, SendJobRequest.Fulfilled (Some b)) :: attempts) 0 m
            = Some (CreateJob.Succeeded
                      (Some (SendJobRequest.mkJobRef j
                               (SendJobRequest.postId d))),
                    CreateJob.mkMounted
                      (CreateJob.mkJobHook true 100 GenerationStore.video
                         (GenerationStore.mkGen true GenerationStore.video))
                      (if CreateJob.isGenerating (CreateJob.hook m)
                       then CreateJob.polling m else false),
                    trace)
            /\ length (List.filter CreateJob.isPost trace) = 1)
    /\ (forall seed error attempts,
          CreateJob.retry 0 error = false ->
          exists trace,
            CreateJob.mutate prompt (Some u) (Some GenerationStore.video)
              ((seed, SendJobRequest.Failed error) :: attempts) 0 m
            = Some (CreateJob.Rejected error,
                    CreateJob.mkMounted
                      (CreateJob.mkJobHook false 0 GenerationStore.video
                         (GenerationStore.mkGen false GenerationStore.video))
                      false,
                    trace)
            /\ length (List.filter CreateJob.isPost trace) = 1
            /\ length (List.filter CreateJob.isInvalidate trace) = 1)
    /\ (forall seed1 error1 seed2 error2 seed3 error3 attempts,
          CreateJob.retry 0 error1 = true ->
          CreateJob.retry 1 error2 = true ->
          exists trace,
            CreateJob.mutate prompt (Some u) (Some GenerationStore.video)
              ((seed1, SendJobRequest.Failed error1)
               :: (seed2, SendJobRequest.Failed error2)
               :: (seed3, SendJobRequest.Failed error3) :: attempts) 0 m
            = Some (CreateJob.Rejected error3,
                    CreateJob.mkMounted
                      (CreateJob.mkJobHook false 0 GenerationStore.video
                         (GenerationStore.mkGen false GenerationStore.video))
                      false,
                    trace)
            /\ length (List.filter CreateJob.isPost trace) = 3
            /\ length (List.filter CreateJob.isInvalidate trace) = 1).
Proof.
  intros prompt u uid m A.
  assert (Hp : prompt <> []).
  { destruct A as (_ & _ & Hb & _). intros ->. discriminate Hb. }
  assert (T : forall seed error m0,
             exists tr,
               CreateJob.mutationFn prompt (Some u)
                 (Some GenerationStore.video) seed
                 (SendJobRequest.Failed error) m0
               = (CreateJob.Rejected error,
                  CreateJob.mkMounted
                    (CreateJob.mkJobHook false 0 GenerationStore.video
                       (GenerationStore.mkGen false GenerationStore.video))
                    false,
                  tr)
               /\ length (List.filter CreateJob.isPost tr) = 1
               /\ List.filter CreateJob.isInvalidate tr = []).
  { intros seed error m0.
    destruct (video_request_thrown prompt u uid seed error A)
      as (tr & E & Hn & Hs).
    exists (map CreateJob.Submitter tr).
    rewrite (mutationFn_thrown _ _ (Some GenerationStore.video) _ _ m0 _ _
               Hp E).
    rewrite isPost_submitter, length_map, isInvalidate_submitter, Hs.
    auto. }
  split; [|split; [|split]].
  - intros mediaType seed reply attempts Hm.
    assert (E : default GenerationStore.image mediaType
                = GenerationStore.image).
    { destruct mediaType as [[|]|]; [reflexivity|congruence|reflexivity]. }
    cbn [CreateJob.mutate].
    erewrite mutationFn_returned;
      [|exact Hp|rewrite (sendJobRequest_accepted _ _ _ _ _ _ _ A), E;
                 cbn; reflexivity].
    rewrite E. cbn. eexists. split; reflexivity.
  - intros seed b d j attempts Hs Hd Hj Hne.
    cbn [CreateJob.mutate].
    erewrite mutationFn_returned;
      [|exact Hp|rewrite (sendJobRequest_accepted _ _ _ _ _ _ _ A);
                 cbn; rewrite Hs, Hd; cbn; rewrite Hj; cbn;
                 rewrite (proj2 (truthy_str_ne j) Hne); cbn; reflexivity].
    cbn. eexists. split; reflexivity.
  - intros seed error attempts Hr.
    destruct (T seed error m) as (tr & E & Hn & Hi).
    cbn [CreateJob.mutate]. rewrite E, Hr.
    rewrite onError_idle by reflexivity. cbn.
    eexists. split; [reflexivity|].
    rewrite !List.filter_app, !length_app, Hn, Hi. cbn. auto.
  - intros seed1 error1 seed2 error2 seed3 error3 attempts Hr1 Hr2.
    destruct (T seed1 error1 m) as (tr1 & E1 & Hn1 & Hi1).
    destruct (T seed2 error2
                (CreateJob.mkMounted
                   (CreateJob.mkJobHook false 0 GenerationStore.video
                      (GenerationStore.mkGen false GenerationStore.video))
                   false)) as (tr2 & E2 & Hn2 & Hi2).
    destruct (T seed3 error3
                (CreateJob.mkMounted
                   (CreateJob.mkJobHook false 0 GenerationStore.video
                      (GenerationStore.mkGen false GenerationStore.video))
                   false)) as (tr3 & E3 & Hn3 & Hi3).
    assert (Hr3 : CreateJob.retry 2 error3 = false).
    { unfold CreateJob.retry.
      destruct (CreateJob.includes _ _ || CreateJob.includes _ _);
        reflexivity. }
    cbn [CreateJob.mutate]. rewrite E1, Hr1, E2, Hr2, E3, Hr3.
    rewrite onError_idle by reflexivity. cbn.
    eexists. split; [reflexivity|].
    rewrite !List.filter_app, !length_app, Hn1, Hn2, Hn3, Hi1, Hi2, Hi3.
    cbn. auto.
Qed.

Lemma mutation_accepted_witness :
  let u := SendJobRequest.mkUser (Some "user-1") 5 None in
  let m :=
    CreateJob.mkMounted
      (CreateJob.mkJobHook false 0 GenerationStore.image
         (GenerationStore.mkGen false GenerationStore.image)) false in
  let error :=
    SendJobRequest.AxiosError (Some "ECONNABORTED") None
      "timeout of 10000ms exceeded" in
  (SendJobRequest.accepts (Js.of_string "a red fox in snow") u "user-1"
   /\ CreateJob.retry 0 error = true
   /\ CreateJob.retry 1 error = true)
  /\ exists trace,
      CreateJob.mutate (Js.of_string "a red fox in snow") (Some u)
        (Some GenerationStore.video)
        [(4242%Z, SendJobRequest.Failed error);
         (4243%Z, SendJobRequest.Failed error);
         (4244%Z, SendJobRequest.Failed error)] 0 m
      = Some (CreateJob.Rejected error,
              CreateJob.mkMounted
                (CreateJob.mkJobHook false 0 GenerationStore.video
                   (GenerationStore.mkGen false GenerationStore.video))
                false,
              trace)
      /\ length (List.filter CreateJob.isPost trace) = 3
      /\ length (List.filter CreateJob.isInvalidate trace) = 1.
Proof.
  intros u m error.
  assert (A : SendJobRequest.accepts
                (Js.of_string "a red fox in snow") u "user-1").
  { unfold SendJobRequest.accepts. repeat split; try reflexivity.
    cbn. lia. }
  assert (R0 : CreateJob.retry 0 error = true) by reflexivity.
  assert (R1 : CreateJob.retry 1 error = true) by reflexivity.
  split; [split; [exact A|split; assumption]|].
  exact (proj2 (proj2 (proj2 (mutation_accepted _ _ _ m A)))
           4242%Z error 4243%Z error 4244%Z error [] R0 R1).
Defined.

(** ** The row polling loop over time *)
Section Rows.
Import GenerationStore UseCreateJob RowPolling.

(** One tick whose query settles at once either detects a new post,
    which ends the generation and navigates once, or leaves the hook
    generating as before with at most a log line more. *)
Lemma tick_cases (hasUser : bool) (q : QueryResult) (h : Hook) :
  (isGenerating (intervalTick hasUser q h) = false
   /\ length (List.filter isPush (effects (intervalTick hasUser q h)))
      <= length (List.filter isPush (effects h)) + 1
   /\ length (List.filter isInvalidate
                (effects (intervalTick hasUser q h)))
      <= length (List.filter isInvalidate (effects h)) + 1)
  \/ (isGenerating (intervalTick hasUser q h) = isGenerating h
      /\ store (intervalTick hasUser q h) = store h
      /\ List.filter isPush (effects (intervalTick hasUser q h))
         = List.filter isPush (effects h)
      /\ List.filter isInvalidate (effects (intervalTick hasUser q h))
         = List.filter isInvalidate (effects h)).
Proof.
  unfold intervalTick.
  destruct (negb hasUser || negb (isGenerating h)); [right; auto|].
  unfold pollTick. destruct q as [id| |].
  - case_bool_decide.
    + left. cbn. rewrite !List.filter_app, !length_app. cbn. lia.
    + right. auto.
  - right. auto.
  - right. cbn. rewrite !List.filter_app. cbn. rewrite !app_nil_r. auto.
Qed.

(** A tick and the answer to its query, with nothing else pending. *)
Lemma round_settled (hasUser : bool) (q : QueryResult) (h : Hook) :
  run hasUser [Tick; Answer q] (mkLoop h 0)
  = mkLoop (intervalTick hasUser q h) 0.
Proof.
  unfold run, intervalTick. cbn.
  destruct (negb hasUser || negb (isGenerating h)); reflexivity.
Qed.

(** Once the hook is not generating and no query is pending, nothing
    happens any more. *)
Lemma run_idle (hasUser : bool) (es : list Event) (h : Hook) :
  isGenerating h = false -> run hasUser es (mkLoop h 0) = mkLoop h 0.
Proof.
  intros Hg. unfold run.
  induction es as [|e es IH]; [reflexivity|]. cbn [fold_left].
  destruct e as [|q]; cbn; [rewrite Hg, orb_true_r|]; exact IH.
Qed.

Lemma run_sequential_cons (hasUser : bool) q qs (h : Hook) :
  run hasUser (sequential (q :: qs)) (mkLoop h 0)
  = run hasUser (sequential qs) (mkLoop (intervalTick hasUser q h) 0).
Proof.
  change (sequential (q :: qs)) with ([Tick; Answer q] ++ sequential qs)%list.
  unfold run. rewrite fold_left_app.
  change (fold_left (step hasUser) [Tick; Answer q] (mkLoop h 0))
    with (run hasUser [Tick; Answer q] (mkLoop h 0)).
  rewrite round_settled. reflexivity.
Qed.

End Rows.

(** X22: when the row polling loop navigates.  As long as every query
    settles before the next tick, the loop reports at most one new post
    per generation: whatever the queries return and however many ticks
    run, it navigates at most once and invalidates the post listing at
    most once, and no query is left pending.  Once the hook is not
    generating and no query is pending, after a detection or after
    [cancelJob], further ticks send nothing and nothing changes.  But a
    query that is pending when the generation ends is handled when it
    settles: after [cancelJob], or after a detection by an overlapping
    query, a row other than the last one seen makes the loop navigate
    (again). *)
Theorem navigation_once_unless_overlapping :
  forall hasUser h,
    (forall qs,
        let l := RowPolling.run hasUser (RowPolling.sequential qs)
                   (RowPolling.mkLoop h 0) in
        RowPolling.pending l = 0
        /\ length (List.filter RowPolling.isPush
                     (UseCreateJob.effects (RowPolling.hook l)))
           <= length (List.filter RowPolling.isPush
                        (UseCreateJob.effects h)) + 1
        /\ length (List.filter RowPolling.isInvalidate
                     (UseCreateJob.effects (RowPolling.hook l)))
           <= length (List.filter RowPolling.isInvalidate
                        (UseCreateJob.effects h)) + 1)
    /\ (forall es,
          UseCreateJob.isGenerating h = false ->
          RowPolling.run hasUser es (RowPolling.mkLoop h 0)
          = RowPolling.mkLoop h 0)
    /\ (forall es,
          RowPolling.run hasUser es
            (RowPolling.mkLoop (RowPolling.cancelJob h) 0)
          = RowPolling.mkLoop (RowPolling.cancelJob h) 0)
    /\ (forall id n,
          Some id <> UseCreateJob.latestPostId h ->
          List.filter RowPolling.isPush
            (UseCreateJob.effects
               (RowPolling.hook
                  (RowPolling.run hasUser
                     [RowPolling.Answer (UseCreateJob.Row id)]
                     (RowPolling.mkLoop (RowPolling.cancelJob h) (S n)))))
          = (List.filter RowPolling.isPush (UseCreateJob.effects h)
             ++ [UseCreateJob.RouterPush
                   ("/home/photo/" ++ UseCreateJob.id_to_string id)])%list)
    /\ (forall id id',
          hasUser = true ->
          UseCreateJob.isGenerating h = true ->
          Some id <> UseCreateJob.latestPostId h ->
          id' <> id ->
          List.filter RowPolling.isPush
            (UseCreateJob.effects
               (RowPolling.hook
                  (RowPolling.run hasUser
                     [RowPolling.Tick; RowPolling.Tick;
                      RowPolling.Answer (UseCreateJob.Row id);
                      RowPolling.Answer (UseCreateJob.Row id')]
                     (RowPolling.mkLoop h 0))))
          = (List.filter RowPolling.isPush (UseCreateJob.effects h)
             ++ [UseCreateJob.RouterPush
                   ("/home/photo/" ++ UseCreateJob.id_to_string id);
                 UseCreateJob.RouterPush
                   ("/home/photo/" ++ UseCreateJob.id_to_string id')])%list).
Proof.
  intros hasUser h. split; [|split; [|split; [|split]]].
  - intros qs. cbn zeta. revert h.
    induction qs as [|q qs IH]; intros h; [cbn; lia|].
    rewrite run_sequential_cons.
    destruct (tick_cases hasUser q h) as [(Hg & Hp & Hi)|(Hg & Hs & Hp & Hi)].
    + rewrite run_idle by exact Hg. cbn. auto.
    + specialize (IH (UseCreateJob.intervalTick hasUser q h)).
      rewrite Hp, Hi in IH. exact IH.
  - intros es Hg. apply run_idle. exact Hg.
  - intros es. apply run_idle. reflexivity.
  - intros id n Hid. unfold RowPolling.run.
    cbn [fold_left RowPolling.step RowPolling.pending RowPolling.hook].
    unfold UseCreateJob.pollTick.
    cbn [UseCreateJob.latestPostId RowPolling.cancelJob].
    rewrite (bool_decide_eq_true_2 _ Hid).
    cbn [UseCreateJob.effects]. rewrite List.filter_app. reflexivity.
  - intros id id' -> Hg Hid Hne. unfold RowPolling.run.
    cbn [fold_left RowPolling.step RowPolling.pending RowPolling.hook negb
         orb].
    rewrite Hg.
    cbn [fold_left RowPolling.step RowPolling.pending RowPolling.hook negb
         orb].
    rewrite Hg.
    cbn [fold_left RowPolling.step RowPolling.pending RowPolling.hook negb
         orb].
    assert (E : UseCreateJob.pollTick (UseCreateJob.Row id) h
                = UseCreateJob.mkHook false 100
                    (GenerationStore.stopGeneration (UseCreateJob.store h))
                    (Some id)
                    (UseCreateJob.effects h
                     ++ [UseCreateJob.ConsoleLog "New post detected";
                         UseCreateJob.InvalidateQueries ["posts"];
                         UseCreateJob.RouterPush
                           ("/home/photo/" ++ UseCreateJob.id_to_string id)
                        ])%list).
    { unfold UseCreateJob.pollTick.
      rewrite (bool_decide_eq_true_2 _ Hid). reflexivity. }
    rewrite E. unfold UseCreateJob.pollTick.
    cbn [UseCreateJob.latestPostId].
    rewrite bool_decide_eq_true_2 by congruence.
    cbn [UseCreateJob.effects].
    rewrite !List.filter_app. cbn. rewrite <- app_assoc. reflexivity.
Qed.

Lemma navigation_once_unless_overlapping_witness :
  let h :=
    UseCreateJob.mkHook true 0
      (GenerationStore.mkGen true GenerationStore.image) (Some 41%Z) [] in
  (true = true
   /\ UseCreateJob.isGenerating h = true
   /\ Some 42%Z <> UseCreateJob.latestPostId h
   /\ 43%Z <> 42%Z)
  /\ List.filter RowPolling.isPush
       (UseCreateJob.effects
          (RowPolling.hook
             (RowPolling.run true
                [RowPolling.Tick; RowPolling.Tick;
                 RowPolling.Answer (UseCreateJob.Row 42);
                 RowPolling.Answer (UseCreateJob.Row 43)]
                (RowPolling.mkLoop h 0))))
     = [UseCreateJob.RouterPush "/home/photo/42";
        UseCreateJob.RouterPush "/home/photo/43"]
  /\ List.filter RowPolling.isPush
       (UseCreateJob.effects
          (RowPolling.hook
             (RowPolling.run true
                (RowPolling.sequential
                   [UseCreateJob.Row 41; UseCreateJob.QueryRejected;
                    UseCreateJob.Row 42; UseCreateJob.Row 43])
                (RowPolling.mkLoop h 0))))
     = [UseCreateJob.RouterPush "/home/photo/42"].
Proof.
  intros h.
  assert (Hg : UseCreateJob.isGenerating h = true) by reflexivity.
  assert (Hid : Some 42%Z <> UseCreateJob.latestPostId h) by discriminate.
  assert (Hne : 43%Z <> 42%Z) by discriminate.
  split; [repeat split; assumption|].
  split; [|reflexivity].
  exact (proj2 (proj2 (proj2 (proj2
           (navigation_once_unless_overlapping true h))))
           42%Z 43%Z eq_refl Hg Hid Hne).
Defined.

(** X23: what the loop takes for a new post depends on the first query.
    With the flag active and no post id observed yet, the first tick
    that sees a row stops the generation unless [getLatestPost] has
    returned that very row: a post that existed before is reported as new
    when the first query returned no row or failed. *)
Theorem existing_post_needs_baseline :
  forall q0 id h,
    UseCreateJob.latestPostId h = None ->
    GenerationStore.isActive (UseCreateJob.store h) = true ->
    let h' :=
      UseCreateJob.pollTick (UseCreateJob.Row id)
        (UseCreateJob.getLatestPost q0 h) in
    (q0 = UseCreateJob.Row id -> h' = UseCreateJob.getLatestPost q0 h)
    /\ (q0 <> UseCreateJob.Row id ->
        GenerationStore.isActive (UseCreateJob.store h') = false
        /\ UseCreateJob.isGenerating h' = false
        /\ List.filter RowPolling.isPush (UseCreateJob.effects h')
           = (List.filter RowPolling.isPush (UseCreateJob.effects h)
              ++ [UseCreateJob.RouterPush
                    ("/home/photo/" ++ UseCreateJob.id_to_string id)
                 ])%list).
Proof.
  intros q0 id h Hl Ha. cbn zeta. split.
  - intros ->. unfold UseCreateJob.pollTick. cbn.
    rewrite bool_decide_eq_false_2 by (intros D; apply D; reflexivity).
    reflexivity.
  - intros Hq. unfold UseCreateJob.pollTick.
    assert (N : Some id
                <> UseCreateJob.latestPostId
                     (UseCreateJob.getLatestPost q0 h)).
    { destruct q0 as [id0| |]; cbn; rewrite ?Hl; try discriminate.
      intros [= <-]. apply Hq. reflexivity. }
    rewrite (bool_decide_eq_true_2 _ N). cbn.
    repeat split.
    rewrite !List.filter_app. cbn.
    destruct q0 as [id0| |]; cbn; rewrite ?List.filter_app; cbn;
      rewrite ?app_nil_r; reflexivity.
Qed.

Lemma existing_post_needs_baseline_witness :
  let h :=
    UseCreateJob.mkHook true 0
      (GenerationStore.mkGen true GenerationStore.image) None [] in
  let h' :=
    UseCreateJob.pollTick (UseCreateJob.Row 41)
      (UseCreateJob.getLatestPost UseCreateJob.QueryRejected h) in
  UseCreateJob.QueryRejected <> UseCreateJob.Row 41
  /\ GenerationStore.isActive (UseCreateJob.store h') = false
  /\ List.filter RowPolling.isPush (UseCreateJob.effects h')
     = [UseCreateJob.RouterPush "/home/photo/41"].
Proof.
  intros h h'.
  assert (N : UseCreateJob.QueryRejected <> UseCreateJob.Row 41)
    by discriminate.
  split; [exact N|].
  destruct (existing_post_needs_baseline UseCreateJob.QueryRejected 41%Z h
              eq_refl eq_refl) as [_ New].
  destruct (New N) as (A & _ & C).
  split; [exact A|exact C].
Defined.

(** ** The video generation route *)
Section GenerationRoute.
Import VideoGenerationRoute.

Lemma onCatch_code (message : string) :
  (code (onCatch message) = 400%Z \/ code (onCatch message) = 500%Z)
  /\ r_status (json (onCatch message)) = false
  /\ r_data (json (onCatch message)) = None.
Proof.
  unfold onCatch.
  destruct (CreateJob.includes message "required"
            || CreateJob.includes message "invalid"); cbn; auto.
Qed.

End GenerationRoute.

(** X24: the generation route answers 200, 400, 401 or 500, and its
    body says [status: true] exactly when the code is 200.  It answers
    200 only when the body is valid, a user is authenticated, the video
    API accepted the job, the post was inserted and the job was queued;
    the body then carries the job id of the API and the id of the inserted
    post, and the three outside calls were made in that order. *)
Theorem generation_route_success :
  forall supabaseUrl srk body user api insert queue,
    let r := VideoGenerationRoute.POST
               supabaseUrl srk body user api insert queue in
    let response := fst r in
    In (VideoGenerationRoute.code response) [200; 400; 401; 500]%Z
    /\ (VideoGenerationRoute.r_status (VideoGenerationRoute.json response)
        = true
        <-> VideoGenerationRoute.code response = 200%Z)
    /\ (VideoGenerationRoute.code response = 200%Z ->
        exists requestBody requestData jobId postId,
          body = VideoGenerationRoute.Json requestBody
          /\ VideoGenerationRoute.validateRequest requestBody
             = inr requestData
          /\ Js.truthy_ostr (mjoin user) = true
          /\ api = VideoGenerationRoute.ApiOk jobId
          /\ insert = VideoGenerationRoute.Inserted postId
          /\ queue = VideoGenerationRoute.Queued
          /\ VideoGenerationRoute.r_data
               (VideoGenerationRoute.json response)
             = Some (VideoGenerationRoute.mkResponseData
                       (VideoGenerationRoute.d_prompt requestData)
                       (VideoGenerationRoute.d_author requestData)
                       (VideoGenerationRoute.d_category requestData)
                       jobId postId "few minutes")
          /\ snd r
             = [VideoGenerationRoute.CallVideoApi
                  (VideoGenerationRoute.d_prompt requestData);
                VideoGenerationRoute.InsertPost
                  (VideoGenerationRoute.d_author requestData)
                  (VideoGenerationRoute.d_prompt requestData)
                  (VideoGenerationRoute.d_category requestData) jobId;
                VideoGenerationRoute.SendToQueue jobId (Some postId)]).
Proof.
  intros supabaseUrl srk body user api insert queue r response.
  subst response r. unfold VideoGenerationRoute.POST.
  assert (Caught : forall message calls,
             let response := VideoGenerationRoute.onCatch message in
             In (VideoGenerationRoute.code response) [200; 400; 401; 500]%Z
             /\ (VideoGenerationRoute.r_status
                   (VideoGenerationRoute.json response) = true
                 <-> VideoGenerationRoute.code response = 200%Z)
             /\ (VideoGenerationRoute.code response = 200%Z ->
                 exists requestBody requestData jobId postId,
                   body = VideoGenerationRoute.Json requestBody
                   /\ VideoGenerationRoute.validateRequest requestBody
                      = inr requestData
                   /\ Js.truthy_ostr (mjoin user) = true
                   /\ api = VideoGenerationRoute.ApiOk jobId
                   /\ insert = VideoGenerationRoute.Inserted postId
                   /\ queue = VideoGenerationRoute.Queued
                   /\ VideoGenerationRoute.r_data
                        (VideoGenerationRoute.json response)
                      = Some (VideoGenerationRoute.mkResponseData
                                (VideoGenerationRoute.d_prompt requestData)
                                (VideoGenerationRoute.d_author requestData)
                                (VideoGenerationRoute.d_category
                                   requestData)
                                jobId postId "few minutes")
                   /\ calls
                      = [VideoGenerationRoute.CallVideoApi
                           (VideoGenerationRoute.d_prompt requestData);
                         VideoGenerationRoute.InsertPost
                           (VideoGenerationRoute.d_author requestData)
                           (VideoGenerationRoute.d_prompt requestData)
                           (VideoGenerationRoute.d_category requestData)
                           jobId;
                         VideoGenerationRoute.SendToQueue jobId
                           (Some postId)])).
  { intros message calls response.
    destruct (onCatch_code message) as ([Hc|Hc] & Hs & _);
      subst response; rewrite Hc, Hs; cbn;
      (split; [auto 6|]); split;
      try (split; intros D; discriminate D);
      intros D; discriminate D. }
  destruct (negb (Js.truthy_str supabaseUrl) || negb (Js.truthy_str srk)).
  { cbn. split; [auto 6|]. split; [split; intros D; discriminate D|].
    intros D. discriminate D. }
  destruct body as [requestBody|message]; [|apply Caught].
  destruct (VideoGenerationRoute.validateRequest requestBody)
    as [message|requestData] eqn:Ev; [apply Caught|].
  destruct (Js.truthy_ostr (mjoin user)) eqn:Eu; cbn [negb].
  2: { cbn. split; [auto 6|]. split; [split; intros D; discriminate D|].
       intros D. discriminate D. }
  destruct api as [jobId|statusText|message]; [|apply Caught..].
  destruct queue as [|text]; [|apply Caught].
  destruct insert as [postId|message]; [|apply Caught].
  cbn. split; [auto|]. split; [split; reflexivity|].
  intros _. exists requestBody, requestData, jobId, postId.
  repeat split; auto.
Qed.

Lemma generation_route_success_witness :
  let body :=
    VideoGenerationRoute.Json
      (VideoGenerationRoute.mkRequestBody
         (Some (VideoGenerationRoute.mkBodyInputs
                  (Some (Js.of_string "a red fox in snow"))))
         (Some "user-1") (Some "GENERATION")) in
  let r :=
    VideoGenerationRoute.POST "https://db.example" "service-key" body
      (Some (Some "user-1")) (VideoGenerationRoute.ApiOk "job-42")
      (VideoGenerationRoute.InsertError
         "invalid input syntax for type uuid")
      VideoGenerationRoute.Queued in
  VideoGenerationRoute.code (fst r) = 400%Z
  /\ VideoGenerationRoute.r_status (VideoGenerationRoute.json (fst r))
     <> true.
Proof.
  intros body r. split; [reflexivity|].
  destruct (generation_route_success "https://db.example" "service-key"
              body (Some (Some "user-1"))
              (VideoGenerationRoute.ApiOk "job-42")
              (VideoGenerationRoute.InsertError
                 "invalid input syntax for type uuid")
              VideoGenerationRoute.Queued) as (_ & Iff & _).
  intros Hs. apply Iff in Hs. discriminate Hs.
Defined.

(** X25: the outside calls of the generation route.  Nothing is called
    for an unreadable or invalid body or an unauthenticated request; the
    video API is called first, with the prompt of the body; a post is
    inserted only for a job the API accepted, with that job id and with
    the author of the body, whoever is authenticated; and the job is then
    queued even when the insert failed, without a post, although the
    response reports a failure. *)
Theorem generation_route_calls :
  forall supabaseUrl srk body user api insert queue,
    let r := VideoGenerationRoute.POST
               supabaseUrl srk body user api insert queue in
    (snd r = []
     \/ exists requestBody requestData,
         body = VideoGenerationRoute.Json requestBody
         /\ VideoGenerationRoute.validateRequest requestBody
            = inr requestData
         /\ Js.truthy_ostr (mjoin user) = true
         /\ (snd r
             = [VideoGenerationRoute.CallVideoApi
                  (VideoGenerationRoute.d_prompt requestData)]
             /\ (forall jobId, api <> VideoGenerationRoute.ApiOk jobId)
             \/ exists jobId,
                 api = VideoGenerationRoute.ApiOk jobId
                 /\ snd r
                    = [VideoGenerationRoute.CallVideoApi
                         (VideoGenerationRoute.d_prompt requestData);
                       VideoGenerationRoute.InsertPost
                         (VideoGenerationRoute.d_author requestData)
                         (VideoGenerationRoute.d_prompt requestData)
                         (VideoGenerationRoute.d_category requestData)
                         jobId;
                       VideoGenerationRoute.SendToQueue jobId
                         (match insert with
                          | VideoGenerationRoute.Inserted postId =>
                              Some postId
                          | VideoGenerationRoute.InsertError _ => None
                          end)]))
    /\ (forall message,
          insert = VideoGenerationRoute.InsertError message ->
          VideoGenerationRoute.code (fst r) <> 200%Z).
Proof.
  intros supabaseUrl srk body user api insert queue r. subst r.
  unfold VideoGenerationRoute.POST. split.
  - destruct (negb (Js.truthy_str supabaseUrl) || negb (Js.truthy_str srk));
      [left; reflexivity|].
    destruct body as [requestBody|message]; [|left; reflexivity].
    destruct (VideoGenerationRoute.validateRequest requestBody)
      as [message|requestData] eqn:Ev; [left; reflexivity|].
    destruct (Js.truthy_ostr (mjoin user)) eqn:Eu; cbn [negb];
      [|left; reflexivity].
    right. exists requestBody, requestData.
    split; [reflexivity|]. split; [exact Ev|]. split; [reflexivity|].
    destruct api as [jobId|statusText|message].
    + right. exists jobId. split; [reflexivity|].
      destruct queue, insert; reflexivity.
    + left. split; [reflexivity|]. intros j D. discriminate D.
    + left. split; [reflexivity|]. intros j D. discriminate D.
  - intros message ->.
    destruct (negb (Js.truthy_str supabaseUrl) || negb (Js.truthy_str srk));
      [cbn; discriminate|].
    assert (C : forall m,
               VideoGenerationRoute.code (VideoGenerationRoute.onCatch m)
               <> 200%Z).
    { intros m. destruct (onCatch_code m) as ([E|E] & _); rewrite E;
        discriminate. }
    destruct body as [requestBody|m]; [|apply C].
    destruct (VideoGenerationRoute.validateRequest requestBody);
      [apply C|].
    destruct (negb (Js.truthy_ostr (mjoin user))); [cbn; discriminate|].
    destruct api; [|apply C..].
    destruct queue; apply C.
Qed.

Lemma generation_route_calls_witness :
  let body :=
    VideoGenerationRoute.Json
      (VideoGenerationRoute.mkRequestBody
         (Some (VideoGenerationRoute.mkBodyInputs
                  (Some (Js.of_string "a red fox in snow"))))
         (Some "someone-else") (Some "GENERATION")) in
  let r :=
    VideoGenerationRoute.POST "https://db.example" "service-key" body
      (Some (Some "user-1")) (VideoGenerationRoute.ApiOk "job-42")
      (VideoGenerationRoute.InsertError "duplicate key")
      VideoGenerationRoute.Queued in
  VideoGenerationRoute.InsertError "duplicate key"
  = VideoGenerationRoute.InsertError "duplicate key"
  /\ VideoGenerationRoute.code (fst r) <> 200%Z
  /\ snd r
     = [VideoGenerationRoute.CallVideoApi (Js.of_string "a red fox in snow");
        VideoGenerationRoute.InsertPost "someone-else"
          (Js.of_string "a red fox in snow") "GENERATION" "job-42";
        VideoGenerationRoute.SendToQueue "job-42" None].
Proof.
  intros body r. split; [reflexivity|].
  destruct (generation_route_calls "https://db.example" "service-key" body
              (Some (Some "user-1")) (VideoGenerationRoute.ApiOk "job-42")
              (VideoGenerationRoute.InsertError "duplicate key")
              VideoGenerationRoute.Queued) as [_ Bad].
  split; [exact (Bad "duplicate key" eq_refl)|reflexivity].
Defined.

(** X26: the client and the generation route fit together.  The request
    an accepted video submission sends passes the route's validation,
    with the trimmed prompt, the user's id as author and the category
    "GENERATION"; and when the route's outside calls all succeed for a
    non-empty job id, the route answers 200 and the submitter, given that
    answer, returns exactly the job id of the video API and the id of the
    inserted post. *)
Theorem client_and_route_agree :
  forall prompt u uid imageCount seed supabaseUrl srk sid jobId postId,
    SendJobRequest.accepts prompt u uid ->
    supabaseUrl <> "" -> srk <> "" -> sid <> "" -> jobId <> "" ->
    exists payload headers,
      (forall reply,
          hd_error
            (snd (SendJobRequest.sendJobRequest
                    prompt (Some u) imageCount (Some GenerationStore.video)
                    seed reply))
          = Some (SendJobRequest.HttpPost "/api/videos/generations"
                    payload headers))
      /\ VideoGenerationRoute.validateRequest
           (VideoGenerationRoute.bodyOf payload)
         = inr (VideoGenerationRoute.mkRequestData
                  (Js.trim prompt) uid "GENERATION")
      /\ let r :=
           VideoGenerationRoute.POST supabaseUrl srk
             (VideoGenerationRoute.Json
                (VideoGenerationRoute.bodyOf payload))
             (Some (Some sid)) (VideoGenerationRoute.ApiOk jobId)
             (VideoGenerationRoute.Inserted postId)
             VideoGenerationRoute.Queued in
         VideoGenerationRoute.code (fst r) = 200%Z
         /\ SendJobRequest.sendJobRequest
              prompt (Some u) imageCount (Some GenerationStore.video) seed
              (SendJobRequest.Fulfilled
                 (Some (VideoGenerationRoute.clientBody
                          (VideoGenerationRoute.json (fst r)))))
            = (SendJobRequest.Returned
                 (Some (SendJobRequest.mkJobRef jobId (Some postId))),
               [SendJobRequest.HttpPost "/api/videos/generations"
                  payload headers]).
Proof.
  intros prompt u uid imageCount seed supabaseUrl srk sid jobId postId
    A Hurl Hsrk Hsid Hjob.
  assert (Hp : exists c rest, Js.trim prompt = c :: rest).
  { destruct (Js.trim prompt) as [|c rest] eqn:E; [|eauto].
    apply trim_nil in E. destruct A as (_ & _ & Hb & _). congruence. }
  destruct Hp as (c & rest & Hp).
  destruct A as (Hid & Huid & Hb & Hl).
  assert (A : SendJobRequest.accepts prompt u uid) by (repeat split; auto).
  eexists. eexists. split; [|split].
  - intros reply. rewrite (sendJobRequest_accepted _ _ _ _ _ _ _ A).
    cbn zeta. cbn [default from_option].
    destruct reply as [[b|]|e];
      [destruct (SendJobRequest.status b
                 && Js.truthy_ostr
                      (SendJobRequest.data b ≫= SendJobRequest.jobId))| |];
      reflexivity.
  - unfold VideoGenerationRoute.validateRequest. cbn. rewrite Hp, Huid.
    reflexivity.
  - cbn zeta. rewrite (sendJobRequest_accepted _ _ _ _ _ _ _ A).
    unfold VideoGenerationRoute.POST.
    rewrite (proj2 (truthy_str_ne supabaseUrl) Hurl).
    rewrite (proj2 (truthy_str_ne srk) Hsrk). cbn [negb orb].
    unfold VideoGenerationRoute.validateRequest. cbn. rewrite Hp, Huid.
    cbn. rewrite (proj2 (truthy_str_ne sid) Hsid). cbn.
    split; [reflexivity|].
    rewrite (proj2 (truthy_str_ne jobId) Hjob). cbn.
    rewrite ?Hp. reflexivity.
Qed.

Lemma client_and_route_agree_witness :
  let u := SendJobRequest.mkUser (Some "user-1") 5 None in
  let payload :=
    SendJobRequest.mkRequest
      (SendJobRequest.mkInputs (Js.of_string "a red fox in snow") 4242 1)
      "user-1" "GENERATION" in
  (SendJobRequest.accepts (Js.of_string " a red fox in snow ") u "user-1"
   /\ "https://db.example" <> "" /\ "service-key" <> ""
   /\ "user-1" <> "" /\ "job-42" <> "")
  /\ exists payload headers,
      VideoGenerationRoute.validateRequest
        (VideoGenerationRoute.bodyOf payload)
      = inr (VideoGenerationRoute.mkRequestData
               (Js.trim (Js.of_string " a red fox in snow "))
               "user-1" "GENERATION")
      /\ SendJobRequest.sendJobRequest
           (Js.of_string " a red fox in snow ") (Some u) None
           (Some GenerationStore.video) 4242
           (SendJobRequest.Fulfilled
              (Some (VideoGenerationRoute.clientBody
                       (VideoGenerationRoute.json
                          (fst (VideoGenerationRoute.POST
                                  "https://db.example" "service-key"
                                  (VideoGenerationRoute.Json
                                     (VideoGenerationRoute.bodyOf payload))
                                  (Some (Some "user-1"))
                                  (VideoGenerationRoute.ApiOk "job-42")
                                  (VideoGenerationRoute.Inserted 17)
                                  VideoGenerationRoute.Queued))))))
         = (SendJobRequest.Returned
              (Some (SendJobRequest.mkJobRef "job-42" (Some 17%Z))),
            [SendJobRequest.HttpPost "/api/videos/generations"
               payload headers]).
Proof.
  intros u payload.
  assert (A : SendJobRequest.accepts
                (Js.of_string " a red fox in snow ") u "user-1").
  { unfold SendJobRequest.accepts. repeat split; try reflexivity.
    cbn. lia. }
  assert (N1 : "https://db.example" <> "") by discriminate.
  assert (N2 : "service-key" <> "") by discriminate.
  assert (N3 : "user-1" <> "") by discriminate.
  assert (N4 : "job-42" <> "") by discriminate.
  split; [split; [exact A|repeat split; assumption]|].
  destruct (client_and_route_agree _ _ _ None 4242%Z
              "https://db.example" "service-key" "user-1" "job-42" 17%Z
              A N1 N2 N3 N4) as (p & h & _ & V & _ & R).
  exists p, h. split; [exact V|exact R].
Defined.

(** ** The video status route *)

(** X27: the status route and the poller.  The route contacts the
    external API only for an authenticated user and a non-empty job id.
    A non-2xx status of that API is passed through as it is when a
    response with a body can have it (300 to 599 except 304); for any
    other the answer cannot be built and the route answers 500.  Seen by
    the poller, the route's answer is a failed poll unless the user is
    authenticated, the job id is not empty and the external API answered
    2xx with a status document, in which case the poller gets that
    document with code 200. *)
Theorem status_route_answers :
  forall user jobId external statusText,
    (forall status text errorText,
        external = VideoStatusRoute.ExtNotOk status text errorText ->
        VideoStatusPoll.ok status = false) ->
    let r := VideoStatusRoute.GET user jobId external in
    (snd r <> None ->
     exists sid,
       user = Some (Some (Some sid)) /\ sid <> "" /\ jobId <> ""
       /\ snd r
          = Some ("https://openai.ideomind.org/v1/videos/status/"
                  ++ jobId)%string)
    /\ (forall status text errorText,
          snd r <> None ->
          external = VideoStatusRoute.ExtNotOk status text errorText ->
          ((300 <= status <= 599)%Z -> status <> 304%Z ->
           fst r
           = VideoStatusRoute.mkResponse status
               (VideoStatusRoute.Problem
                  ("External API error: " ++ text)%string
                  (Some errorText)))
          /\ ((status < 200)%Z \/ (599 < status)%Z \/ status = 304%Z ->
              fst r = VideoStatusRoute.internalError))
    /\ (VideoStatusView.failure
          (VideoStatusRoute.seenByPoller statusText (fst r)) = false
        <-> exists statusData,
            snd r <> None
            /\ external
               = VideoStatusRoute.ExtOk
                   (VideoStatusPoll.Parsed statusData)
            /\ VideoStatusRoute.seenByPoller statusText (fst r)
               = VideoStatusPoll.Http 200 statusText
                   (VideoStatusPoll.Parsed statusData)).
Proof.
  intros user jobId external statusText Hext r. subst r.
  unfold VideoStatusRoute.GET.
  destruct user as [[[sid|]|]|]; cbn [mjoin option_join Js.truthy_ostr negb].
  2-4: split; [intros D; contradiction|];
       (split; [intros ? ? ? D; contradiction|]);
       (split; [intros D; discriminate D|]);
       intros (sd & D & _); contradiction.
  destruct (Js.truthy_str sid) eqn:Hs; cbn [negb].
  2: { split; [intros D; contradiction|].
       split; [intros ? ? ? D; contradiction|].
       split; [intros D; discriminate D|].
       intros (sd & D & _). contradiction. }
  destruct (Js.truthy_str jobId) eqn:Hj; cbn [negb].
  2: { split; [intros D; contradiction|].
       split; [intros ? ? ? D; contradiction|].
       split; [intros D; discriminate D|].
       intros (sd & D & _). contradiction. }
  apply truthy_str_ne in Hs, Hj.
  split.
  { intros _. exists sid.
    destruct external as [[?|?]|status ? ?|];
      try destruct (VideoStatusRoute.carriesBody status); auto. }
  destruct external as [[statusData|message]|status text errorText|message];
    cbn.
  - split; [intros ? ? ? _ D; discriminate D|]. split.
    + intros _. exists statusData. repeat split. discriminate.
    + reflexivity.
  - split; [intros ? ? ? _ D; discriminate D|].
    split; [intros D; discriminate D|].
    intros (sd & _ & D & _). discriminate D.
  - split.
    + intros ? ? ? _ [= <- <- <-]. unfold VideoStatusRoute.carriesBody.
      split.
      * intros Hr Hn.
        destruct (Z.leb_spec 200 status), (Z.leb_spec status 599); try lia.
        destruct (Z.eqb_spec status 204), (Z.eqb_spec status 205),
                 (Z.eqb_spec status 304); try lia.
        reflexivity.
      * intros Hr.
        destruct (Z.leb_spec 200 status), (Z.leb_spec status 599),
                 (Z.eqb_spec status 204), (Z.eqb_spec status 205),
                 (Z.eqb_spec status 304); try lia; reflexivity.
    + destruct (VideoStatusRoute.carriesBody status); cbn;
        [rewrite (Hext status text errorText eq_refl); cbn|];
        (split; [intros D; discriminate D|]);
        intros (sd & _ & D & _); discriminate D.
  - split; [intros ? ? ? _ D; discriminate D|].
    split; [intros D; discriminate D|].
    intros (sd & _ & D & _). discriminate D.
Qed.

Lemma status_route_answers_witness :
  let external := VideoStatusRoute.ExtNotOk 404 "Not Found" "no such job" in
  let r := VideoStatusRoute.GET (Some (Some (Some "user-1"))) "job-42"
             external in
  (forall status text errorText,
      external = VideoStatusRoute.ExtNotOk status text errorText ->
      VideoStatusPoll.ok status = false)
  /\ (snd r <> None /\ (300 <= 404 <= 599)%Z /\ 404%Z <> 304%Z)
  /\ fst r
     = VideoStatusRoute.mkResponse 404
         (VideoStatusRoute.Problem "External API error: Not Found"
            (Some "no such job")).
Proof.
  intros external r.
  assert (H : forall status text errorText,
             external = VideoStatusRoute.ExtNotOk status text errorText ->
             VideoStatusPoll.ok status = false).
  { intros status text errorText [= <- _ _]. reflexivity. }
  assert (N : snd r <> None) by discriminate.
  assert (R : (300 <= 404 <= 599)%Z) by lia.
  assert (D : 404%Z <> 304%Z) by discriminate.
  split; [exact H|]. split; [auto|].
  destruct (status_route_answers (Some (Some (Some "user-1"))) "job-42"
              external "Not Found" H) as (_ & Pass & _).
  exact (proj1 (Pass 404%Z "Not Found" "no such job" N eq_refl) R D).
Defined.

(** X28: a poller whose user is logged out gives up by itself.  When
    every status request reaches the route without an authenticated user,
    the external API is never contacted, the poller counts each answer as
    a failed poll, and it stops with an error at the 11th request,
    whatever the external API would have answered. *)
Theorem logged_out_poller_gives_up :
  forall p db (externals : list VideoStatusRoute.External) statusText,
    Js.truthy_str (VideoStatusPoll.jobId p) = true ->
    let answers :=
      map (fun external =>
             VideoStatusRoute.GET (Some None) (VideoStatusPoll.jobId p)
               external)
          externals in
    let w :=
      VideoStatusPoll.poll p
        (map (fun a => VideoStatusRoute.seenByPoller statusText (fst a))
             answers)
        (VideoStatusPoll.initialWorld db) in
    Forall (fun a => snd a = None) answers
    /\ (length externals <= 10 ->
        VideoStatusPoll.isPolling (VideoStatusPoll.st w) = true)
    /\ (10 < length externals ->
        VideoStatusPoll.isPolling (VideoStatusPoll.st w) = false
        /\ (exists message,
               VideoStatusPoll.error (VideoStatusPoll.st w) = Some message)
        /\ length (VideoStatusPoll.fetched w) = 11)
    /\ VideoStatusPoll.readyCalls w = [].
Proof.
  intros p db externals statusText Hj answers w. subst w answers.
  assert (Hf : forallb VideoStatusView.failure
                 (map (fun a =>
                         VideoStatusRoute.seenByPoller statusText (fst a))
                      (map (fun external =>
                              VideoStatusRoute.GET (Some None)
                                (VideoStatusPoll.jobId p) external)
                           externals)) = true).
  { induction externals as [|e es IH]; [reflexivity|]. cbn. exact IH. }
  destruct (failure_run_budget p db _ Hj Hf) as (Within & Beyond & Calls & _).
  rewrite !length_map in Within, Beyond.
  split; [|split; [|split]].
  - apply List.Forall_forall. intros a Ha.
    apply in_map_iff in Ha as (e & Ea & _). rewrite <- Ea. reflexivity.
  - intros Hl. exact (proj1 (Within Hl)).
  - intros Hl. destruct (Beyond Hl) as (A & B & _ & D). auto.
  - exact Calls.
Qed.

Lemma logged_out_poller_gives_up_witness :
  let p := VideoStatusPoll.mkProps 17 "job-42" in
  let sc :=
    VideoStatusPoll.mkStatus "job-42" VideoStatusPoll.completed
      "09:00" "09:02"
      (Some (VideoStatusPoll.mkVideo "s3://v" "https://cdn/v.mp4")) None in
  let externals :=
    repeat (VideoStatusRoute.ExtOk (VideoStatusPoll.Parsed sc)) 12 in
  let w :=
    VideoStatusPoll.poll p
      (map (fun external =>
              VideoStatusRoute.seenByPoller ""
                (fst (VideoStatusRoute.GET (Some None) "job-42" external)))
           externals)
      (VideoStatusPoll.initialWorld ∅) in
  (Js.truthy_str (VideoStatusPoll.jobId p) = true
   /\ 10 < length externals)
  /\ VideoStatusPoll.isPolling (VideoStatusPoll.st w) = false
  /\ VideoStatusPoll.readyCalls w = [].
Proof.
  intros p sc externals w.
  assert (Hl : 10 < length externals) by (cbn; lia).
  split; [split; [reflexivity|exact Hl]|].
  destruct (logged_out_poller_gives_up p ∅ externals "" eq_refl)
    as (_ & _ & Beyond & Calls).
  split.
  - subst w. rewrite <- map_map. exact (proj1 (Beyond Hl)).
  - subst w. rewrite <- map_map. exact Calls.
Defined.

(** ** Sequences of calls on the in-flight store *)

(** X29: after any sequence of start and stop calls on the store, the
    flag tells whether the last call was a start, and the media type is
    the one of the last start ("image" for a start without argument),
    however many stops followed it; without any start it is the media type
    the store had. *)
Theorem store_after_calls :
  forall cs s,
    GenerationStore.isActive (StoreCalls.calls cs s)
    = match List.last cs StoreCalls.Stop with
      | StoreCalls.Start _ => true
      | StoreCalls.Stop =>
          match cs with
          | [] => GenerationStore.isActive s
          | _ => false
          end
      end
    /\ GenerationStore.mediaType (StoreCalls.calls cs s)
       = default (GenerationStore.mediaType s) (StoreCalls.lastStarted cs).
Proof.
  intros cs s.
  assert (Snoc : forall cs' c,
             StoreCalls.calls (cs' ++ [c]) s
             = StoreCalls.call (StoreCalls.calls cs' s) c).
  { intros cs' c. unfold StoreCalls.calls. rewrite fold_left_app.
    reflexivity. }
  assert (SnocL : forall cs' c,
             StoreCalls.lastStarted (cs' ++ [c])
             = match c with
               | StoreCalls.Start m =>
                   Some (default GenerationStore.image m)
               | StoreCalls.Stop => StoreCalls.lastStarted cs'
               end).
  { intros cs' c. unfold StoreCalls.lastStarted. rewrite fold_left_app.
    reflexivity. }
  induction cs as [|c cs IH] using rev_ind; [split; reflexivity|].
  destruct IH as [_ IHm].
  rewrite Snoc, SnocL, List.last_last.
  destruct c as [m|]; cbn.
  - split; reflexivity.
  - split; [destruct cs; reflexivity|exact IHm].
Qed.

Lemma request_iff_accepted_witness :
  let u := SendJobRequest.mkUser (Some "user-1") 5 None in
  let tr :=
    snd (SendJobRequest.sendJobRequest
           (Js.of_string "a red fox in snow") (Some u) None None 4242
           (SendJobRequest.Fulfilled None)) in
  (exists u0 uid,
      Some u = Some u0
      /\ SendJobRequest.accepts (Js.of_string "a red fox in snow") u0 uid)
  /\ existsb SendJobRequest.isHttpPost tr = true
  /\ length (List.filter SendJobRequest.isHttpPost tr) <= 1.
Proof.
  intros u tr.
  assert (A : exists u0 uid,
             Some u = Some u0
             /\ SendJobRequest.accepts
                  (Js.of_string "a red fox in snow") u0 uid).
  { exists u, "user-1". split; [reflexivity|].
    unfold SendJobRequest.accepts. repeat split; try reflexivity.
    cbn. lia. }
  split; [exact A|].
  destruct (request_iff_accepted (Js.of_string "a red fox in snow")
              (Some u) None None 4242%Z (SendJobRequest.Fulfilled None))
    as [Once Iff].
  split; [apply Iff; exact A|exact Once].
Defined.
